(** * game-changers-ml: feature extraction, training, placement ranking, validation

    A shallow embedding of the prediction core of the repository
    ([src/data/processors.py], [src/features/engineering.py],
    [src/models/trainer.py], [src/models/predictor.py],
    [src/validation/validator.py]), of the accuracy of
    [src/services/prediction_service.py], and of [src/domain/tournament.py]
    and [src/utils/config.py], with the properties checked on them.

    Modelling conventions.
    - Python [float] and numpy [float64] values are finite numbers here and
      are represented by rationals [Q]; arithmetic is exact.  Equality of
      computed numbers is [Qeq] ([==]); numbers the code returns as literals
      are compared with [=].  Where a property depends on the rounding, a
      second definition with the suffix [_rounded] takes the rounding
      operator as a parameter.
    - Python [int] is [Z]; [len] and [sum(1 for ...)] produce [Z].  The
      placements of the validator are numpy [int64] arrays: subtraction,
      absolute value and squaring wrap around modulo 2^64.
    - Where two attributes hold one object, the second is a reference to
      the first: [best_model] after training is the estimator held in
      [models], which [fit] changes in place.
    - An exception is a value of [exn]; a computation that may raise returns
      [Result].  [try]/[except] is [try_except].
    - [datetime.now()] reads a clock.  The clock is an explicit state: the
      sequence of the readings still to come.
    - scikit-learn is outside the repository.  What the code needs of it is
      the interface [Sklearn.Lib]: cross-validation scores, fitting, and the
      imputer/scaler pipeline, each of which may raise; the grid search is
      the interface [Sklearn.Search].
    - A dict whose order shows ([models], [tournaments], a loaded
      configuration) is an association list in insertion order; the files
      written by [joblib.dump] are a finite map from paths. *)

From Stdlib Require Import ZArith QArith Qround Qabs Qminmax Lqa Lia String List.
From Stdlib Require Import Sorting.Sorted Sorting.Permutation Ascii.
From stdpp Require Import gmap strings list.

Open Scope Z_scope.
Open Scope Q_scope.

(** ** Python and numpy primitives *)

Module Py.

(** Exceptions deriving from [Exception] that the modelled code can meet. *)
Inductive exn : Type :=
| ZeroDivisionError
| FloatingPointError
| IndexError
| KeyError
| NotFittedError
| ValueError (msg : string).

Inductive Result (A : Type) : Type :=
| Ok (a : A)
| Raise (e : exn).

Arguments Ok {A} a.
Arguments Raise {A} e.

#[global] Instance Result_ret : MRet Result := fun _ a => Ok a.

#[global] Instance Result_bind : MBind Result := fun _ _ f m =>
  match m with
  | Ok a => f a
  | Raise e => Raise e
  end.

(** [try: body except Exception as e: handler e], without state. *)
Definition try_except {A} (body : Result A) (handler : exn -> Result A) : Result A :=
  match body with
  | Ok a => Ok a
  | Raise e => handler e
  end.

(** Computations on a mutable state [S] that may raise.  What was written
    to the state before an exception stays written. *)
Definition SR (S A : Type) : Type := S -> Result A * S.

#[global] Instance SR_ret {S} : MRet (SR S) := fun _ a s => (Ok a, s).

#[global] Instance SR_bind {S} : MBind (SR S) := fun _ _ f m s =>
  match m s with
  | (Ok a, s') => f a s'
  | (Raise e, s') => (Raise e, s')
  end.

Definition lift {S A} (r : Result A) : SR S A := fun s => (r, s).

Definition gets {S A} (f : S -> A) : SR S A := fun s => (Ok (f s), s).

Definition modify {S} (f : S -> S) : SR S unit := fun s => (Ok tt, f s).

(** [try: body except Exception as e: handler e], on a state. *)
Definition try_except_in {S A} (body : SR S A) (handler : exn -> SR S A) : SR S A := fun s =>
  match body s with
  | (Ok a, s') => (Ok a, s')
  | (Raise e, s') => handler e s'
  end.

(** A naive [datetime], as microseconds since the epoch. *)
Definition datetime : Type := Z.

Definition microseconds_per_day : Z := 86400000000.

(** [timedelta.days]: Python normalises a timedelta so that the seconds and
    microseconds parts are non-negative, hence the floor. *)
Definition timedelta_days (delta : Z) : Z := (delta / microseconds_per_day)%Z.

(** The clock: reading number [k] from now on is [c k]. *)
Definition Clock : Type := nat -> datetime.

(** Computations that read the clock and may raise. *)
Abbreviation M := (SR Clock).

Definition datetime_now : M datetime := fun c => (Ok (c 0%nat), fun k => c (S k)).

(** [a / b] on Python numbers. *)
Definition py_div (a b : Q) : Result Q :=
  if Qeq_bool b 0 then Raise ZeroDivisionError else Ok (a / b).

(** [a / b] on numpy scalars.  With a zero divisor numpy warns and yields
    nan or inf, which are no numbers of this model: it is the
    [FloatingPointError] of [np.errstate(divide='raise', invalid='raise')]. *)
Definition np_true_divide (a b : Q) : Result Q :=
  if Qeq_bool b 0 then Raise FloatingPointError else Ok (a / b).

(** Two-argument [min] and [max]: the first argument wins ties. *)
Definition py_min (a b : Q) : Q := if Qlt_le_dec b a then b else a.

Definition py_max (a b : Q) : Q := if Qlt_le_dec a b then b else a.

(** [int(round(x))]: rounding to the nearest integer, halves to even. *)
Definition py_round (x : Q) : Z :=
  let f := Qfloor x in
  match Qcompare (x - inject_Z f) 0.5 with
  | Lt => f
  | Gt => (f + 1)%Z
  | Eq => if Z.even f then f else (f + 1)%Z
  end.

Definition len {A} (l : list A) : Z := Z.of_nat (length l).

(** A numpy [int64], as an array of Python ints within its range has them:
    the result of an operation is taken modulo 2^64 into [-2^63, 2^63).
    [np.abs] of -2^63 is -2^63. *)
Definition int64 (z : Z) : Z := ((z + 2 ^ 63) mod 2 ^ 64 - 2 ^ 63)%Z.

Definition np_subtract (a b : Z) : Z := int64 (a - b).

Definition np_multiply (a b : Z) : Z := int64 (a * b).

Definition np_abs (a : Z) : Z := int64 (Z.abs a).

(** [sum(1 for x in l if p x)]. *)
Definition count_if {A} (p : A -> bool) (l : list A) : Z := len (filter (fun x => p x = true) l).

(** [sum(...)] of numbers, from the start value [0]. *)
Definition py_sum (l : list Q) : Q := fold_left Qplus l 0.

(** [needle in hay] on strings. *)
Fixpoint str_contains (needle hay : string) : bool :=
  if String.prefix needle hay then true
  else match hay with
       | EmptyString => false
       | String _ rest => str_contains needle rest
       end.

(** [x in l] on a list of strings. *)
Definition str_in (x : string) (l : list string) : bool := existsb (String.eqb x) l.

(** [list.sort(key=...)] is stable: elements with equal keys keep their
    order.  A stable sort has one possible result; it is computed here by
    stable insertion. *)
Fixpoint insert_by {A} (key : A -> Z) (x : A) (l : list A) : list A :=
  match l with
  | [] => [x]
  | y :: l' => if (key x <=? key y)%Z then x :: y :: l' else y :: insert_by key x l'
  end.

Definition list_sort {A} (key : A -> Z) (l : list A) : list A :=
  foldr (insert_by key) [] l.

(** [l[i]]. *)
Definition index {A} (l : list A) (i : nat) : Result A :=
  match l !! i with
  | Some x => Ok x
  | None => Raise IndexError
  end.

(** [d[k] = v] on a dict kept in insertion order: an existing key keeps its
    position. *)
Fixpoint dict_set {K V} `{EqDecision K} (k : K) (v : V) (d : list (K * V)) : list (K * V) :=
  match d with
  | [] => [(k, v)]
  | (k', v') :: d' => if decide (k = k') then (k, v) :: d' else (k', v') :: dict_set k v d'
  end.

(** [min(l, key=...)]: the first element whose key is the least. *)
Definition py_min_by {A} (key : A -> Q) (l : list A) : Result A :=
  match l with
  | [] => Raise (ValueError "min() arg is an empty sequence")
  | x :: rest =>
      Ok (fold_left (fun best y => if Qlt_le_dec (key y) (key best) then y else best) rest x)
  end.

(** [arr.mean()] and [np.mean(arr)]: the sum over the size. *)
Definition np_mean (arr : list Q) : Result Q :=
  np_true_divide (py_sum arr) (inject_Z (len arr)).

(** A boolean array counts as zeros and ones. *)
Definition as_float (b : bool) : Q := if b then 1 else 0.

(** [d[k]], [d.get(k)] and [del d[k]] on a dict kept in insertion order. *)
Fixpoint dict_get {K V} `{EqDecision K} (k : K) (d : list (K * V)) : Result V :=
  match d with
  | [] => Raise KeyError
  | (k', v) :: d' => if decide (k = k') then Ok v else dict_get k d'
  end.

Definition dict_lookup {K V} `{EqDecision K} (k : K) (d : list (K * V)) : option V :=
  match dict_get k d with
  | Ok v => Some v
  | Raise _ => None
  end.

Fixpoint dict_del {K V} `{EqDecision K} (k : K) (d : list (K * V)) : list (K * V) :=
  match d with
  | [] => []
  | (k', v) :: d' => if decide (k = k') then d' else (k', v) :: dict_del k d'
  end.

(** [s.split(sep)] for a one-character separator: never the empty list. *)
Fixpoint str_split (sep : Ascii.ascii) (s : string) : list string :=
  match s with
  | EmptyString => [EmptyString]
  | String c rest =>
      if Ascii.eqb c sep then EmptyString :: str_split sep rest
      else match str_split sep rest with
           | [] => [String c EmptyString]
           | piece :: pieces => String c piece :: pieces
           end
  end.

(** [sep.join(pieces)]. *)
Fixpoint str_join (sep : Ascii.ascii) (pieces : list string) : string :=
  match pieces with
  | [] => EmptyString
  | [piece] => piece
  | piece :: rest => String.append piece (String sep (str_join sep rest))
  end.

End Py.

Import Py.

(** ** src/domain/entities.py *)

Module Player.

Record t : Type := mk {
  id : string;
  name : string;
  role : string;
  stats : gmap string Q
}.

End Player.

(** An entry of [Team.recent_matches]: a dict with the keys [opponent],
    [result] and [date], and possibly [event] (the code reads it with
    [.get('event', '')]). *)
Module MatchDict.

Record t : Type := mk {
  opponent : string;
  result : string;
  date : datetime;
  event : option string
}.

End MatchDict.

Module Team.

(** [formed_date] is tested with [if not team.formed_date]: it may be None. *)
Record t : Type := mk {
  id : string;
  name : string;
  region : string;
  players : list Player.t;
  formed_date : option datetime;
  recent_matches : list MatchDict.t
}.

End Team.

Module TrainingFeatures.

Record t : Type := mk {
  team_id : string;
  roster_stability : Q;
  avg_player_rating : Q;
  avg_acs : Q;
  avg_kdr : Q;
  avg_kast : Q;
  win_rate : Q;
  recent_form : Q;
  strength_of_schedule : Q;
  tournament_results : Q;
  target : option Z
}.

End TrainingFeatures.

(** ** src/data/processors.py *)

Module Processors.

(** The dict returned by [calculate_individual_performance]. *)
Record IndividualPerformance : Type := {
  avg_rating : Q;
  avg_acs : Q;
  avg_kdr : Q;
  avg_kast : Q
}.

(** The dict returned by [calculate_team_performance]. *)
Record TeamPerformance : Type := {
  win_rate : Q;
  recent_form : Q;
  strength_of_schedule : Q
}.

Definition calculate_roster_stability (team : Team.t) : M Q :=
  match Team.formed_date team with
  | None => mret 0.5
  | Some formed =>
      now ← datetime_now;
      let days_together := timedelta_days (now - formed) in
      let max_days := 365%Z in
      ratio ← lift (py_div (inject_Z days_together) (inject_Z max_days));
      let stability := py_min ratio 1.0 in
      roster_completeness ← lift (py_div (inject_Z (len (Team.players team))) 5);
      let stability := stability * roster_completeness in
      mret stability
  end.

(** [player.stats.get(key, 0)]. *)
Definition stat (key : string) (player : Player.t) : Q :=
  default 0 (Player.stats player !! key).

Definition calculate_individual_performance (team : Team.t) : Result IndividualPerformance :=
  match Team.players team with
  | [] => mret {| avg_rating := 0.0; avg_acs := 0.0; avg_kdr := 0.0; avg_kast := 0.0 |}
  | _ :: _ =>
      let total_rating := py_sum (map (stat "rating") (Team.players team)) in
      let total_acs := py_sum (map (stat "acs") (Team.players team)) in
      let total_kdr := py_sum (map (stat "kdr") (Team.players team)) in
      let total_kast := py_sum (map (stat "kast") (Team.players team)) in
      let num_players := inject_Z (len (Team.players team)) in
      a_rating ← py_div total_rating num_players;
      a_acs ← py_div total_acs num_players;
      a_kdr ← py_div total_kdr num_players;
      a_kast ← py_div total_kast num_players;
      mret {| avg_rating := a_rating; avg_acs := a_acs; avg_kdr := a_kdr; avg_kast := a_kast |}
  end.

Definition is_win (m : MatchDict.t) : bool := String.eqb (MatchDict.result m) "win".

(** The loop over [enumerate(team.recent_matches[:6])], from index [i], with
    the two accumulators. *)
Fixpoint form_loop (i : Z) (matches : list MatchDict.t) (recent_form form_weight : Q) : Result (Q * Q) :=
  match matches with
  | [] => mret (recent_form, form_weight)
  | m :: rest =>
      weight ← py_div 1.0 (inject_Z (i + 1));
      let form_weight := form_weight + weight in
      let recent_form := recent_form + weight * (if is_win m then 1.0 else 0.0) in
      form_loop (i + 1) rest recent_form form_weight
  end.

Definition strong_opponents : list string :=
  ["G2 Gozen"; "Team Liquid Brazil"; "Shopify Rebellion Gold"]%string.

(** The number of recent matches against a strong opponent. *)
Definition strong_opponent_matches (team : Team.t) : Z :=
  count_if (fun m => str_in (MatchDict.opponent m) strong_opponents) (Team.recent_matches team).

(** The schedule strength before the final [min(., 1.0)]. *)
Definition raw_strength_of_schedule (team : Team.t) : Result Q :=
  let total_matches := len (Team.recent_matches team) in
  boost ← (if (0 <? total_matches)%Z
           then (frac ← py_div (inject_Z (strong_opponent_matches team)) (inject_Z total_matches);
                 mret (frac * 0.3))
           else mret 0);
  mret (0.5 + boost).

Definition calculate_team_performance (team : Team.t) : Result TeamPerformance :=
  match Team.recent_matches team with
  | [] => mret {| win_rate := 0.5; recent_form := 0.5; strength_of_schedule := 0.5 |}
  | _ :: _ =>
      let wins := count_if is_win (Team.recent_matches team) in
      let total_matches := len (Team.recent_matches team) in
      w_rate ← (if (0 <? total_matches)%Z
                then py_div (inject_Z wins) (inject_Z total_matches)
                else mret 0.5);
      '(r_form, form_weight) ← form_loop 0 (take 6 (Team.recent_matches team)) 0.0 0.0;
      r_form ← (if Qlt_le_dec 0 form_weight then py_div r_form form_weight else mret w_rate);
      sos ← raw_strength_of_schedule team;
      mret {| win_rate := w_rate; recent_form := r_form; strength_of_schedule := py_min sos 1.0 |}
  end.

(** [m for m in team.recent_matches if 'Game Changers' in m.get('event', '')]. *)
Definition gc_matches (team : Team.t) : list MatchDict.t :=
  List.filter (fun m => str_contains "Game Changers" (default ""%string (MatchDict.event m)))
    (Team.recent_matches team).

Definition calculate_tournament_performance (team : Team.t) : Result Q :=
  match Team.recent_matches team with
  | [] => mret 0.5
  | _ :: _ =>
      match gc_matches team with
      | [] => mret 0.5
      | _ :: _ =>
          let gc_wins := count_if is_win (gc_matches team) in
          py_div (inject_Z gc_wins) (inject_Z (len (gc_matches team)))
      end
  end.

(** The body of the loop of [extract_features], for one team. *)
Definition extract_team_features (team : Team.t) : M TrainingFeatures.t :=
  roster_stability ← calculate_roster_stability team;
  individual_perf ← lift (calculate_individual_performance team);
  team_perf ← lift (calculate_team_performance team);
  tournament_perf ← lift (calculate_tournament_performance team);
  mret {| TrainingFeatures.team_id := Team.id team;
          TrainingFeatures.roster_stability := roster_stability;
          TrainingFeatures.avg_player_rating := avg_rating individual_perf;
          TrainingFeatures.avg_acs := avg_acs individual_perf;
          TrainingFeatures.avg_kdr := avg_kdr individual_perf;
          TrainingFeatures.avg_kast := avg_kast individual_perf;
          TrainingFeatures.win_rate := win_rate team_perf;
          TrainingFeatures.recent_form := recent_form team_perf;
          TrainingFeatures.strength_of_schedule := strength_of_schedule team_perf;
          TrainingFeatures.tournament_results := tournament_perf;
          TrainingFeatures.target := None |}.

Fixpoint extract_features (teams : list Team.t) : M (list TrainingFeatures.t) :=
  match teams with
  | [] => mret []
  | team :: rest =>
      feature_set ← extract_team_features team;
      features ← extract_features rest;
      mret (feature_set :: features)
  end.

End Processors.

(** ** scikit-learn, as far as the code uses it *)

Module Sklearn.

(** A numeric matrix, by rows, and a vector. *)
Definition matrix : Type := list (list Q).
Definition vector : Type := list Q.

(** The keys of [ModelTrainer.models], in the insertion order of the dict. *)
Inductive model_name : Type :=
| random_forest
| gradient_boosting
| ridge.

(** A fitted regressor: its [predict]. *)
Definition Fitted : Type := matrix -> Result vector.

(** The library behind the code.
    - [standardize fit_on X] is the imputer followed by the scaler, both
      fitted on [fit_on] and applied to [X]; [fit_transform X] is
      [standardize X X].
    - [cross_val_score name X y cv] is the array of the per-fold scores
      (negated mean absolute errors) of a fresh clone of the estimator.
    - [fit name X y] fits the estimator on the full data. *)
Class Lib : Type := {
  standardize : matrix -> matrix -> Result matrix;
  cross_val_score : model_name -> matrix -> vector -> Z -> Result vector;
  fit : model_name -> matrix -> vector -> Result Fitted
}.

(** An estimator object: unfitted until [fit] succeeds. *)
Record Estimator : Type := {
  family : model_name;
  fitted : option Fitted
}.

(** [estimator.predict(X)]. *)
Definition estimator_predict (est : Estimator) (X : matrix) : Result vector :=
  match fitted est with
  | Some f => f X
  | None => Raise NotFittedError
  end.

(** A parameter grid of [GridSearchCV]: parameter name to candidate values. *)
Definition ParamGrid : Type := list (string * list Q).

(** [GridSearchCV(estimator, param_grid, cv=cv, scoring=...).fit(X, y)]
    followed by [.best_estimator_]: the refitted best estimator, a new
    object; the estimator passed in is cloned and stays as it was. *)
Class Search : Type := {
  grid_search : Estimator -> ParamGrid -> matrix -> vector -> Z -> Result Estimator
}.

End Sklearn.

Import Sklearn.

(** ** src/features/engineering.py *)

Module Engineering.

(** A row of the frame built by [prepare_features]: the nine columns. *)
Record Row : Type := {
  roster_stability : Q;
  avg_player_rating : Q;
  avg_acs : Q;
  avg_kdr : Q;
  avg_kast : Q;
  win_rate : Q;
  recent_form : Q;
  strength_of_schedule : Q;
  tournament_results : Q
}.

Definition DataFrame : Type := list Row.

(** A row of the frame returned by [create_composite_features]: the nine
    columns and the five derived ones. *)
Record CompositeRow : Type := {
  base : Row;
  stability_performance : Q;
  form_consistency : Q;
  individual_skill : Q;
  tournament_impact : Q;
  team_strength_index : Q
}.

(** The imputer and the scaler are fitted or not; once fitted, their
    statistics are those of the batch they were fitted on. *)
Record FeatureEngineer : Type := {
  fitted_on : option matrix;
  is_fitted : bool
}.

Definition init : FeatureEngineer := {| fitted_on := None; is_fitted := false |}.

Definition feature_row (feature : TrainingFeatures.t) : Row :=
  {| roster_stability := TrainingFeatures.roster_stability feature;
     avg_player_rating := TrainingFeatures.avg_player_rating feature;
     avg_acs := TrainingFeatures.avg_acs feature;
     avg_kdr := TrainingFeatures.avg_kdr feature;
     avg_kast := TrainingFeatures.avg_kast feature;
     win_rate := TrainingFeatures.win_rate feature;
     recent_form := TrainingFeatures.recent_form feature;
     strength_of_schedule := TrainingFeatures.strength_of_schedule feature;
     tournament_results := TrainingFeatures.tournament_results feature |}.

(** [df.values]. *)
Definition row_values (r : Row) : list Q :=
  [roster_stability r; avg_player_rating r; avg_acs r; avg_kdr r; avg_kast r;
   win_rate r; recent_form r; strength_of_schedule r; tournament_results r].

(** Returns the pair [(df, df_scaled)]. *)
Definition prepare_features `{Lib} (features : list TrainingFeatures.t) (fit_scaler : bool)
  : SR FeatureEngineer (DataFrame * matrix) :=
  let df := map feature_row features in
  let values := map row_values df in
  already_fitted ← gets is_fitted;
  if fit_scaler || negb already_fitted then
    df_scaled ← lift (standardize values values);
    modify (fun _ => {| fitted_on := Some values; is_fitted := true |});;
    mret (df, df_scaled)
  else
    fit_on ← gets fitted_on;
    match fit_on with
    | Some fit_on =>
        df_scaled ← lift (standardize fit_on values);
        mret (df, df_scaled)
    | None => lift (Raise NotFittedError)
    end.

Definition composite_row (r : Row) : CompositeRow :=
  let stability_performance := roster_stability r * avg_player_rating r in
  let form_consistency := win_rate r * recent_form r in
  let individual_skill :=
    (avg_player_rating r * 0.4 + avg_acs r * 0.2 + avg_kdr r * 0.2 + avg_kast r * 0.2) / 200 in
  let tournament_impact := tournament_results r * strength_of_schedule r in
  let team_strength_index :=
    individual_skill * 0.3 + win_rate r * 0.25 + recent_form r * 0.2
    + roster_stability r * 0.15 + tournament_impact * 0.1 in
  {| base := r;
     stability_performance := stability_performance;
     form_consistency := form_consistency;
     individual_skill := individual_skill;
     tournament_impact := tournament_impact;
     team_strength_index := team_strength_index |}.

(** The same index in floating point: [fl] rounds every literal that is
    not an integer and the result of every operation.  With [fl] the
    identity this is the [team_strength_index] of [composite_row]. *)
Definition team_strength_index_rounded (fl : Q -> Q) (r : Row) : Q :=
  let mul a b := fl (a * b) in
  let add a b := fl (a + b) in
  let individual_skill :=
    fl (add (add (add (mul (avg_player_rating r) (fl 0.4)) (mul (avg_acs r) (fl 0.2)))
               (mul (avg_kdr r) (fl 0.2)))
          (mul (avg_kast r) (fl 0.2)) / 200) in
  let tournament_impact := mul (tournament_results r) (strength_of_schedule r) in
  add (add (add (add (mul individual_skill (fl 0.3)) (mul (win_rate r) (fl 0.25)))
             (mul (recent_form r) (fl 0.2)))
        (mul (roster_stability r) (fl 0.15)))
    (mul tournament_impact (fl 0.1)).

(** Column arithmetic on a frame is row by row. *)
Definition create_composite_features (df : DataFrame) : list CompositeRow :=
  map composite_row df.

End Engineering.

(** ** src/models/trainer.py *)

Module Trainer.

#[global] Instance model_name_eq_dec : EqDecision model_name.
Proof. solve_decision. Defined.

(** An entry of the dict [results].  [cv_mae_std] is the standard deviation
    of [cv_scores], a square root, and is not kept as a number. *)
Record CandidateResult : Type := {
  cv_mae_mean : Q;
  cv_scores : vector;
  model : Estimator
}.

Definition TrainingResults : Type := list (model_name * CandidateResult).

(** What the attribute [best_model] refers to.  [train_models] assigns it
    the estimator object held in [self.models] under the selected name: the
    two are one object, and [model.fit] changes it in place.  The grid search
    and [joblib.load] give an object of its own. *)
Inductive BestModel : Type :=
| candidate (name : model_name)
| own (est : Estimator).

Record ModelTrainer : Type := {
  models : list (model_name * Estimator);
  best : option BestModel;
  best_model_name : option model_name;
  is_trained : bool
}.

(** [self.best_model], as it reads. *)
Definition best_model (self : ModelTrainer) : option Estimator :=
  match best self with
  | Some (candidate name) => dict_lookup name (models self)
  | Some (own est) => Some est
  | None => None
  end.

Definition init : ModelTrainer :=
  {| models := [(random_forest, {| family := random_forest; fitted := None |});
                (gradient_boosting, {| family := gradient_boosting; fitted := None |});
                (ridge, {| family := ridge; fitted := None |})];
     best := None;
     best_model_name := None;
     is_trained := false |}.

Definition set_is_trained (b : bool) (self : ModelTrainer) : ModelTrainer :=
  {| models := models self; best := best self;
     best_model_name := best_model_name self; is_trained := b |}.

(** [self.best_model = results[best_model_name]['model']], the object held
    in [self.models] under that name, and [self.best_model_name]. *)
Definition set_best (name : model_name) (self : ModelTrainer) : ModelTrainer :=
  {| models := models self; best := Some (candidate name);
     best_model_name := Some name; is_trained := is_trained self |}.

(** [model.fit(X, y)] changes the estimator object held in [self.models],
    and with it what [best_model] reads when it is that object. *)
Definition set_model (name : model_name) (est : Estimator) (self : ModelTrainer) : ModelTrainer :=
  {| models := dict_set name est (models self); best := best self;
     best_model_name := best_model_name self; is_trained := is_trained self |}.

(** The [for name, model in self.models.items()] loop.  The entry
    [results[name]['model']] is the estimator object itself, so it is fitted
    once [model.fit] has returned. *)
Fixpoint train_loop `{Lib} (items : list (model_name * Estimator)) (X : matrix) (y : vector)
    (results : TrainingResults) : SR ModelTrainer TrainingResults :=
  match items with
  | [] => mret results
  | (name, model) :: rest =>
      let cv_folds := Z.min 3 (len X) in
      scores ← lift (cross_val_score (family model) X y cv_folds);
      mean ← lift (np_mean scores);
      fitted_model ← lift (fit (family model) X y);
      let model := {| family := family model; fitted := Some fitted_model |} in
      modify (set_model name model);;
      let results :=
        dict_set name {| cv_mae_mean := - mean; cv_scores := scores; model := model |} results in
      train_loop rest X y results
  end.

(** [results] has one entry per key, so [results[name]] for the [name]
    chosen by [min(results.keys(), key=...)] is the entry chosen here. *)
Definition train_models `{Lib} (X : matrix) (y : vector) : SR ModelTrainer (option TrainingResults) :=
  if (len X <? 3)%Z then
    modify (set_is_trained false);;
    mret None
  else
    try_except_in
      (items ← gets models;
       results ← train_loop items X y [];
       best ← lift (py_min_by (fun item => cv_mae_mean (snd item)) results);
       modify (set_best (fst best));;
       modify (set_is_trained true);;
       mret (Some results))
      (fun e =>
         modify (set_is_trained false);;
         mret None).

Definition predict (self : ModelTrainer) (X : matrix) : Result vector :=
  match best_model self with
  | Some best =>
      if is_trained self then estimator_predict best X else Raise NotFittedError
  | None => Raise NotFittedError
  end.

Definition set_best_model (est : Estimator) (self : ModelTrainer) : ModelTrainer :=
  {| models := models self; best := Some (own est);
     best_model_name := best_model_name self; is_trained := is_trained self |}.

(** The grid chosen by [best_model_name]; the [else] branch takes every
    other name, None included. *)
Definition param_grid_for (name : option model_name) : ParamGrid :=
  match name with
  | Some random_forest => [("n_estimators", [50; 100]); ("max_depth", [5; 10])]%string
  | Some gradient_boosting => [("n_estimators", [50; 100]); ("learning_rate", [0.05; 0.1])]%string
  | _ => [("alpha", [0.1; 1.0; 10.0])]%string
  end.

(** [self.models[self.best_model_name]]: a KeyError when the name is None. *)
Definition named_model (name : option model_name) (items : list (model_name * Estimator))
  : Result Estimator :=
  match name with
  | Some n => dict_get n items
  | None => Raise KeyError
  end.

Definition hyperparameter_tuning `{Search} (X : matrix) (y : vector) : SR ModelTrainer unit :=
  trained ← gets is_trained;
  if negb trained || (len X <? 5)%Z then
    mret tt
  else
    name ← gets best_model_name;
    let param_grid := param_grid_for name in
    try_except_in
      (items ← gets models;
       estimator ← lift (named_model name items);
       best_estimator ← lift (grid_search estimator param_grid X y (Z.min 3 (len X)));
       modify (set_best_model best_estimator))
      (fun e => mret tt).

(** What [save_model] dumps. *)
Record SavedModel : Type := {
  saved_model : Estimator;
  saved_model_name : option model_name;
  saved_is_trained : bool
}.

(** The files written by [joblib.dump], by path.  The dump of a path is
    what [joblib.load] of the path returns; other files and failures of the
    disk are outside this model. *)
Definition FileSystem : Type := gmap string SavedModel.

Definition save_model (filepath : string) (self : ModelTrainer) (fs : FileSystem) : FileSystem :=
  match best_model self with
  | Some best =>
      if is_trained self then
        <[filepath := {| saved_model := best;
                         saved_model_name := best_model_name self;
                         saved_is_trained := is_trained self |}]> fs
      else fs
  | None => fs
  end.

Definition load_model (filepath : string) (fs : FileSystem) (self : ModelTrainer) : ModelTrainer :=
  match fs !! filepath with
  | Some loaded =>
      {| models := models self;
         best := Some (own (saved_model loaded));
         best_model_name := saved_model_name loaded;
         is_trained := saved_is_trained loaded |}
  | None => self
  end.

End Trainer.

(** ** src/models/predictor.py *)

Module Predictor.

(** The [features] entry of a result dict. *)
Record Explanation : Type := {
  roster_stability : Q;
  avg_player_rating : Q;
  win_rate : Q;
  recent_form : Q
}.

(** A result dict. *)
Record PredictionResult : Type := {
  team : string;
  region : string;
  predicted_placement : Z;
  confidence_score : Q;
  features : Explanation
}.

(** [result['predicted_placement'] = placement]. *)
Definition set_placement (placement : Z) (result : PredictionResult) : PredictionResult :=
  {| team := team result; region := region result; predicted_placement := placement;
     confidence_score := confidence_score result; features := features result |}.

(** The data processor has no state of its own. *)
Record PlacementPredictor : Type := {
  model_trainer : Trainer.ModelTrainer;
  feature_engineer : Engineering.FeatureEngineer
}.

Definition init (model_trainer : Trainer.ModelTrainer) : PlacementPredictor :=
  {| model_trainer := model_trainer; feature_engineer := Engineering.init |}.

(** [scores.min()] and [scores.max()]; numpy raises on an empty array. *)
Definition np_min (arr : vector) : Result Q :=
  match arr with
  | [] => Raise (ValueError "zero-size array to reduction operation minimum which has no identity")
  | x :: rest => Ok (fold_left Qmin rest x)
  end.

Definition np_max (arr : vector) : Result Q :=
  match arr with
  | [] => Raise (ValueError "zero-size array to reduction operation maximum which has no identity")
  | x :: rest => Ok (fold_left Qmax rest x)
  end.

(** The columns the heuristic reads, times [weights]. *)
Definition fallback_score (r : Engineering.Row) : Q :=
  Engineering.roster_stability r * 0.15 + Engineering.avg_player_rating r * 0.35
  + Engineering.win_rate r * 0.5 + Engineering.recent_form r * 0.3
  + Engineering.strength_of_schedule r * 0.2.

Definition _fallback_prediction (df : Engineering.DataFrame) : Result vector :=
  let scores := map fallback_score df in
  lo ← np_min scores;
  hi ← np_max scores;
  normalized_scores ← mapM (fun s => np_true_divide (s - lo) (hi - lo + 1e-8)) scores;
  let placements := map (fun n => 1 + (1 - n) * 7) normalized_scores in
  mret placements.

(** The same heuristic in floating point, from the scores on: [fl]
    rounds the literal [1e-8] and the result of every operation.  The
    scores are the result of numpy's dot product, whose order of summation
    is not the code's, and are taken as they are computed.  With [fl] the
    identity and the scores of [fallback_score] this is
    [_fallback_prediction]. *)
Definition _fallback_prediction_rounded (fl : Q -> Q) (scores : vector) : Result vector :=
  lo ← np_min scores;
  hi ← np_max scores;
  normalized_scores ←
    mapM (fun s => np_true_divide (fl (s - lo)) (fl (fl (hi - lo) + fl 1e-8))) scores;
  let placements := map (fun n => fl (1 + fl (fl (1 - fl n) * 7))) normalized_scores in
  mret placements.

Definition _calculate_confidence (prediction : Q) : Q :=
  let middle := 4.5 in
  let distance_from_middle := Qabs (prediction - middle) in
  let confidence := distance_from_middle / 3.5 in
  py_max 0.3 (py_min 0.9 confidence).

(** The [try]/[except NotFittedError] block: the raw scores. *)
Definition raw_predictions (self : PlacementPredictor) (df : Engineering.DataFrame)
    (X_processed : matrix) : Result vector :=
  try_except
    (if Trainer.is_trained (model_trainer self)
     then Trainer.predict (model_trainer self) X_processed
     else _fallback_prediction df)
    (fun e => match e with
              | NotFittedError => _fallback_prediction df
              | _ => Raise e
              end).

(** The dict appended to [results] for one team. *)
Definition result_dict (t : Team.t) (feature : TrainingFeatures.t) (prediction : Q) : PredictionResult :=
  {| team := Team.name t;
     region := Team.region t;
     predicted_placement := py_round prediction;
     confidence_score := _calculate_confidence prediction;
     features :=
       {| roster_stability := TrainingFeatures.roster_stability feature;
          avg_player_rating := TrainingFeatures.avg_player_rating feature;
          win_rate := TrainingFeatures.win_rate feature;
          recent_form := TrainingFeatures.recent_form feature |} |}.

(** The loop [for i, team in enumerate(teams)], from index [i]. *)
Fixpoint build_results (i : nat) (teams : list Team.t) (features : list TrainingFeatures.t)
    (predictions : vector) : Result (list PredictionResult) :=
  match teams with
  | [] => mret []
  | t :: rest =>
      prediction ← index predictions i;
      feature ← index features i;
      let result := result_dict t feature prediction in
      results ← build_results (S i) rest features predictions;
      mret (result :: results)
  end.

(** [while placement in used_placements and placement < 8: placement += 1],
    run for at most [fuel] iterations. *)
Fixpoint next_free (fuel : nat) (used_placements : gset Z) (placement : Z) : Z :=
  match fuel with
  | O => placement
  | S fuel' =>
      if decide (placement ∈ used_placements ∧ (placement < 8)%Z)
      then next_free fuel' used_placements (placement + 1)%Z
      else placement
  end.

(** The loop stops after at most [8 - placement] iterations. *)
Definition while_used (used_placements : gset Z) (placement : Z) : Z :=
  next_free (Z.to_nat (8 - placement)) used_placements placement.

(** The first loop of [_adjust_placements]. *)
Fixpoint assign_greedy (used_placements : gset Z) (results : list PredictionResult)
  : list PredictionResult * gset Z :=
  match results with
  | [] => ([], used_placements)
  | result :: rest =>
      let placement := predicted_placement result in
      let placement := while_used used_placements placement in
      let placement := Z.max 1 (Z.min 8 placement) in
      let result := set_placement placement result in
      let '(rest, used_placements) := assign_greedy ({[placement]} ∪ used_placements) rest in
      (result :: rest, used_placements)
  end.

(** The dicts are changed in place; the list after the call is returned. *)
Definition _adjust_placements (results : list PredictionResult) : list PredictionResult :=
  let '(results, used_placements) := assign_greedy ∅ results in
  imap (fun i result => set_placement (Z.of_nat i + 1) result) results.

(** The first half of [predict_placements]: the features and the raw
    scores [predictions].  The call also leaves the feature engineer fitted
    on the batch; with [fit_scaler=True] no call reads what an earlier one
    left, and the engineer after the call is not returned. *)
Definition predicted_scores `{Lib} (self : PlacementPredictor) (teams : list Team.t)
  : M (list TrainingFeatures.t * vector) :=
  features ← Processors.extract_features teams;
  '(df, X_processed) ← lift (Engineering.prepare_features features true (feature_engineer self)).1;
  predictions ← lift (raw_predictions self df X_processed);
  mret (features, predictions).

Definition predict_placements `{Lib} (self : PlacementPredictor) (teams : list Team.t)
  : M (list PredictionResult) :=
  '(features, predictions) ← predicted_scores self teams;
  results ← lift (build_results 0 teams features predictions);
  let results := list_sort predicted_placement results in
  let results := _adjust_placements results in
  mret results.

End Predictor.

(** ** src/validation/validator.py *)

Module Validator.

(** An elementwise operation on two one-dimensional arrays: equal sizes, or
    one of them of size one, which numpy broadcasts. *)
Definition np_zip_with {A B C} (f : A -> B -> C) (a : list A) (b : list B) : Result (list C) :=
  if decide (length a = length b) then Ok (zip_with f a b)
  else match a, b with
       | [x], _ => Ok (map (f x) b)
       | _, [y] => Ok (map (fun x => f x y) a)
       | _, _ => Raise (ValueError "operands could not be broadcast together")
       end.

(** [np.sum] of a boolean array. *)
Definition np_sum_bool (arr : list bool) : Z := count_if (fun b => b) arr.

(** An entry of [prediction_details]. *)
Record PredictionDetail : Type := {
  team : string;
  predicted : Z;
  actual : Z;
  error : Z;
  within_1 : bool;
  within_2 : bool;
  within_3 : bool
}.

(** The dict returned by [_detailed_analysis]. *)
Record Analysis : Type := {
  prediction_details : list PredictionDetail;
  biggest_surprises : list (string * Z);
  biggest_disappointments : list (string * Z)
}.

(** The metrics dict.  [root_mean_squared_error] is the square root of
    [mean_squared_error] and is not kept as a number. *)
Record Metrics : Type := {
  num_teams_validated : Z;
  mean_absolute_error : Q;
  mean_squared_error : Q;
  accuracy_within_1 : Q;
  accuracy_within_2 : Q;
  accuracy_within_3 : Q;
  top_3_accuracy : Q;
  top_5_accuracy : Q;
  perfect_predictions : Q;
  analysis : Analysis
}.

(** What [validate_predictions] returns: the dict with the single key
    [error], or the metrics. *)
Inductive Report : Type :=
| NoMatch (error : string)
| Validated (metrics : Metrics).

(** [sklearn.metrics.mean_absolute_error] and [mean_squared_error]:
    the mean of [np.abs(y_pred - y_true)] and of [(y_true - y_pred) ** 2].
    [y_true] and [y_pred] are [int64] arrays, and so are the differences,
    their absolute values and their squares; the mean is a float. *)
Definition sk_mean_absolute_error (y_true y_pred : list Z) : Result Q :=
  diffs ← np_zip_with (fun t p => inject_Z (np_abs (np_subtract p t))) y_true y_pred;
  np_mean diffs.

Definition sk_mean_squared_error (y_true y_pred : list Z) : Result Q :=
  diffs ← np_zip_with
            (fun t p => inject_Z (np_multiply (np_subtract t p) (np_subtract t p))) y_true y_pred;
  np_mean diffs.

Definition _accuracy_within_range (y_true y_pred : list Z) (range_size : Z) : Result Q :=
  within_range ← np_zip_with
                   (fun t p => (np_abs (np_subtract t p) <=? range_size)%Z) y_true y_pred;
  np_mean (map as_float within_range).

Definition _top_n_accuracy (y_true y_pred : list Z) (n : Z) : Result Q :=
  let pred_top_n := map (fun p => (p <=? n)%Z) y_pred in
  let actual_top_n := map (fun t => (t <=? n)%Z) y_true in
  both ← np_zip_with andb pred_top_n actual_top_n;
  let correct := np_sum_bool both in
  let total_top_n := np_sum_bool actual_top_n in
  if (0 <? total_top_n)%Z
  then np_true_divide (inject_Z correct) (inject_Z total_top_n)
  else mret 0.0.

Definition _perfect_predictions (y_true y_pred : list Z) : Result Q :=
  perfect ← np_zip_with Z.eqb y_true y_pred;
  np_mean (map as_float perfect).

(** The first loop of [_detailed_analysis], from index [i].  [pred] and
    [actual] are [int64] scalars and so is [error]; the dict holds them as
    Python ints. *)
Fixpoint detail_loop (i : nat) (y_true y_pred : list Z) (teams : list string)
  : Result (list PredictionDetail) :=
  match teams with
  | [] => mret []
  | t :: rest =>
      pred ← index y_pred i;
      act ← index y_true i;
      let err := np_abs (np_subtract pred act) in
      let detail :=
        {| team := t; predicted := pred; actual := act; error := err;
           within_1 := (err <=? 1)%Z; within_2 := (err <=? 2)%Z; within_3 := (err <=? 3)%Z |} in
      details ← detail_loop (S i) y_true y_pred rest;
      mret (detail :: details)
  end.

(** [l.sort(key=lambda x: x[1], reverse=True)]: descending, and equal
    magnitudes keep their order. *)
Definition sort_by_magnitude (l : list (string * Z)) : list (string * Z) :=
  list_sort (fun x => (- snd x)%Z) l.

Definition _detailed_analysis (y_true y_pred : list Z) (teams : list string) : Result Analysis :=
  details ← detail_loop 0 y_true y_pred teams;
  let surprises :=
    omap (fun d => if (actual d <? predicted d)%Z
                   then Some (team d, (predicted d - actual d)%Z) else None) details in
  let surprises := sort_by_magnitude surprises in
  let disappointments :=
    omap (fun d => if (predicted d <? actual d)%Z
                   then Some (team d, (actual d - predicted d)%Z) else None) details in
  let disappointments := sort_by_magnitude disappointments in
  mret {| prediction_details := details;
          biggest_surprises := take 3 surprises;
          biggest_disappointments := take 3 disappointments |}.

(** The first loop of [validate_predictions]: the predictions whose team has
    an actual placement, as [(valid_predictions, valid_actuals, valid_teams)]. *)
Fixpoint matching (predictions : list Predictor.PredictionResult) (actual_placements : gmap string Z)
  : list Z * list Z * list string :=
  match predictions with
  | [] => ([], [], [])
  | prediction :: rest =>
      let team_name := Predictor.team prediction in
      let '(valid_predictions, valid_actuals, valid_teams) := matching rest actual_placements in
      match actual_placements !! team_name with
      | Some placement =>
          (Predictor.predicted_placement prediction :: valid_predictions,
           placement :: valid_actuals,
           team_name :: valid_teams)
      | None => (valid_predictions, valid_actuals, valid_teams)
      end
  end.

Definition validate_predictions (predictions : list Predictor.PredictionResult)
    (actual_placements : gmap string Z) : Result Report :=
  let '(valid_predictions, valid_actuals, valid_teams) := matching predictions actual_placements in
  match valid_predictions with
  | [] => mret (NoMatch "No matching teams found for validation")
  | _ :: _ =>
      let y_pred := valid_predictions in
      let y_true := valid_actuals in
      mae ← sk_mean_absolute_error y_true y_pred;
      mse ← sk_mean_squared_error y_true y_pred;
      within_1 ← _accuracy_within_range y_true y_pred 1;
      within_2 ← _accuracy_within_range y_true y_pred 2;
      within_3 ← _accuracy_within_range y_true y_pred 3;
      top_3 ← _top_n_accuracy y_true y_pred 3;
      top_5 ← _top_n_accuracy y_true y_pred 5;
      perfect ← _perfect_predictions y_true y_pred;
      details ← _detailed_analysis y_true y_pred valid_teams;
      mret (Validated
              {| num_teams_validated := len valid_predictions;
                 mean_absolute_error := mae;
                 mean_squared_error := mse;
                 accuracy_within_1 := within_1;
                 accuracy_within_2 := within_2;
                 accuracy_within_3 := within_3;
                 top_3_accuracy := top_3;
                 top_5_accuracy := top_5;
                 perfect_predictions := perfect;
                 analysis := details |})
  end.

End Validator.

(** ** src/services/prediction_service.py *)

Module Service.

(** The loop over [zip(actual, predicted)]: the pairs within one place. *)
Fixpoint count_within_one (actual predicted : list Z) : Z :=
  match actual, predicted with
  | a :: actual', p :: predicted' =>
      ((if Z.abs (a - p) <=? 1 then 1 else 0) + count_within_one actual' predicted')%Z
  | _, _ => 0%Z
  end.

Definition _calculate_placement_accuracy (actual predicted : list Z) : Result Q :=
  let correct := count_within_one actual predicted in
  let total := len actual in
  if (0 <? total)%Z then py_div (inject_Z correct) (inject_Z total) else mret 0.0.

End Service.

(** ** src/domain/tournament.py *)

Module Tournament.

(** A team descriptor: a dict with the keys [id] and [name] and, for a
    played tournament, [actual_placement]. *)
Record TeamEntry : Type := {
  id : string;
  name : string;
  actual_placement : option Z
}.

Record TournamentConfig : Type := {
  tournament_name : string;
  teams : list TeamEntry;
  start_date : option datetime;
  end_date : option datetime;
  is_historical : bool
}.

Definition get_team_ids (self : TournamentConfig) : list string := map id (teams self).

Definition get_team_names (self : TournamentConfig) : list string := map name (teams self).

Definition get_actual_placements (self : TournamentConfig) : gmap string Z :=
  fold_left
    (fun placements team =>
       match actual_placement team with
       | Some placement => <[id team := placement]> placements
       | None => placements
       end)
    (teams self) ∅.

(** [next((team for team in self.teams if ...), None)]. *)
Definition find_team_by_id (self : TournamentConfig) (team_id : string) : option TeamEntry :=
  List.find (fun team => String.eqb (id team) team_id) (teams self).

Definition find_team_by_name (self : TournamentConfig) (team_name : string) : option TeamEntry :=
  List.find (fun team => String.eqb (name team) team_name) (teams self).

(** An entry of the [tournaments] section of the configuration; a key that
    is missing is None. *)
Record TournamentData : Type := {
  data_name : option string;
  data_teams : option (list TeamEntry)
}.

(** [data[key]]. *)
Definition item {A} (entry : option A) : Result A :=
  match entry with
  | Some a => Ok a
  | None => Raise KeyError
  end.

Record TournamentManager : Type := {
  tournaments : list (string * TournamentConfig)
}.

Definition add_tournament (tournament_key : string) (tournament_config : TournamentConfig)
    (self : TournamentManager) : TournamentManager :=
  {| tournaments := dict_set tournament_key tournament_config (tournaments self) |}.

Definition remove_tournament (tournament_key : string) (self : TournamentManager)
  : TournamentManager :=
  {| tournaments := dict_del tournament_key (tournaments self) |}.

Definition get_tournament (self : TournamentManager) (tournament_key : string)
  : option TournamentConfig :=
  dict_lookup tournament_key (tournaments self).

Definition get_historical_tournaments (self : TournamentManager) : list TournamentConfig :=
  List.filter is_historical (map snd (tournaments self)).

Definition get_future_tournaments (self : TournamentManager) : list TournamentConfig :=
  List.filter (fun t => negb (is_historical t)) (map snd (tournaments self)).

Definition list_tournaments (self : TournamentManager) : list string :=
  map fst (tournaments self).

(** The body of the loop of [_load_tournaments]. *)
Definition load_tournament (tournament_key : string) (tournament_data : TournamentData)
  : SR TournamentManager unit :=
  let historical :=
    match data_teams tournament_data with
    | Some (first_team :: _) =>
        match actual_placement first_team with
        | Some _ => true
        | None => false
        end
    | _ => false
    end in
  tname ← lift (item (data_name tournament_data));
  tteams ← lift (item (data_teams tournament_data));
  modify (add_tournament tournament_key
            {| tournament_name := tname; teams := tteams; start_date := None;
               end_date := None; is_historical := historical |}).

Fixpoint load_items (items : list (string * TournamentData)) : SR TournamentManager unit :=
  match items with
  | [] => mret tt
  | (tournament_key, tournament_data) :: rest =>
      load_tournament tournament_key tournament_data;;
      load_items rest
  end.

(** [config.get('tournaments', {})] is None when the section is missing. *)
Definition _load_tournaments (config : option (list (string * TournamentData)))
  : SR TournamentManager unit :=
  load_items (default [] config).

(** [TournamentManager(config)]. *)
Definition init (config : option (list (string * TournamentData))) : Result TournamentManager :=
  match _load_tournaments config {| tournaments := [] |} with
  | (Ok _, self) => Ok self
  | (Raise e, _) => Raise e
  end.

End Tournament.

(** ** src/utils/config.py *)

Module Config.

(** What [yaml.safe_load] returns, as far as [get] tells it apart: a dict,
    or anything else. *)
#[warnings="-register-all"] Inductive value : Type :=
| Scalar (s : string)
| Mapping (d : list (string * value)).

(** The loop of [get]: None when it leaves through [return default]. *)
Fixpoint descend (keys : list string) (v : value) : option value :=
  match keys with
  | [] => Some v
  | k :: rest =>
      match v with
      | Mapping d =>
          match dict_lookup k d with
          | Some v' => descend rest v'
          | None => None
          end
      | Scalar _ => None
      end
  end.

(** [Config.get(key, default)], on the loaded [_config]; a [default] of None
    is Python's None. *)
Definition get (_config : value) (key : string) (default : option value) : option value :=
  let keys := str_split "."%char key in
  match descend keys _config with
  | Some v => Some v
  | None => default
  end.

End Config.

(** ** The vocabulary of the properties *)

Module Spec.

(** [before score i j]: index [i] ranks ahead of index [j], by ascending
    score and, on equal scores, by position in the input. *)
Definition before (score : nat -> Q) (i j : nat) : Prop :=
  score i < score j \/ (score i == score j /\ (i < j)%nat).

(** [order] lists the indices [0 .. n-1], every index ahead of those after it. *)
Definition is_ranking (score : nat -> Q) (n : nat) (order : list nat) : Prop :=
  Permutation order (seq 0 n) /\ StronglySorted (before score) order.

(** Elements decorated with their position, by key and then by position. *)
Definition lex {A} (key : A -> Z) (a b : nat * A) : Prop :=
  (key a.2 < key b.2)%Z \/ (key a.2 = key b.2 /\ (a.1 < b.1)%nat).

(** Position [i] of [l] goes ahead of position [j] in a stable sort by [key]. *)
Definition ahead {A} (key : A -> Z) (l : list A) (i j : nat) : Prop :=
  exists x y, l !! i = Some x /\ l !! j = Some y /\
    ((key x < key y)%Z \/ (key x = key y /\ (i < j)%nat)).

(** The raw score of the team at index [i], and the score the code stores
    in [predicted_placement] before sorting. *)
Definition raw_score (predictions : vector) (i : nat) : Q := nth i predictions 0.

Definition rounded_score (predictions : vector) (i : nat) : Q :=
  inject_Z (py_round (nth i predictions 0)).

(** The placements [1, 2, ..., n]. *)
Definition one_to (n : nat) : list Z := map (fun k => (Z.of_nat k + 1)%Z) (seq 0 n).

(** [results] holds, at position [k], the dict of the team at index
    [order[k]], with placement [k + 1]. *)
Definition placed_in_order (teams : list Team.t) (features : list TrainingFeatures.t)
    (predictions : vector) (order : list nat) (results : list Predictor.PredictionResult) : Prop :=
  length results = length order /\
  forall k i, order !! k = Some i ->
    exists t f p, teams !! i = Some t /\ features !! i = Some f /\ predictions !! i = Some p /\
      results !! k = Some (Predictor.set_placement (Z.of_nat k + 1) (Predictor.result_dict t f p)).



Definition raises {A} (r : Result A) : Prop := exists e, r = Raise e.

(** Cross-validation or fitting of the candidate [name] raises. *)
Definition candidate_fails `{Lib} (X : matrix) (y : vector) (name : model_name) : Prop :=
  raises (cross_val_score name X y (Z.min 3 (len X))) \/ raises (fit name X y).

(** Every candidate is cross-validated, with at least one fold score, and
    fitted without an exception. *)
Definition candidates_succeed `{Lib} (X : matrix) (y : vector) : Prop :=
  forall name, exists scores f,
    cross_val_score name X y (Z.min 3 (len X)) = Ok scores /\ scores <> [] /\ fit name X y = Ok f.

(** The dict [self.models] as [__init__] builds its keys: the three
    families, each key holding an estimator of that family. *)
Definition three_candidates (self : Trainer.ModelTrainer) : Prop :=
  map fst (Trainer.models self) = [random_forest; gradient_boosting; ridge] /\
  Forall (fun item => family (snd item) = fst item) (Trainer.models self).

(** The fraction of the recent matches played against a strong opponent. *)
Definition strong_fraction (team : Team.t) : Q :=
  match Team.recent_matches team with
  | [] => 0
  | _ :: _ =>
      inject_Z (Processors.strong_opponent_matches team) / inject_Z (len (Team.recent_matches team))
  end.

(** The defaults of a team without players, and of one without matches. *)
Definition neutral_defaults (team : Team.t) (f : TrainingFeatures.t) : Prop :=
  (Team.players team = [] ->
     TrainingFeatures.avg_player_rating f = 0.0 /\ TrainingFeatures.avg_acs f = 0.0 /\
     TrainingFeatures.avg_kdr f = 0.0 /\ TrainingFeatures.avg_kast f = 0.0) /\
  (Team.recent_matches team = [] ->
     TrainingFeatures.win_rate f = 0.5 /\ TrainingFeatures.recent_form f = 0.5 /\
     TrainingFeatures.tournament_results f = 0.5).

(** A rounding operator of the kind floating point has: monotone, and
    exact on the multiples of 1/64 up to 2. *)
Definition rounding (fl : Q -> Q) : Prop :=
  (forall x y, x <= y -> fl x <= fl y) /\
  (forall k : Z, (0 <= k <= 128)%Z -> fl (inject_Z k / 64) == inject_Z k / 64).

(** The nine primitive values of a row lie in [0, 1]. *)
Definition unit_interval (x : Q) : Prop := 0 <= x <= 1.

Definition primitives_in_unit_interval (r : Engineering.Row) : Prop :=
  Forall unit_interval (Engineering.row_values r).

(** How many times [extract_features] reads the clock: once for every
    team with a formation date. *)
Definition has_formed_date (team : Team.t) : bool :=
  match Team.formed_date team with
  | Some _ => true
  | None => false
  end.

Definition clock_reads (teams : list Team.t) : nat := length (List.filter has_formed_date teams).

(** The five columns that are rates. *)
Definition rates_in_unit_interval (r : Engineering.Row) : Prop :=
  unit_interval (Engineering.roster_stability r) /\ unit_interval (Engineering.win_rate r) /\
  unit_interval (Engineering.recent_form r) /\ unit_interval (Engineering.strength_of_schedule r) /\
  unit_interval (Engineering.tournament_results r).

(** Two result dicts that differ at most in [predicted_placement]. *)
Definition same_but_placement (r r' : Predictor.PredictionResult) : Prop :=
  exists placement, r' = Predictor.set_placement placement r.

(** The confidence of a result lies in [0.3, 0.9]. *)
Definition confident (r : Predictor.PredictionResult) : Prop :=
  0.3 <= Predictor.confidence_score r <= 0.9.

(** A rounding operator of the kind floating point has, as far as the
    heuristic needs it: monotone, leaving a rounded number as it is, exact
    on the integers up to 8, and not rounding [1e-8] down to zero.  The
    identity is one. *)
Definition float_rounding (fl : Q -> Q) : Prop :=
  (forall x y, x <= y -> fl x <= fl y) /\
  (forall x, fl (fl x) == fl x) /\
  (forall k : Z, (0 <= k <= 8)%Z -> fl (inject_Z k) == inject_Z k) /\
  0 < fl 1e-8.

(** Scores far from the overflow of binary64, where a rounding of that
    kind describes it. *)
Definition moderate (scores : vector) : Prop :=
  Forall (fun s => Qabs s <= 1e300) scores.

(** The predictions whose team has an actual placement, in their order. *)
Definition matched (predictions : list Predictor.PredictionResult)
    (actual_placements : gmap string Z) : list Predictor.PredictionResult :=
  filter (fun prediction => is_Some (actual_placements !! Predictor.team prediction)) predictions.

(** Placements of at most [bound] in absolute value: in a list, and among
    the predictions and the actual placements given to the validator. *)
Definition within (bound : Z) (placements : list Z) : Prop :=
  Forall (fun placement => (Z.abs placement <= bound)%Z) placements.

Definition placements_within (bound : Z) (predictions : list Predictor.PredictionResult)
    (actual_placements : gmap string Z) : Prop :=
  within bound (map Predictor.predicted_placement predictions) /\
  map_Forall (fun _ placement => (Z.abs placement <= bound)%Z) actual_placements.

(** Pairs of a team and a magnitude, the largest magnitude first. *)
Definition descending (l : list (string * Z)) : Prop :=
  StronglySorted (fun x y => (snd y <= snd x)%Z) l.

End Spec.

(** ** Concrete inputs *)

Module Examples.

(** A stand-in for the library with its input validation: an empty batch and
    inconsistent numbers of samples raise [ValueError].  The numbers it
    returns are arbitrary. *)
Definition inconsistent : exn :=
  ValueError "Found input variables with inconsistent numbers of samples".

Definition toy_scores (name : model_name) : vector :=
  match name with
  | random_forest => [-2.0; -2.5; -1.5]
  | gradient_boosting => [-1.0; -2.0; -1.5]
  | ridge => [-3.0; -2.0; -2.5]
  end.

Definition toy_lib : Lib :=
  {| standardize := fun fit_on X =>
       match X with
       | [] => Raise (ValueError "Found array with 0 sample(s)")
       | _ :: _ => Ok X
       end;
     cross_val_score := fun name X y cv =>
       if decide (length X = length y) then Ok (toy_scores name) else Raise inconsistent;
     fit := fun name X y =>
       if decide (length X = length y) then Ok (fun X' => Ok (map (fun _ => 4.5) X'))
       else Raise inconsistent |}.

(** A clock that stands still at [t]. *)
Definition frozen (t : datetime) : Clock := fun _ => t.

Definition day (n : Z) : datetime := (n * microseconds_per_day)%Z.

Definition played (opponent result : string) : MatchDict.t :=
  {| MatchDict.opponent := opponent; MatchDict.result := result;
     MatchDict.date := 0%Z; MatchDict.event := None |}.

(** Three teams without players and formation date, with ten matches each:
    nine wins then a loss, ten wins, ten losses. *)
Definition bare_team (name : string) (matches : list MatchDict.t) : Team.t :=
  {| Team.id := name; Team.name := name; Team.region := "BR";
     Team.players := []; Team.formed_date := None; Team.recent_matches := matches |}.

Definition team_nine : Team.t :=
  bare_team "Nine" (replicate 9 (played "Team A" "win") ++ [played "Team B" "loss"]).

Definition team_ten : Team.t := bare_team "Ten" (replicate 10 (played "Team A" "win")).

Definition team_zero : Team.t := bare_team "Zero" (replicate 10 (played "Team A" "loss")).

Definition untrained : Predictor.PlacementPredictor := Predictor.init Trainer.init.

(** A full roster formed at the epoch. *)
Definition member (name : string) : Player.t :=
  {| Player.id := name; Player.name := name; Player.role := "duelist";
     Player.stats := {[ "rating" := 1.1; "acs" := 210.0; "kdr" := 1.05; "kast" := 0.75 ]} |}.

Definition formed_team : Team.t :=
  {| Team.id := "7"; Team.name := "Formed"; Team.region := "BR";
     Team.players := map member ["a"; "b"; "c"; "d"; "e"]%string;
     Team.formed_date := Some (day 0);
     Team.recent_matches := [played "G2 Gozen" "win"; played "Team B" "loss"] |}.

(** Two readings of the clock a microsecond apart, on either side of the
    hundredth midnight after the formation; then the clock stands still. *)
Definition around_midnight : Clock := fun k =>
  match k with
  | O => (day 100 - 1)%Z
  | _ => day 100
  end.

(** Two calls of [extract_features] on the same snapshot, one after the
    other. *)
Definition first_call : Result (list TrainingFeatures.t) * Clock :=
  Processors.extract_features [formed_team] around_midnight.

Definition second_call : Result (list TrainingFeatures.t) * Clock :=
  Processors.extract_features [formed_team] first_call.2.

(** Three rows of nine columns, and two targets. *)
Definition three_rows : matrix := replicate 3 (replicate 9 0.5).

Definition two_targets : vector := [1; 2].

Definition three_targets : vector := [1; 2; 3].

(** The validation batch: four teams, predicted and actual placements. *)
Definition prediction_for (name : string) (placement : Z) : Predictor.PredictionResult :=
  {| Predictor.team := name; Predictor.region := "BR";
     Predictor.predicted_placement := placement; Predictor.confidence_score := 0.5;
     Predictor.features :=
       {| Predictor.roster_stability := 0.5; Predictor.avg_player_rating := 1.0;
          Predictor.win_rate := 0.5; Predictor.recent_form := 0.5 |} |}.

Definition four_predictions : list Predictor.PredictionResult :=
  [prediction_for "A" 1; prediction_for "B" 3; prediction_for "C" 2; prediction_for "D" 4].

Definition four_actuals : gmap string Z :=
  {[ "A"%string := 1%Z; "B"%string := 2%Z; "C"%string := 3%Z; "D"%string := 4%Z ]}.

(** The batch of the three bare teams, the scores of the untrained
    predictor on it, and its results. *)
Definition three_teams : list Team.t := [team_nine; team_ten; team_zero].

Definition three_scores : list TrainingFeatures.t * vector :=
  Eval vm_compute in
    match (@Predictor.predicted_scores toy_lib untrained three_teams (frozen 0%Z)).1 with
    | Ok scores => scores
    | Raise _ => ([], [])
    end.

Definition three_results : list Predictor.PredictionResult :=
  Eval vm_compute in
    match (@Predictor.predict_placements toy_lib untrained three_teams (frozen 0%Z)).1 with
    | Ok results => results
    | Raise _ => []
    end.

(** A row with every primitive value at one half. *)
Definition half_row : Engineering.Row :=
  {| Engineering.roster_stability := 0.5; Engineering.avg_player_rating := 0.5;
     Engineering.avg_acs := 0.5; Engineering.avg_kdr := 0.5; Engineering.avg_kast := 0.5;
     Engineering.win_rate := 0.5; Engineering.recent_form := 0.5;
     Engineering.strength_of_schedule := 0.5; Engineering.tournament_results := 0.5 |}.

(** The row of a full roster after a year, with the statistics of
    [member]: the combat score is far from the unit interval. *)
Definition formed_row : Engineering.Row :=
  {| Engineering.roster_stability := 1.0; Engineering.avg_player_rating := 1.1;
     Engineering.avg_acs := 210.0; Engineering.avg_kdr := 1.05; Engineering.avg_kast := 0.75;
     Engineering.win_rate := 0.5; Engineering.recent_form := 0.5;
     Engineering.strength_of_schedule := 0.65; Engineering.tournament_results := 0.5 |}.

(** A clock that stands still four hundred days after the formation of
    [formed_team]. *)
Definition a_year_later : Clock := frozen (day 400).

(** The first [prepare_features] of a fresh engineer, on the features of
    the three bare teams. *)
Definition three_prepared : Result (Engineering.DataFrame * matrix) * Engineering.FeatureEngineer :=
  @Engineering.prepare_features toy_lib three_scores.1 true Engineering.init.

(** The trainer after training on three rows with three targets. *)
Definition trained : Trainer.ModelTrainer :=
  (@Trainer.train_models toy_lib three_rows three_targets Trainer.init).2.

(** A library in which the ridge regression cannot be cross-validated;
    the estimators it fits answer 2.0 for every row. *)
Definition flaky_lib : Lib :=
  {| standardize := @standardize toy_lib;
     cross_val_score := fun name X y cv =>
       match name with
       | ridge => Raise inconsistent
       | _ => Ok (toy_scores name)
       end;
     fit := fun name X y => Ok (fun X' => Ok (map (fun _ => 2.0) X')) |}.



(** Five rows with five targets, and a stand-in for the grid search: the
    estimator it finds answers 4.0 for every row. *)
Definition five_rows : matrix := replicate 5 (replicate 9 0.5).

Definition five_targets : vector := [1; 2; 3; 4; 5].

Definition toy_search : Search :=
  {| grid_search := fun estimator param_grid X y cv =>
       if decide (length X = length y)
       then Ok {| family := family estimator;
                  fitted := Some (fun X' => Ok (map (fun _ => 4.0) X')) |}
       else Raise inconsistent |}.

(** A tournament of three teams, the second without an actual placement. *)
Definition entry (name : string) (placement : option Z) : Tournament.TeamEntry :=
  {| Tournament.id := name; Tournament.name := name; Tournament.actual_placement := placement |}.

Definition played_tournament : Tournament.TournamentConfig :=
  {| Tournament.tournament_name := "Game Changers 2024";
     Tournament.teams := [entry "mibr" (Some 1%Z); entry "loud" None; entry "furia" (Some 3%Z)];
     Tournament.start_date := None; Tournament.end_date := None;
     Tournament.is_historical := true |}.

(** The [tournaments] section of a configuration: in the second tournament
    only the second team has an actual placement. *)
Definition tournaments_section : list (string * Tournament.TournamentData) :=
  [("gc_2024"%string,
    {| Tournament.data_name := Some "Game Changers 2024"%string;
       Tournament.data_teams := Some [entry "mibr" (Some 1%Z); entry "loud" (Some 2%Z)] |});
   ("gc_2025"%string,
    {| Tournament.data_name := Some "Game Changers 2025"%string;
       Tournament.data_teams := Some [entry "mibr" None; entry "loud" (Some 2%Z)] |})].

(** A loaded configuration file. *)
Definition settings : Config.value :=
  Config.Mapping
    [("name"%string, Config.Scalar "game-changers");
     ("models"%string,
      Config.Mapping [("ridge"%string, Config.Mapping [("alpha"%string, Config.Scalar "1.0")])])].

End Examples.

(** * Properties *)

(** ** Running the monads *)

Ltac run := cbn [mbind mret Result_bind Result_ret SR_bind SR_ret lift gets modify].

Lemma py_div_ok (a b : Q) : ~ b == 0 -> py_div a b = Ok (a / b).
Proof.
  intros Hb. unfold py_div.
  destruct (Qeq_bool b 0) eqn:E; [|reflexivity].
  apply Qeq_bool_iff in E. contradiction.
Qed.

Lemma np_true_divide_ok (a b : Q) : ~ b == 0 -> np_true_divide a b = Ok (a / b).
Proof.
  intros Hb. unfold np_true_divide.
  destruct (Qeq_bool b 0) eqn:E; [|reflexivity].
  apply Qeq_bool_iff in E. contradiction.
Qed.

Lemma inject_Z_nonzero (z : Z) : z <> 0%Z -> ~ inject_Z z == 0.
Proof.
  intros Hz H. apply Hz. unfold Qeq in H. simpl in H. lia.
Qed.

Lemma inject_Z_pos (z : Z) : (0 < z)%Z -> 0 < inject_Z z.
Proof.
  intros Hz. change 0 with (inject_Z 0). rewrite <- Zlt_Qlt. exact Hz.
Qed.

Lemma len_cons {A} (x : A) (l : list A) : (0 < len (x :: l))%Z.
Proof. unfold len. simpl length. lia. Qed.

Lemma count_if_bounds {A} (p : A -> bool) (l : list A) : (0 <= count_if p l <= len l)%Z.
Proof.
  unfold count_if, len. split; [lia|].
  apply inj_le, length_filter.
Qed.

Lemma py_min_below (a b : Q) : a <= b -> py_min a b = a.
Proof.
  intros H. unfold py_min. destruct (Qlt_le_dec b a); [lra | reflexivity].
Qed.

(** A count over a total is a fraction between zero and one. *)
Lemma fraction_bounds (k n : Z) :
  (0 <= k <= n)%Z -> (0 < n)%Z -> 0 <= inject_Z k / inject_Z n <= 1.
Proof.
  intros Hk Hn. pose proof (inject_Z_pos n Hn) as Hpos. split.
  - apply Qle_shift_div_l; [exact Hpos|]. rewrite Qmult_0_l.
    change 0 with (inject_Z 0). rewrite <- Zle_Qle. lia.
  - apply Qle_shift_div_r; [exact Hpos|]. rewrite Qmult_1_l.
    rewrite <- Zle_Qle. lia.
Qed.

(** ** Feature extraction never raises *)

Section ProcessorsProofs.

Import Processors.

(** The recency-weighted loop returns, and the weights it adds are positive. *)
Lemma form_loop_ok (matches : list MatchDict.t) : forall i recent_form form_weight,
  (0 <= i)%Z -> 0 <= recent_form <= form_weight ->
  exists r w, form_loop i matches recent_form form_weight = Ok (r, w) /\ 0 <= r <= w /\
    form_weight <= w /\ (matches <> [] -> form_weight < w).
Proof.
  induction matches as [|m rest IH]; intros i rf fw Hi Hrf; simpl.
  - exists rf, fw. repeat split; try tauto; lra.
  - rewrite py_div_ok by (apply inject_Z_nonzero; lia). simpl.
    assert (Hw : 0 < 1.0 / inject_Z (i + 1)).
    { apply Qlt_shift_div_l; [apply inject_Z_pos; lia | lra]. }
    set (weight := 1.0 / inject_Z (i + 1)) in *.
    destruct (IH (i + 1)%Z (rf + weight * (if is_win m then 1.0 else 0.0)) (fw + weight))
      as (r & w & -> & Hr & Hfw & _).
    + lia.
    + destruct (is_win m); nra.
    + exists r, w. repeat split; try tauto; lra.
Qed.

Lemma raw_strength_of_schedule_ok (team : Team.t) :
  Team.recent_matches team <> [] ->
  exists s, raw_strength_of_schedule team = Ok s /\
    s == 0.5 + 0.3 * Spec.strong_fraction team /\ 0.5 <= s <= 0.8.
Proof.
  intros Hne. unfold raw_strength_of_schedule, Spec.strong_fraction.
  destruct (Team.recent_matches team) as [|m rest] eqn:E; [contradiction|].
  pose proof (len_cons m rest) as Hlen.
  destruct (Z.ltb_spec 0 (len (m :: rest))) as [_|]; [|lia].
  rewrite py_div_ok by (apply inject_Z_nonzero; lia). simpl.
  eexists; split; [reflexivity|].
  assert (Hfrac : 0 <= inject_Z (strong_opponent_matches team) / inject_Z (len (m :: rest)) <= 1).
  { apply fraction_bounds; [|exact Hlen].
    unfold strong_opponent_matches. rewrite E. apply count_if_bounds. }
  set (frac := inject_Z (strong_opponent_matches team) / inject_Z (len (m :: rest))) in *.
  split; [lra|]. split; lra.
Qed.

Lemma calculate_team_performance_ok (team : Team.t) :
  exists perf, calculate_team_performance team = Ok perf /\
    (Team.recent_matches team = [] ->
       win_rate perf = 0.5 /\ recent_form perf = 0.5 /\ strength_of_schedule perf = 0.5) /\
    (Team.recent_matches team <> [] ->
       exists s, raw_strength_of_schedule team = Ok s /\ strength_of_schedule perf = py_min s 1.0).
Proof.
  unfold calculate_team_performance.
  destruct (Team.recent_matches team) as [|m rest] eqn:E.
  - eexists; split; [reflexivity|]. split; [intros _; simpl; auto | congruence].
  - pose proof (len_cons m rest) as Hlen.
    destruct (Z.ltb_spec 0 (len (m :: rest))) as [_|]; [|lia].
    rewrite py_div_ok by (apply inject_Z_nonzero; lia). run.
    destruct (form_loop_ok (take 6 (m :: rest)) 0 0.0 0.0) as (r & w & Hloop & Hr & Hw & Hpos);
      [lia | lra |].
    rewrite Hloop. run.
    destruct (Qlt_le_dec 0 w) as [Hw0|Hw0]; [| exfalso; specialize (Hpos ltac:(discriminate)); lra].
    rewrite py_div_ok by lra. run.
    destruct (raw_strength_of_schedule_ok team) as (s & Hs & _); [congruence|].
    rewrite Hs. run.
    eexists; split; [reflexivity|]. split; [discriminate|].
    intros _. exists s. split; reflexivity.
Qed.

Lemma calculate_individual_performance_ok (team : Team.t) :
  exists perf, calculate_individual_performance team = Ok perf /\
    (Team.players team = [] ->
       avg_rating perf = 0.0 /\ avg_acs perf = 0.0 /\ avg_kdr perf = 0.0 /\ avg_kast perf = 0.0).
Proof.
  unfold calculate_individual_performance.
  destruct (Team.players team) as [|p rest] eqn:E.
  - eexists; split; [reflexivity|]. intros _; simpl; auto.
  - pose proof (len_cons p rest) as Hlen.
    rewrite !py_div_ok by (apply inject_Z_nonzero; lia).
    eexists; split; [reflexivity|]. discriminate.
Qed.

Lemma calculate_tournament_performance_ok (team : Team.t) :
  exists perf, calculate_tournament_performance team = Ok perf /\
    (Team.recent_matches team = [] -> perf = 0.5).
Proof.
  unfold calculate_tournament_performance.
  destruct (Team.recent_matches team) as [|m rest] eqn:E.
  - eexists; split; [reflexivity|]. auto.
  - destruct (gc_matches team) as [|g gs] eqn:G.
    + eexists; split; [reflexivity|]. discriminate.
    + pose proof (len_cons g gs) as Hlen.
      rewrite py_div_ok by (apply inject_Z_nonzero; lia).
      eexists; split; [reflexivity|]. discriminate.
Qed.

Lemma calculate_roster_stability_ok (team : Team.t) (c : Clock) :
  exists stability c', calculate_roster_stability team c = (Ok stability, c').
Proof.
  unfold calculate_roster_stability.
  destruct (Team.formed_date team) as [formed|]; eexists _, _; reflexivity.
Qed.

Lemma extract_team_features_ok (team : Team.t) (c : Clock) :
  exists f c', extract_team_features team c = (Ok f, c') /\ Spec.neutral_defaults team f.
Proof.
  unfold extract_team_features.
  destruct (calculate_roster_stability_ok team c) as (st & c' & Hst).
  destruct (calculate_individual_performance_ok team) as (ip & Hip & Hipd).
  destruct (calculate_team_performance_ok team) as (tp & Htp & Htpd & _).
  destruct (calculate_tournament_performance_ok team) as (tr & Htr & Htrd).
  unfold mbind, SR_bind, lift. rewrite Hst, Hip, Htp, Htr.
  eexists _, _. split; [reflexivity|].
  split; simpl.
  - exact Hipd.
  - intros Hm. destruct (Htpd Hm) as (? & ? & ?). auto.
Qed.

Lemma extract_features_ok (teams : list Team.t) : forall c : Clock,
  exists features c', extract_features teams c = (Ok features, c') /\
    Forall2 Spec.neutral_defaults teams features.
Proof.
  induction teams as [|team rest IH]; intros c.
  - eexists _, _. split; [reflexivity | constructor].
  - destruct (extract_team_features_ok team c) as (f & c1 & Hf & Hd).
    destruct (IH c1) as (fs & c2 & Hfs & Hds).
    exists (f :: fs), c2. split; [| constructor; assumption].
    simpl. unfold mbind, SR_bind. rewrite Hf, Hfs. reflexivity.
Qed.

(** C5.  [extract_features] returns for every list of teams and every
    clock, with one feature record per team.  The record of a team with no
    players has the four player averages equal to 0.0, and the record of a
    team with no recent matches has win rate, recent form and tournament
    results equal to 0.5: missing data never raises. *)
Theorem extract_features_neutral_defaults (teams : list Team.t) (c : Clock) :
  exists features c', extract_features teams c = (Ok features, c') /\
    Forall2 Spec.neutral_defaults teams features.
Proof. apply extract_features_ok. Qed.

(** C8.  For every team [calculate_team_performance] returns, and its
    strength of schedule is 0.5 plus 0.3 times the fraction of recent matches
    against a strong opponent (0.5 without matches); it lies in [0.5, 0.8],
    and the final [min(., 1.0)] returns its first argument unchanged. *)
Theorem strength_of_schedule_range (team : Team.t) :
  exists perf, calculate_team_performance team = Ok perf /\
    0.5 <= strength_of_schedule perf <= 0.8 /\
    strength_of_schedule perf == 0.5 + 0.3 * Spec.strong_fraction team /\
    (Team.recent_matches team = [] -> strength_of_schedule perf = 0.5) /\
    (Team.recent_matches team <> [] ->
       exists s, raw_strength_of_schedule team = Ok s /\ py_min s 1.0 = s /\
         strength_of_schedule perf = s).
Proof.
  destruct (calculate_team_performance_ok team) as (perf & Hperf & Hempty & Hmatches).
  exists perf. split; [exact Hperf|].
  destruct (Team.recent_matches team) as [|m rest] eqn:E.
  - destruct Hempty as (_ & _ & Hsos); [reflexivity|].
    rewrite Hsos. unfold Spec.strong_fraction. rewrite E.
    repeat split; try lra; try congruence.
  - destruct Hmatches as (s & Hs & Hsos); [discriminate|].
    destruct (raw_strength_of_schedule_ok team) as (s' & Hs' & Heq & Hrange); [congruence|].
    assert (s' = s) by congruence. subst s'.
    assert (Hmin : py_min s 1.0 = s) by (apply py_min_below; lra).
    rewrite Hsos, Hmin.
    repeat split; try lra; try discriminate; try assumption.
    intros _. exists s. auto.
Qed.

(** The clock enters the features through the whole days since the
    formation only. *)
Lemma extract_team_features_same_day (team : Team.t) (c1 c2 : Clock) :
  (forall formed, Team.formed_date team = Some formed ->
     timedelta_days (c1 0%nat - formed) = timedelta_days (c2 0%nat - formed)) ->
  (extract_team_features team c1).1 = (extract_team_features team c2).1.
Proof.
  intros Hdays. unfold extract_team_features, calculate_roster_stability.
  destruct (Team.formed_date team) as [formed|].
  - unfold mbind, SR_bind, datetime_now, lift. rewrite (Hdays formed eq_refl).
    destruct (py_div _ _); [|reflexivity].
    destruct (py_div _ _); [|reflexivity].
    unfold mret, SR_ret.
    destruct (calculate_individual_performance team); [|reflexivity].
    destruct (calculate_team_performance team); [|reflexivity].
    destruct (calculate_tournament_performance team); reflexivity.
  - unfold mbind, SR_bind, lift, mret, SR_ret.
    destruct (calculate_individual_performance team); [|reflexivity].
    destruct (calculate_team_performance team); [|reflexivity].
    destruct (calculate_tournament_performance team); reflexivity.
Qed.

(** C3.  Two calls of [extract_features] on the same team snapshot, the
    first a microsecond before a midnight and the second at it, return
    different records: the roster stability is 99/365 and then 100/365. *)
Theorem extract_features_twice_differs :
  exists f1 f2,
    Examples.first_call.1 = Ok [f1] /\ Examples.second_call.1 = Ok [f2] /\
    TrainingFeatures.roster_stability f1 == 99 # 365 /\
    TrainingFeatures.roster_stability f2 == 100 # 365 /\
    f1 <> f2.
Proof.
  eexists _, _.
  split; [vm_compute; reflexivity|].
  split; [vm_compute; reflexivity|].
  split; [reflexivity|]. split; [reflexivity|]. discriminate.
Qed.

End ProcessorsProofs.

(** ** Composite features *)

(** C6.  When the nine primitive values of a row lie in [0, 1], the
    [team_strength_index] that [create_composite_features] computes for the
    row lies in [0, 1]. *)
Theorem team_strength_index_bounded (df : Engineering.DataFrame) :
  Forall Spec.primitives_in_unit_interval df ->
  Forall (fun row => 0 <= Engineering.team_strength_index row <= 1)
    (Engineering.create_composite_features df).
Proof.
  unfold Engineering.create_composite_features. intros Hdf.
  apply Forall_map. eapply Forall_impl; [exact Hdf|]. clear. intros r H.
  unfold Spec.primitives_in_unit_interval, Engineering.row_values, Spec.unit_interval in H.
  repeat (apply Forall_cons in H; destruct H as [? H]).
  destruct r as [rs rating acs kdr kast wr rf sos tr]; simpl in *.
  assert (Hti : 0 <= tr * sos <= 1) by nra.
  set (ti := tr * sos) in *.
  assert (His : 0 <= (rating * 0.4 + acs * 0.2 + kdr * 0.2 + kast * 0.2) / 200 <= 1 # 200).
  { set (blend := rating * 0.4 + acs * 0.2 + kdr * 0.2 + kast * 0.2).
    assert (0 <= blend <= 1) by (unfold blend; lra).
    split.
    - apply Qle_shift_div_l; lra.
    - apply Qle_shift_div_r; lra. }
  set (skill := (rating * 0.4 + acs * 0.2 + kdr * 0.2 + kast * 0.2) / 200) in *.
  lra.
Qed.

(** The bound survives rounding: it holds when every literal and every
    operation is rounded, as in floating point. *)

Section RoundingProofs.

Variable fl : Q -> Q.
Hypothesis fl_rounding : Spec.rounding fl.

Lemma fl_below (x : Q) (k : Z) : (0 <= k <= 128)%Z -> x <= inject_Z k / 64 -> fl x <= inject_Z k / 64.
Proof.
  intros Hk Hx. destruct fl_rounding as [Hmono Hfix].
  rewrite <- (Hfix k Hk). by apply Hmono.
Qed.

Lemma fl_nonneg (x : Q) : 0 <= x -> 0 <= fl x.
Proof.
  intros Hx. destruct fl_rounding as [Hmono Hfix].
  assert (H0 : fl (inject_Z 0 / 64) == 0) by (rewrite (Hfix 0%Z); [reflexivity | lia]).
  rewrite <- H0. apply Hmono.
  assert (E : inject_Z 0 / 64 == 0) by reflexivity. rewrite E. exact Hx.
Qed.

(** A rounded product of a number in [0, 1] and a rounded literal [c]
    that is at most [k/64]. *)
Lemma fl_mul_bounds (x c : Q) (k : Z) :
  ((0 <=? k) && (k <=? 128))%Z = true -> Qle_bool 0 c = true ->
  Qle_bool c (inject_Z k / 64) = true -> 0 <= x <= 1 ->
  0 <= fl (x * fl c) <= inject_Z k / 64.
Proof.
  intros Hk Hc0 Hc Hx. apply Qle_bool_iff in Hc0, Hc.
  assert (Hk' : (0 <= k <= 128)%Z) by lia.
  pose proof (fl_nonneg c Hc0) as Hlo. pose proof (fl_below c k Hk' Hc) as Hhi.
  split.
  - apply fl_nonneg. nra.
  - apply fl_below; [exact Hk'|]. nra.
Qed.

(** A rounded sum of numbers that are at most [i/64] and [j/64]. *)
Lemma fl_add_bounds (a b : Q) (i j : Z) :
  ((0 <=? i) && (0 <=? j) && (i + j <=? 128))%Z = true ->
  0 <= a <= inject_Z i / 64 -> 0 <= b <= inject_Z j / 64 ->
  0 <= fl (a + b) <= inject_Z (i + j) / 64.
Proof.
  intros Hij Ha Hb. split.
  - apply fl_nonneg. lra.
  - apply fl_below; [lia|]. rewrite inject_Z_plus. unfold Qdiv in *.
    set (u := / 64) in *. assert (0 < u) by reflexivity. nra.
Qed.

Lemma team_strength_index_rounded_bounded (r : Engineering.Row) :
  Spec.primitives_in_unit_interval r ->
  0 <= Engineering.team_strength_index_rounded fl r <= 1.
Proof.
  unfold Spec.primitives_in_unit_interval, Engineering.row_values, Spec.unit_interval.
  intros H. repeat (apply Forall_cons in H; destruct H as [? H]).
  destruct r as [rs rating acs kdr kast wr rf sos tr].
  unfold Engineering.team_strength_index_rounded; simpl in *.
  pose proof (fl_mul_bounds rating 0.4 26 eq_refl eq_refl eq_refl ltac:(assumption)) as B1.
  pose proof (fl_mul_bounds acs 0.2 13 eq_refl eq_refl eq_refl ltac:(assumption)) as B2.
  pose proof (fl_mul_bounds kdr 0.2 13 eq_refl eq_refl eq_refl ltac:(assumption)) as B3.
  pose proof (fl_mul_bounds kast 0.2 13 eq_refl eq_refl eq_refl ltac:(assumption)) as B4.
  pose proof (fl_add_bounds _ _ 26 13 eq_refl B1 B2) as B12.
  pose proof (fl_add_bounds _ _ 39 13 eq_refl B12 B3) as B123.
  pose proof (fl_add_bounds _ _ 52 13 eq_refl B123 B4) as Bblend.
  set (blend := fl (fl (fl (fl (rating * fl 0.4) + fl (acs * fl 0.2)) + fl (kdr * fl 0.2))
                      + fl (kast * fl 0.2))) in *.
  clearbody blend. clear B1 B2 B3 B4 B12 B123.
  assert (Bskill : 0 <= fl (blend / 200) <= inject_Z 1 / 64).
  { assert (Hb : 0 <= blend <= 65 # 64) by exact Bblend. split.
    - apply fl_nonneg. apply Qle_shift_div_l; lra.
    - apply (fl_below _ 1); [lia|]. apply Qle_shift_div_r; [lra|].
      assert (E : inject_Z 1 / 64 * 200 == 200 # 64) by reflexivity. rewrite E. lra. }
  set (skill := fl (blend / 200)) in *. clearbody skill.
  assert (T1 : 0 <= fl (skill * fl 0.3) <= inject_Z 1 / 64).
  { assert (Hs : 0 <= skill <= 1 # 64) by exact Bskill.
    pose proof (fl_nonneg 0.3 ltac:(lra)) as Hc0.
    assert (Hc : fl 0.3 <= 20 # 64) by (apply (fl_below 0.3 20); [lia | by apply Qle_bool_iff]).
    split; [apply fl_nonneg; nra|]. apply fl_below; [lia|].
    assert (E : inject_Z 1 / 64 == 1 # 64) by reflexivity. rewrite E. nra. }
  pose proof (fl_mul_bounds wr 0.25 16 eq_refl eq_refl eq_refl ltac:(assumption)) as T2.
  pose proof (fl_mul_bounds rf 0.2 13 eq_refl eq_refl eq_refl ltac:(assumption)) as T3.
  pose proof (fl_mul_bounds rs 0.15 10 eq_refl eq_refl eq_refl ltac:(assumption)) as T4.
  assert (Bimpact : 0 <= fl (tr * sos) <= 1).
  { split; [apply fl_nonneg; nra|].
    assert (E : 1 == inject_Z 64 / 64) by reflexivity. rewrite E.
    apply fl_below; [lia|]. rewrite <- E. nra. }
  pose proof (fl_mul_bounds (fl (tr * sos)) 0.1 7 eq_refl eq_refl eq_refl Bimpact) as T5.
  pose proof (fl_add_bounds _ _ 1 16 eq_refl T1 T2) as S2.
  pose proof (fl_add_bounds _ _ 17 13 eq_refl S2 T3) as S3.
  pose proof (fl_add_bounds _ _ 30 10 eq_refl S3 T4) as S4.
  pose proof (fl_add_bounds _ _ 40 7 eq_refl S4 T5) as S5.
  destruct S5 as [S5lo S5hi]. split; [exact S5lo|].
  assert (E : inject_Z (40 + 7) / 64 == 47 # 64) by reflexivity. rewrite E in S5hi. lra.
Qed.

End RoundingProofs.

(** Without rounding the rounded index is the index of [composite_row]. *)
Lemma team_strength_index_rounded_exact (r : Engineering.Row) :
  Engineering.team_strength_index_rounded (fun x => x) r
  = Engineering.team_strength_index (Engineering.composite_row r).
Proof. reflexivity. Qed.

Lemma exact_rounding : Spec.rounding (fun x => x).
Proof. split; [auto | reflexivity]. Qed.

(** ** The stable sort *)

Lemma insert_by_Permutation {A} (key : A -> Z) (x : A) (l : list A) :
  Permutation (insert_by key x l) (x :: l).
Proof.
  induction l as [|y l IH]; simpl; [reflexivity|].
  destruct (key x <=? key y)%Z; [reflexivity|].
  rewrite IH. apply perm_swap.
Qed.

Lemma list_sort_Permutation {A} (key : A -> Z) (l : list A) : Permutation (list_sort key l) l.
Proof.
  induction l as [|x l IH]; simpl; [reflexivity|].
  rewrite insert_by_Permutation. by constructor.
Qed.

Lemma insert_by_fmap {A B} (key : A -> Z) (f : B -> A) (x : B) (l : list B) :
  insert_by key (f x) (f <$> l) = f <$> insert_by (key ∘ f) x l.
Proof.
  induction l as [|y l IH]; csimpl; [reflexivity|].
  destruct (key (f x) <=? key (f y))%Z; csimpl; [reflexivity|]. by rewrite IH.
Qed.

Lemma list_sort_fmap {A B} (key : A -> Z) (f : B -> A) (l : list B) :
  list_sort key (f <$> l) = f <$> list_sort (key ∘ f) l.
Proof.
  induction l as [|x l IH]; csimpl; [reflexivity|].
  rewrite IH. apply insert_by_fmap.
Qed.

Section Stability.

Context {A : Type} (key : A -> Z).

Abbreviation lex := (Spec.lex key).
Abbreviation ahead := (Spec.ahead key).

Lemma insert_by_lex (x : nat * A) (l : list (nat * A)) :
  StronglySorted lex l -> Forall (fun y => (x.1 < y.1)%nat) l ->
  StronglySorted lex (insert_by (key ∘ snd) x l).
Proof.
  induction 1 as [|y l Hl IH Hy]; intros Hx; simpl.
  - repeat constructor.
  - apply Forall_cons in Hx as [Hxy Hx].
    destruct (Z.leb_spec (key x.2) (key y.2)) as [Hle|Hgt].
    + constructor; [by constructor|].
      constructor.
      * unfold Spec.lex. lia.
      * rewrite Forall_forall in Hy, Hx. apply Forall_forall. intros z Hz.
        specialize (Hy z Hz). specialize (Hx z Hz). unfold Spec.lex in *. lia.
    + constructor; [by apply IH|].
      eapply Permutation_Forall; [symmetry; apply insert_by_Permutation|].
      constructor; [unfold Spec.lex; lia | exact Hy].
Qed.

Lemma list_sort_lex (l : list (nat * A)) :
  StronglySorted lt l.*1 -> StronglySorted lex (list_sort (key ∘ snd) l).
Proof.
  induction l as [|x l IH]; simpl; intros Hs; [constructor|].
  apply StronglySorted_inv in Hs as [Hs Hx].
  apply insert_by_lex; [by apply IH|].
  eapply Permutation_Forall; [symmetry; apply list_sort_Permutation|].
  rewrite Forall_fmap in Hx. exact Hx.
Qed.


Lemma seq_StronglySorted (start n : nat) : StronglySorted lt (seq start n).
Proof.
  revert start. induction n as [|n IH]; intros start; simpl; constructor; [apply IH|].
  apply Forall_forall. intros y Hy. apply list_elem_of_In, in_seq in Hy. lia.
Qed.

Lemma list_sort_order (l : list A) :
  exists order : list nat,
    Permutation order (seq 0 (length l)) /\
    StronglySorted (ahead l) order /\
    length (list_sort key l) = length order /\
    forall k i, order !! k = Some i ->
      exists x, l !! i = Some x /\ list_sort key l !! k = Some x.
Proof.
  set (d := zip (seq 0 (length l)) l).
  assert (Hfst : d.*1 = seq 0 (length l)) by (apply fst_zip; rewrite length_seq; lia).
  assert (Hsnd : d.*2 = l) by (apply snd_zip; rewrite length_seq; lia).
  assert (Hd : Forall (fun p => l !! p.1 = Some p.2) d).
  { apply Forall_forall. intros [i x] Hix. apply list_elem_of_lookup in Hix as [k Hk].
    apply lookup_zip_with_Some in Hk as (i' & x' & Heq & Hi & Hx).
    injection Heq as -> ->. apply lookup_seq in Hi as [-> _]. exact Hx. }
  set (ds := list_sort (key ∘ snd) d).
  assert (Hperm : Permutation ds d) by apply list_sort_Permutation.
  assert (Hds : Forall (fun p => l !! p.1 = Some p.2) ds)
    by (eapply Permutation_Forall; [symmetry; exact Hperm | exact Hd]).
  assert (Hsorted : StronglySorted lex ds).
  { apply list_sort_lex. rewrite Hfst. apply seq_StronglySorted. }
  assert (Hsort : list_sort key l = ds.*2).
  { rewrite <- Hsnd at 1. apply list_sort_fmap. }
  exists ds.*1. split; [| split; [| split]].
  - rewrite <- Hfst. by apply fmap_Permutation.
  - clear -Hsorted Hds. induction Hsorted as [|p ps Hps IH Hp]; csimpl; constructor.
    + apply IH. by apply Forall_cons in Hds as [_ ?].
    + apply Forall_cons in Hds as [Hp1 Hps1]. apply Forall_fmap.
      rewrite Forall_forall in Hp, Hps1. apply Forall_forall. intros q Hq.
      exists p.2, q.2. split; [exact Hp1|]. split; [by apply Hps1|].
      exact (Hp q Hq).
  - rewrite Hsort. by rewrite !length_fmap.
  - intros k i Hk. rewrite list_lookup_fmap in Hk.
    destruct (ds !! k) as [[i' x]|] eqn:Hp; [|discriminate]. injection Hk as ->.
    exists x. split.
    + rewrite Forall_forall in Hds. apply (Hds (i, x)). apply list_elem_of_lookup. eauto.
    + rewrite Hsort, list_lookup_fmap, Hp. reflexivity.
Qed.

End Stability.

(** ** Placement ranking *)

Section PredictorProofs.

Import Predictor.

Lemma set_placement_twice (p q : Z) (r : PredictionResult) :
  set_placement p (set_placement q r) = set_placement p r.
Proof. reflexivity. Qed.

Lemma predicted_placement_set (p : Z) (r : PredictionResult) :
  predicted_placement (set_placement p r) = p.
Proof. reflexivity. Qed.

(** The loop leaves [placement] when it is free or has reached 8: the fuel
    given by [while_used] is never what stops it. *)
Lemma next_free_exit (used : gset Z) : forall fuel placement,
  (8 - placement <= Z.of_nat fuel)%Z ->
  let p := next_free fuel used placement in
  (placement <= p)%Z /\ ~ (p ∈ used /\ (p < 8)%Z).
Proof.
  induction fuel as [|fuel IH]; intros placement Hfuel; simpl.
  - split; [lia|]. intros [_ ?]. lia.
  - destruct (decide (placement ∈ used ∧ (placement < 8)%Z)) as [Hin|Hout].
    + destruct (IH (placement + 1)%Z) as [Hle Hexit]; [lia|]. split; [lia | exact Hexit].
    + split; [lia | exact Hout].
Qed.

Lemma while_used_exit (used : gset Z) (placement : Z) :
  let p := while_used used placement in
  (placement <= p)%Z /\ ~ (p ∈ used /\ (p < 8)%Z).
Proof. apply next_free_exit. lia. Qed.

(** The greedy loop writes placements and nothing else. *)
Lemma assign_greedy_shape (results : list PredictionResult) : forall used,
  Forall2 (fun r r' => exists q, r' = set_placement q r) results (assign_greedy used results).1.
Proof.
  induction results as [|r rest IH]; intros used; simpl; [constructor|].
  specialize (IH ({[Z.max 1 (Z.min 8 (while_used used (predicted_placement r)))]} ∪ used)).
  destruct (assign_greedy _ rest) as [rest' used']. simpl in *.
  constructor; [eauto | exact IH].
Qed.

Lemma imap_Forall2 {A B} (R : A -> A -> Prop) (l l' : list A) :
  Forall2 R l l' -> forall f g : nat -> A -> B,
  (forall i x y, R x y -> f i y = g i x) -> imap f l' = imap g l.
Proof.
  induction 1 as [|x y l l' Hxy Hl IH]; intros f g Hfg; simpl; [reflexivity|].
  f_equal; [by apply Hfg|]. apply IH. intros i x' y' HR. by apply Hfg.
Qed.

(** The second loop of [_adjust_placements] overwrites what the first wrote. *)
Lemma adjust_placements_relabel (results : list PredictionResult) :
  _adjust_placements results = imap (fun i r => set_placement (Z.of_nat i + 1) r) results.
Proof.
  unfold _adjust_placements.
  pose proof (assign_greedy_shape results ∅) as Hshape.
  destruct (assign_greedy ∅ results) as [results' used]. simpl in Hshape.
  eapply imap_Forall2; [exact Hshape|].
  intros i x y [q ->]. reflexivity.
Qed.

Lemma relabel_placements (results : list PredictionResult) : forall start : nat,
  map predicted_placement (imap (fun i r => set_placement (Z.of_nat (start + i) + 1) r) results)
  = map (fun k => (Z.of_nat k + 1)%Z) (seq start (length results)).
Proof.
  induction results as [|r rest IH]; intros start; simpl; [reflexivity|].
  f_equal; [f_equal; lia|].
  rewrite <- (IH (S start)). f_equal. apply imap_ext. intros i x _. simpl.
  f_equal. lia.
Qed.

Lemma build_results_ok (teams : list Team.t) (features : list TrainingFeatures.t)
    (predictions : vector) : forall i : nat,
  (i + length teams <= length features)%nat ->
  (i + length teams <= length predictions)%nat ->
  exists results, build_results i teams features predictions = Ok results /\
    length results = length teams /\
    forall k x, results !! k = Some x ->
      exists t f p, teams !! k = Some t /\ features !! (i + k)%nat = Some f /\
        predictions !! (i + k)%nat = Some p /\ x = result_dict t f p.
Proof.
  induction teams as [|t rest IH]; intros i Hf Hp; simpl in *.
  - exists []. split; [reflexivity|]. split; [reflexivity|]. intros k x Hk. discriminate.
  - unfold index.
    destruct (lookup_lt_is_Some_2 predictions i) as [p Hpi]; [lia|].
    destruct (lookup_lt_is_Some_2 features i) as [f Hfi]; [lia|].
    rewrite Hpi, Hfi. run.
    destruct (IH (S i)) as (results & -> & Hlen & Hres); [lia | lia |]. run.
    eexists; split; [reflexivity|]. split; [simpl; lia|].
    intros [|k] x Hk; simpl in Hk.
    + injection Hk as <-. exists t, f, p. rewrite Nat.add_0_r. auto.
    + destruct (Hres k x Hk) as (t' & f' & p' & Ht & Hf' & Hp' & ->).
      exists t', f', p'. replace (i + S k)%nat with (S i + k)%nat by lia. auto.
Qed.

Lemma StronglySorted_weaken {A} (R R' : A -> A -> Prop) (l : list A) :
  (forall x y, R x y -> R' x y) -> StronglySorted R l -> StronglySorted R' l.
Proof.
  intros HR. induction 1 as [|x l Hl IH Hx]; constructor; [exact IH|].
  eapply Forall_impl; [exact Hx | auto].
Qed.

End PredictorProofs.

Section RankingProofs.

Import Predictor.

(** Sorting the result dicts and relabelling them ranks the teams by rounded
    score, then by position. *)
Lemma rank_results (teams : list Team.t) (features : list TrainingFeatures.t)
    (predictions : vector) (initial : list PredictionResult) :
  build_results 0 teams features predictions = Ok initial ->
  (length teams <= length features)%nat ->
  (length teams <= length predictions)%nat ->
  exists order,
    map predicted_placement (_adjust_placements (list_sort predicted_placement initial))
      = Spec.one_to (length teams) /\
    Spec.is_ranking (Spec.rounded_score predictions) (length teams) order /\
    Spec.placed_in_order teams features predictions order
      (_adjust_placements (list_sort predicted_placement initial)).
Proof.
  intros Hbuild Hf Hp.
  destruct (build_results_ok teams features predictions 0) as (rs & Hrs & Hlen & Hdict);
    [lia | lia |].
  assert (rs = initial) by congruence. subst rs.
  destruct (list_sort_order predicted_placement initial) as (order & Hperm & Hsorted & Hlo & Hpos).
  exists order. rewrite adjust_placements_relabel.
  split; [| split].
  - rewrite (relabel_placements _ 0). unfold Spec.one_to.
    rewrite Hlo, (Permutation_length Hperm), length_seq, Hlen. reflexivity.
  - split; [by rewrite <- Hlen|].
    eapply StronglySorted_weaken; [|exact Hsorted].
    intros i j (x & y & Hx & Hy & Hxy). unfold Spec.before, Spec.rounded_score.
    destruct (Hdict i x Hx) as (t & f & p & _ & _ & Hpi & ->).
    destruct (Hdict j y Hy) as (t' & f' & p' & _ & _ & Hpj & ->).
    simpl in Hpi, Hpj, Hxy.
    rewrite (nth_lookup_Some _ _ 0 _ Hpi), (nth_lookup_Some _ _ 0 _ Hpj).
    destruct Hxy as [Hlt | [Heq Hij]].
    + left. by rewrite <- Zlt_Qlt.
    + right. split; [by rewrite Heq | exact Hij].
  - split; [by rewrite length_imap|].
    intros k i Hk. destruct (Hpos k i Hk) as (x & Hx & Hsx).
    destruct (Hdict i x Hx) as (t & f & p & Ht & Hfi & Hpi & ->).
    exists t, f, p. simpl in Hfi, Hpi. repeat split; try assumption.
    rewrite list_lookup_imap, Hsx. reflexivity.
Qed.

Context `{Lib}.

Lemma predicted_scores_features (self : PlacementPredictor) (teams : list Team.t) (c c' : Clock)
    (features : list TrainingFeatures.t) (predictions : vector) :
  predicted_scores self teams c = (Ok (features, predictions), c') ->
  length features = length teams.
Proof.
  unfold predicted_scores. intros Hscores.
  destruct (extract_features_ok teams c) as (fs & c1 & Hfs & Hdefaults).
  unfold mbind, SR_bind in Hscores. rewrite Hfs in Hscores. unfold lift in Hscores.
  destruct ((Engineering.prepare_features fs true (feature_engineer self)).1) as [[df X]|];
    [|discriminate].
  destruct (raw_predictions self df X); [|discriminate].
  injection Hscores as <- _ _. symmetry. exact (Forall2_length _ _ _ Hdefaults).
Qed.

(** C1, as the code has it.  Whenever the raw scores of a batch are
    obtained, one per team, [predict_placements] returns; the placements of
    its results are exactly 1, 2, ..., N in that order; and the results list
    the teams in ascending order of the rounded score [int(round(score))],
    teams with equal rounded scores in the order of the input list. *)
Theorem predict_placements_ranks_by_rounded_score (self : PlacementPredictor)
    (teams : list Team.t) (c c' : Clock) (features : list TrainingFeatures.t)
    (predictions : vector) :
  predicted_scores self teams c = (Ok (features, predictions), c') ->
  (length teams <= length predictions)%nat ->
  exists results order,
    predict_placements self teams c = (Ok results, c') /\
    map predicted_placement results = Spec.one_to (length teams) /\
    Spec.is_ranking (Spec.rounded_score predictions) (length teams) order /\
    Spec.placed_in_order teams features predictions order results.
Proof.
  intros Hscores Hp.
  pose proof (predicted_scores_features _ _ _ _ _ _ Hscores) as Hf.
  destruct (build_results_ok teams features predictions 0) as (initial & Hinit & _);
    [lia | lia |].
  destruct (rank_results teams features predictions initial Hinit) as (order & Hdense & Hrank & Hplaced);
    [lia | lia |].
  eexists _, order. split; [| split; [exact Hdense | split; [exact Hrank | exact Hplaced]]].
  unfold predict_placements, mbind, SR_bind. rewrite Hscores.
  unfold lift. rewrite Hinit. reflexivity.
Qed.

End RankingProofs.

(** ** The fallback heuristic and rank density *)

Section FallbackProofs.

Import Predictor.







Context `{Lib}.





End FallbackProofs.

Section EmptyBatch.
Import Predictor.
Context `{Lib}.

(** The empty batch makes the untrained predictor raise: in the scaler, or
    at [scores.min()] of the heuristic. *)
Lemma predict_placements_empty_untrained (self : PlacementPredictor) (c : Clock) :
  Trainer.is_trained (model_trainer self) = false ->
  exists e c', predict_placements self [] c = (Raise e, c').
Proof.
  intros Huntrained.
  unfold predict_placements, predicted_scores, mbind, SR_bind. simpl.
  unfold lift. destruct ((Engineering.prepare_features [] true (feature_engineer self)).1)
    as [[df X]|e] eqn:Hprep; [|eauto].
  assert (df = []) as ->.
  { unfold Engineering.prepare_features, mbind, SR_bind, gets, lift in Hprep. simpl in Hprep.
    destruct (standardize [] []); simpl in Hprep; [|discriminate]. congruence. }
  unfold raw_predictions. rewrite Huntrained. simpl. eauto.
Qed.

End EmptyBatch.

(** ** Model training *)

Section TrainerProofs.

Import Trainer.

Context `{Lib}.

(** Python's [min] with a key keeps the first least element. *)
Lemma py_min_by_first {A} (key : A -> Q) (rest : list A) : forall seen best,
  (exists l1 l2, seen = l1 ++ best :: l2 /\
     Forall (fun z => key best < key z) l1 /\ Forall (fun z => key best <= key z) l2) ->
  let b := fold_left (fun best y => if Qlt_le_dec (key y) (key best) then y else best) rest best in
  exists l1 l2, seen ++ rest = l1 ++ b :: l2 /\
     Forall (fun z => key b < key z) l1 /\ Forall (fun z => key b <= key z) l2.
Proof.
  induction rest as [|y rest IH]; intros seen best (l1 & l2 & -> & H1 & H2); simpl.
  - exists l1, l2. rewrite app_nil_r. auto.
  - replace ((l1 ++ best :: l2) ++ y :: rest) with (((l1 ++ best :: l2) ++ [y]) ++ rest)
      by (rewrite <- !app_assoc; reflexivity).
    apply IH. destruct (Qlt_le_dec (key y) (key best)) as [Hlt|Hle].
    + exists (l1 ++ best :: l2), []. split; [reflexivity|]. split; [|constructor].
      apply Forall_app. split; [|constructor].
      * eapply Forall_impl; [exact H1|]. intros z Hz. simpl in Hz. lra.
      * exact Hlt.
      * eapply Forall_impl; [exact H2|]. intros z Hz. simpl in Hz. lra.
    + exists l1, (l2 ++ [y]). split; [by rewrite <- app_assoc|]. split; [exact H1|].
      apply Forall_app. split; [exact H2 | by constructor].
Qed.

Lemma py_min_by_spec {A} (key : A -> Q) (l : list A) :
  l <> [] ->
  exists b l1 l2, py_min_by key l = Ok b /\ l = l1 ++ b :: l2 /\
    Forall (fun z => key b < key z) l1 /\ Forall (fun z => key b <= key z) l2.
Proof.
  destruct l as [|x rest]; [contradiction | intros _]. simpl.
  destruct (py_min_by_first key rest [x] x) as (l1 & l2 & Heq & H1 & H2).
  { exists [], []. repeat split; constructor. }
  eexists _, l1, l2. split; [reflexivity|]. auto.
Qed.

(** The loop never touches [is_trained]. *)
Lemma train_loop_is_trained (items : list (model_name * Estimator)) (X : matrix) (y : vector) :
  forall results self, is_trained (train_loop items X y results self).2 = is_trained self.
Proof.
  induction items as [|[name model] rest IH]; intros results self; simpl; [reflexivity|].
  unfold mbind, SR_bind, lift.
  destruct (cross_val_score _ X y _); [|reflexivity].
  destruct (np_mean _); [|reflexivity].
  destruct (fit _ X y); [|reflexivity].
  simpl. rewrite IH. reflexivity.
Qed.

(** The loop raises when a candidate in it fails: at that candidate, if not
    before. *)
Lemma train_loop_raises (items : list (model_name * Estimator)) (X : matrix) (y : vector) :
  forall results self,
  Exists (fun item => Spec.candidate_fails X y (family item.2)) items ->
  exists e, (train_loop items X y results self).1 = Raise e.
Proof.
  induction items as [|[name model] rest IH]; intros results self Hfail.
  - by apply Exists_nil in Hfail.
  - simpl. unfold mbind, SR_bind, lift.
    destruct (cross_val_score (family model) X y _) as [scores|e] eqn:Hcv; [|eauto].
    destruct (np_mean scores) as [mean|e]; [|eauto].
    destruct (fit (family model) X y) as [f|e] eqn:Hfit; [|eauto].
    simpl. apply IH. apply Exists_cons in Hfail as [[[e He]|[e He]]|Hrest].
    + simpl in He. congruence.
    + simpl in He. congruence.
    + exact Hrest.
Qed.

Lemma train_models_never_raises (X : matrix) (y : vector) (self : ModelTrainer) :
  exists r self', train_models X y self = (Ok r, self').
Proof.
  unfold train_models. destruct (len X <? 3)%Z.
  - eexists _, _. reflexivity.
  - unfold try_except_in.
    match goal with |- context [match ?body with _ => _ end] => destruct body as [[r|e] s'] end;
      eexists _, _; reflexivity.
Qed.

Lemma three_candidates_family (self : ModelTrainer) (name : model_name) :
  Spec.three_candidates self ->
  Exists (fun item => family item.2 = name) (models self).
Proof.
  intros [Hkeys Hfam].
  assert (Hin : name ∈ map fst (models self)).
  { rewrite Hkeys. destruct name; set_solver. }
  apply list_elem_of_fmap in Hin as (item & -> & Hitem).
  apply Exists_exists. exists item. split; [exact Hitem|].
  rewrite Forall_forall in Hfam. by apply Hfam.
Qed.

(** C9.  With at least three rows, when cross-validation or fitting of
    any of the three candidates raises, [train_models] catches the exception:
    it returns None, without raising, and leaves [is_trained] false. *)
Theorem train_models_catches (X : matrix) (y : vector) (self : ModelTrainer) :
  Spec.three_candidates self -> (3 <= len X)%Z ->
  (exists name, Spec.candidate_fails X y name) ->
  exists self', train_models X y self = (Ok None, self') /\ is_trained self' = false.
Proof.
  intros Hthree Hrows [name Hfail].
  unfold train_models. destruct (Z.ltb_spec (len X) 3) as [|_]; [lia|].
  destruct (train_loop_raises (models self) X y [] self) as [e He].
  { eapply Exists_impl; [apply (three_candidates_family self name Hthree)|].
    intros item ->. exact Hfail. }
  unfold try_except_in, mbind, SR_bind, gets.
  destruct (train_loop (models self) X y [] self) as [r s']. simpl in He. subst r.
  eexists. split; reflexivity.
Qed.

End TrainerProofs.

Section TrainingProofs.

Import Trainer.

Context `{Lib}.

Lemma np_mean_ok (arr : vector) : arr <> [] -> exists mean, np_mean arr = Ok mean.
Proof.
  intros Harr. unfold np_mean. eexists. apply np_true_divide_ok.
  apply inject_Z_nonzero. destruct arr; [contradiction|]. pose proof (len_cons q arr). lia.
Qed.

(** One round of the loop for a candidate that is cross-validated and fitted. *)
Lemma train_loop_step (name : model_name) (model : Estimator) (rest : list (model_name * Estimator))
    (X : matrix) (y : vector) (results : TrainingResults) (self : ModelTrainer)
    (scores : vector) (mean : Q) (f : Fitted) :
  cross_val_score (family model) X y (Z.min 3 (len X)) = Ok scores ->
  np_mean scores = Ok mean ->
  fit (family model) X y = Ok f ->
  train_loop ((name, model) :: rest) X y results self =
  train_loop rest X y
    (dict_set name {| cv_mae_mean := - mean; cv_scores := scores;
                      model := {| family := family model; fitted := Some f |} |} results)
    (set_model name {| family := family model; fitted := Some f |} self).
Proof.
  intros Hcv Hmean Hfit. simpl. unfold mbind, SR_bind, lift.
  rewrite Hcv, Hmean, Hfit. reflexivity.
Qed.


End TrainingProofs.

(** ** Validation metrics *)

Section ValidatorProofs.

Import Validator.

Lemma np_zip_with_ok {A B C} (f : A -> B -> C) (a : list A) (b : list B) :
  length a = length b ->
  np_zip_with f a b = Ok (zip_with f a b).
Proof.
  intros Hlen. unfold np_zip_with. destruct (decide (length a = length b)); [reflexivity | contradiction].
Qed.

Lemma np_sum_bool_zero (arr : list bool) : Forall (fun b => b = false) arr -> np_sum_bool arr = 0%Z.
Proof.
  unfold np_sum_bool, count_if, len. induction 1 as [|b arr -> _ IH]; [reflexivity|].
  rewrite filter_cons_False by discriminate. exact IH.
Qed.

Lemma np_sum_bool_and_le (a b : list bool) :
  (np_sum_bool (zip_with andb a b) <= np_sum_bool b)%Z.
Proof.
  unfold np_sum_bool, count_if, len. apply inj_le.
  revert b. induction a as [|x a IH]; intros [|y b]; cbn [zip_with]; try (simpl; lia).
  specialize (IH b). destruct x, y; cbn [andb].
  - rewrite !filter_cons_True by reflexivity. simpl. lia.
  - rewrite !filter_cons_False by discriminate. exact IH.
  - rewrite filter_cons_False by discriminate. rewrite filter_cons_True by reflexivity. simpl. lia.
  - rewrite !filter_cons_False by discriminate. exact IH.
Qed.

Lemma top_n_accuracy_ok (y_true y_pred : list Z) (n : Z) :
  length y_true = length y_pred ->
  exists q, _top_n_accuracy y_true y_pred n = Ok q /\ 0 <= q <= 1.
Proof.
  intros Hlen. unfold _top_n_accuracy.
  rewrite np_zip_with_ok by (rewrite !length_map; lia). run.
  set (pred_top_n := map (fun p => (p <=? n)%Z) y_pred).
  set (actual_top_n := map (fun t => (t <=? n)%Z) y_true).
  destruct (Z.ltb_spec 0 (np_sum_bool actual_top_n)) as [Hpos|Hzero].
  - rewrite np_true_divide_ok by (apply inject_Z_nonzero; lia).
    eexists; split; [reflexivity|]. apply fraction_bounds; [|exact Hpos].
    split; [apply count_if_bounds | apply np_sum_bool_and_le].
  - exists 0.0. split; [reflexivity | lra].
Qed.

(** C10.  On arrays of one size, [_top_n_accuracy] returns a number
    between 0 and 1 and never divides by zero; when no actual placement is
    within the top [n] it returns 0.0. *)
Theorem top_n_accuracy_defined (y_true y_pred : list Z) (n : Z) :
  length y_true = length y_pred ->
  (exists q, _top_n_accuracy y_true y_pred n = Ok q /\ 0 <= q <= 1) /\
  (Forall (fun placement => (n < placement)%Z) y_true ->
     _top_n_accuracy y_true y_pred n = Ok 0.0).
Proof.
  intros Hlen. split; [by apply top_n_accuracy_ok|].
  intros Hnone. unfold _top_n_accuracy.
  rewrite np_zip_with_ok by (rewrite !length_map; lia). run.
  rewrite (np_sum_bool_zero (map (fun t => (t <=? n)%Z) y_true)); [reflexivity|].
  apply Forall_map. eapply Forall_impl; [exact Hnone|].
  intros t Ht. simpl. apply Z.leb_gt. exact Ht.
Qed.

Lemma matching_lengths (predictions : list Predictor.PredictionResult)
    (actual_placements : gmap string Z) :
  let '(valid_predictions, valid_actuals, valid_teams) := matching predictions actual_placements in
  length valid_actuals = length valid_predictions /\ length valid_teams = length valid_predictions.
Proof.
  induction predictions as [|p rest IH]; simpl; [auto|].
  destruct (matching rest actual_placements) as [[vp va] vt].
  destruct (actual_placements !! Predictor.team p); simpl; lia.
Qed.

Lemma detail_loop_ok (y_true y_pred : list Z) (teams : list string) : forall i : nat,
  (i + length teams <= length y_true)%nat -> (i + length teams <= length y_pred)%nat ->
  exists details, detail_loop i y_true y_pred teams = Ok details.
Proof.
  induction teams as [|t rest IH]; intros i Ht Hp; simpl in *; [eauto|].
  unfold index.
  destruct (lookup_lt_is_Some_2 y_pred i) as [p ->]; [lia|].
  destruct (lookup_lt_is_Some_2 y_true i) as [a ->]; [lia|]. run.
  destruct (IH (S i)) as [details ->]; [lia | lia |]. run. eauto.
Qed.

(** Validation returns a report for every list of predictions and every
    dict of actual placements. *)
Lemma validate_predictions_never_raises (predictions : list Predictor.PredictionResult)
    (actual_placements : gmap string Z) :
  exists report, validate_predictions predictions actual_placements = Ok report.
Proof.
  unfold validate_predictions.
  pose proof (matching_lengths predictions actual_placements) as Hlen.
  destruct (matching predictions actual_placements) as [[y_pred y_true] teams].
  destruct Hlen as [Htrue Hteams].
  destruct y_pred as [|p y_pred]; [eauto|].
  set (yp := p :: y_pred) in *.
  assert (Hne : forall {C} (f : Z -> Z -> C), zip_with f y_true yp <> []).
  { intros C f E. apply (f_equal length) in E. rewrite length_zip_with in E.
    unfold yp in *. simpl in *. lia. }
  unfold sk_mean_absolute_error, sk_mean_squared_error, _accuracy_within_range,
    _perfect_predictions.
  rewrite !np_zip_with_ok by lia. run.
  destruct (np_mean_ok (zip_with (fun t p0 => inject_Z (np_abs (np_subtract p0 t))) y_true yp))
    as [mae ->]; [apply Hne|]. run.
  destruct (np_mean_ok (zip_with (fun t p0 => inject_Z (np_multiply (np_subtract t p0)
                                                          (np_subtract t p0))) y_true yp))
    as [mse ->]; [apply Hne|]. run.
  assert (Hmean : forall arr : list bool, arr <> [] -> exists m, np_mean (map as_float arr) = Ok m).
  { intros arr Harr. apply np_mean_ok. destruct arr; [contradiction | discriminate]. }
  destruct (Hmean (zip_with (fun t p0 => (np_abs (np_subtract t p0) <=? 1)%Z) y_true yp))
    as [w1 ->]; [apply Hne|]. run.
  destruct (Hmean (zip_with (fun t p0 => (np_abs (np_subtract t p0) <=? 2)%Z) y_true yp))
    as [w2 ->]; [apply Hne|]. run.
  destruct (Hmean (zip_with (fun t p0 => (np_abs (np_subtract t p0) <=? 3)%Z) y_true yp))
    as [w3 ->]; [apply Hne|]. run.
  destruct (top_n_accuracy_ok y_true yp 3 Htrue) as (t3 & -> & _). run.
  destruct (top_n_accuracy_ok y_true yp 5 Htrue) as (t5 & -> & _). run.
  destruct (Hmean (zip_with Z.eqb y_true yp)) as [pf ->]; [apply Hne|]. run.
  unfold _detailed_analysis.
  destruct (detail_loop_ok y_true yp teams 0) as [details ->]; [lia | lia |]. run.
  eauto.
Qed.

(** C7.  With actual placements [1, 2, 3, 4] and predicted placements
    [1, 3, 2, 4] for the same four teams, [validate_predictions] reports
    [accuracy_within_1] equal to 1.0 and [perfect_predictions] equal to 0.5. *)
Theorem validation_accuracy_example :
  exists metrics,
    validate_predictions Examples.four_predictions Examples.four_actuals = Ok (Validated metrics) /\
    accuracy_within_1 metrics == 1.0 /\
    perfect_predictions metrics == 0.5 /\
    (exists q, _accuracy_within_range [1; 2; 3; 4]%Z [1; 3; 2; 4]%Z 1 = Ok q /\ q == 1.0) /\
    (exists q, _perfect_predictions [1; 2; 3; 4]%Z [1; 3; 2; 4]%Z = Ok q /\ q == 0.5).
Proof.
  eexists. split; [vm_compute; reflexivity|].
  split; [reflexivity|]. split; [reflexivity|].
  split; eexists; (split; [vm_compute; reflexivity | reflexivity]).
Qed.

End ValidatorProofs.

(** ** The properties on concrete inputs *)

Section Instances.

Import Examples.



(** The ranking theorem on the batch of the three bare teams. *)
Lemma predict_placements_ranks_by_rounded_score_witness :
  @Predictor.predicted_scores toy_lib untrained three_teams (frozen 0%Z)
    = (Ok (three_scores.1, three_scores.2), frozen 0%Z) /\
  (length three_teams <= length three_scores.2)%nat /\
  exists results order,
    @Predictor.predict_placements toy_lib untrained three_teams (frozen 0%Z)
      = (Ok results, frozen 0%Z) /\
    map Predictor.predicted_placement results = Spec.one_to (length three_teams) /\
    Spec.is_ranking (Spec.rounded_score three_scores.2) (length three_teams) order /\
    Spec.placed_in_order three_teams three_scores.1 three_scores.2 order results.
Proof.
  assert (Hscores : @Predictor.predicted_scores toy_lib untrained three_teams (frozen 0%Z)
                    = (Ok (three_scores.1, three_scores.2), frozen 0%Z))
    by (vm_compute; reflexivity).
  assert (Hlen : (length three_teams <= length three_scores.2)%nat) by (simpl; lia).
  split; [exact Hscores|]. split; [exact Hlen|].
  exact (@predict_placements_ranks_by_rounded_score toy_lib untrained three_teams
           (frozen 0%Z) (frozen 0%Z) three_scores.1 three_scores.2 Hscores Hlen).
Defined.

(** C1 fails as stated.  On the batch Nine, Ten, Zero the untrained
    predictor gives Ten a lower raw score than Nine (about 1.0000001 against
    1.4375); both round to 1, and the results list Nine first, then Ten:
    they are not in ascending order of the raw score. *)
Lemma raw_score_order_violated :
  @Predictor.predicted_scores toy_lib untrained three_teams (frozen 0%Z)
    = (Ok (three_scores.1, three_scores.2), frozen 0%Z) /\
  @Predictor.predict_placements toy_lib untrained three_teams (frozen 0%Z)
    = (Ok three_results, frozen 0%Z) /\
  map Predictor.team three_results = ["Nine"; "Ten"; "Zero"]%string /\
  Spec.raw_score three_scores.2 1 < Spec.raw_score three_scores.2 0 /\
  ~ exists order,
      Spec.is_ranking (Spec.raw_score three_scores.2) (length three_teams) order /\
      Spec.placed_in_order three_teams three_scores.1 three_scores.2 order three_results.
Proof.
  split; [vm_compute; reflexivity|]. split; [vm_compute; reflexivity|].
  split; [reflexivity|]. split; [reflexivity|].
  intros (order & [Hperm Hsorted] & [Hlen Hplaced]).
  destruct order as [|a [|b [|d [|]]]]; try discriminate Hlen.
  assert (Ha : a = 0%nat).
  { destruct (Hplaced 0%nat a eq_refl) as (t & f & p & Ht & _ & _ & Hr).
    destruct a as [|[|[|a]]]; [reflexivity | | | discriminate Ht];
      injection Ht as <-; discriminate Hr. }
  assert (Hb : b = 1%nat).
  { destruct (Hplaced 1%nat b eq_refl) as (t & f & p & Ht & _ & _ & Hr).
    destruct b as [|[|[|b]]]; [ | reflexivity | | discriminate Ht];
      injection Ht as <-; discriminate Hr. }
  subst a b.
  apply StronglySorted_inv in Hsorted as [_ Hfirst].
  apply Forall_cons in Hfirst as [[Hlt | [Heq _]] _].
  - vm_compute in Hlt. discriminate Hlt.
  - vm_compute in Heq. discriminate Heq.
Qed.



(** The bound on a row of halves. *)
Lemma team_strength_index_bounded_witness :
  Forall Spec.primitives_in_unit_interval [half_row] /\
  Forall (fun row => 0 <= Engineering.team_strength_index row <= 1)
    (Engineering.create_composite_features [half_row]).
Proof.
  assert (Hrow : Forall Spec.primitives_in_unit_interval [half_row]).
  { repeat constructor; discriminate. }
  split; [exact Hrow|]. exact (team_strength_index_bounded [half_row] Hrow).
Defined.

Lemma init_three_candidates : Spec.three_candidates Trainer.init.
Proof. split; [reflexivity|]. repeat constructor. Defined.

Lemma toy_candidates_succeed : @Spec.candidates_succeed toy_lib three_rows three_targets.
Proof.
  intros name. exists (toy_scores name). eexists.
  split; [reflexivity|]. split; [destruct name; discriminate | reflexivity].
Defined.



(** The exception raised on three rows with two targets is caught. *)
Lemma train_models_catches_witness :
  Spec.three_candidates Trainer.init /\ (3 <= len three_rows)%Z /\
  (exists name, @Spec.candidate_fails toy_lib three_rows two_targets name) /\
  exists self',
    @Trainer.train_models toy_lib three_rows two_targets Trainer.init = (Ok None, self') /\
    Trainer.is_trained self' = false.
Proof.
  assert (Hrows : (3 <= len three_rows)%Z) by (vm_compute; discriminate).
  assert (Hfail : exists name, @Spec.candidate_fails toy_lib three_rows two_targets name).
  { exists ridge. left. exists inconsistent. reflexivity. }
  split; [exact init_three_candidates|]. split; [exact Hrows|]. split; [exact Hfail|].
  exact (@train_models_catches toy_lib three_rows two_targets Trainer.init
           init_three_candidates Hrows Hfail).
Defined.

(** No actual placement within the top three. *)
Lemma top_n_accuracy_defined_witness :
  length [4; 5]%Z = length [1; 2]%Z /\
  Forall (fun placement => (3 < placement)%Z) [4; 5]%Z /\
  Validator._top_n_accuracy [4; 5]%Z [1; 2]%Z 3 = Ok 0.0.
Proof.
  assert (Hnone : Forall (fun placement => (3 < placement)%Z) [4; 5]%Z).
  { repeat constructor. }
  split; [reflexivity|]. split; [exact Hnone|].
  exact (proj2 (top_n_accuracy_defined [4; 5]%Z [1; 2]%Z 3 eq_refl) Hnone).
Defined.

End Instances.

(** ** Performance measures *)

Section ProcessorsMore.

Import Processors.

(** What [calculate_team_performance] computes for a team with matches. *)
Lemma calculate_team_performance_value (team : Team.t) :
  Team.recent_matches team <> [] ->
  exists r w s,
    form_loop 0 (take 6 (Team.recent_matches team)) 0.0 0.0 = Ok (r, w) /\
    0 <= r <= w /\ 0 < w /\
    raw_strength_of_schedule team = Ok s /\
    calculate_team_performance team =
      Ok {| win_rate := inject_Z (count_if is_win (Team.recent_matches team))
                        / inject_Z (len (Team.recent_matches team));
            recent_form := r / w;
            strength_of_schedule := py_min s 1.0 |}.
Proof.
  intros Hne. unfold calculate_team_performance.
  destruct (Team.recent_matches team) as [|m rest] eqn:E; [contradiction|].
  pose proof (len_cons m rest) as Hlen.
  destruct (Z.ltb_spec 0 (len (m :: rest))) as [_|]; [|lia].
  rewrite py_div_ok by (apply inject_Z_nonzero; lia). run.
  destruct (form_loop_ok (take 6 (m :: rest)) 0 0.0 0.0) as (r & w & Hloop & Hr & Hw & Hpos);
    [lia | lra |].
  specialize (Hpos ltac:(discriminate)).
  rewrite Hloop. run.
  destruct (Qlt_le_dec 0 w) as [Hw0|Hw0]; [|lra].
  rewrite py_div_ok by lra. run.
  destruct (raw_strength_of_schedule_ok team) as (s & Hs & _); [congruence|].
  rewrite Hs. run.
  exists r, w, s. repeat split; try tauto; lra.
Qed.

(** X1.  [calculate_team_performance] never raises, and the win rate and
    the recent form it returns lie between 0 and 1. *)
Theorem team_performance_rates_bounded (team : Team.t) :
  exists perf, calculate_team_performance team = Ok perf /\
    0 <= win_rate perf <= 1 /\ 0 <= recent_form perf <= 1.
Proof.
  destruct (Team.recent_matches team) as [|m rest] eqn:E.
  - unfold calculate_team_performance. rewrite E. eexists. split; [reflexivity|]. simpl. lra.
  - destruct (calculate_team_performance_value team) as (r & w & s & _ & Hr & Hw & _ & ->);
      [congruence|].
    eexists. split; [reflexivity|]. simpl. split.
    + apply fraction_bounds; [apply count_if_bounds | rewrite E; apply len_cons].
    + split.
      * apply Qle_shift_div_l; [exact Hw | lra].
      * apply Qle_shift_div_r; [exact Hw | lra].
Qed.

(** X2.  The recent form depends on the six most recent matches only:
    two teams whose match lists start with the same six matches have the
    same recent form. *)
Theorem recent_form_first_six (team1 team2 : Team.t) :
  take 6 (Team.recent_matches team1) = take 6 (Team.recent_matches team2) ->
  exists perf1 perf2,
    calculate_team_performance team1 = Ok perf1 /\
    calculate_team_performance team2 = Ok perf2 /\
    recent_form perf1 = recent_form perf2.
Proof.
  intros Hsix.
  destruct (Team.recent_matches team1) as [|m1 rest1] eqn:E1;
    destruct (Team.recent_matches team2) as [|m2 rest2] eqn:E2; try discriminate Hsix.
  - unfold calculate_team_performance. rewrite E1, E2. eexists _, _. repeat split.
  - destruct (calculate_team_performance_value team1) as (r1 & w1 & s1 & Hl1 & _ & _ & _ & ->);
      [congruence|].
    destruct (calculate_team_performance_value team2) as (r2 & w2 & s2 & Hl2 & _ & _ & _ & ->);
      [congruence|].
    rewrite E1 in Hl1. rewrite E2 in Hl2. rewrite Hsix in Hl1.
    assert (Heq : (r1, w1) = (r2, w2)) by congruence. injection Heq as -> ->.
    eexists _, _. repeat split.
Qed.

(** X3.  [calculate_tournament_performance] never raises and returns a
    number between 0 and 1: the neutral 0.5 for a team without a Game
    Changers match, the share of wins among these matches otherwise. *)
Theorem tournament_performance_bounded (team : Team.t) :
  exists perf, calculate_tournament_performance team = Ok perf /\
    0 <= perf <= 1 /\
    (gc_matches team = [] -> perf = 0.5).
Proof.
  unfold calculate_tournament_performance.
  destruct (Team.recent_matches team) as [|m rest] eqn:E.
  - exists 0.5. split; [reflexivity|]. split; [lra | reflexivity].
  - destruct (gc_matches team) as [|g gs] eqn:G.
    + exists 0.5. split; [reflexivity|]. split; [lra | reflexivity].
    + pose proof (len_cons g gs) as Hlen.
      rewrite py_div_ok by (apply inject_Z_nonzero; lia).
      eexists. split; [reflexivity|]. split; [|discriminate].
      apply fraction_bounds; [apply count_if_bounds | exact Hlen].
Qed.

(** X4.  For a team formed no later than the reading of the clock, the
    roster stability lies between 0 and the roster completeness (players
    over five); it is the roster completeness from the 365th day on. *)
Theorem roster_stability_range (team : Team.t) (c : Clock) (formed : datetime) :
  Team.formed_date team = Some formed ->
  (0 <= timedelta_days (c 0%nat - formed))%Z ->
  exists stability c',
    calculate_roster_stability team c = (Ok stability, c') /\
    0 <= stability <= inject_Z (len (Team.players team)) / 5 /\
    ((365 <= timedelta_days (c 0%nat - formed))%Z ->
       stability == inject_Z (len (Team.players team)) / 5).
Proof.
  intros Hformed Hdays. unfold calculate_roster_stability. rewrite Hformed.
  unfold mbind, SR_bind, datetime_now, lift.
  rewrite py_div_ok by (apply inject_Z_nonzero; lia).
  rewrite py_div_ok by discriminate.
  eexists _, _. split; [reflexivity|].
  set (days := timedelta_days (c 0%nat - formed)) in *.
  assert (Hratio : 0 <= inject_Z days / inject_Z 365).
  { apply Qle_shift_div_l; [reflexivity|]. rewrite Qmult_0_l.
    change 0 with (inject_Z 0). rewrite <- Zle_Qle. exact Hdays. }
  assert (Hplayers : 0 <= inject_Z (len (Team.players team)) / 5).
  { apply Qle_shift_div_l; [reflexivity|]. rewrite Qmult_0_l.
    change 0 with (inject_Z 0). rewrite <- Zle_Qle. unfold len. lia. }
  set (ratio := inject_Z days / inject_Z 365) in *.
  set (completeness := inject_Z (len (Team.players team)) / 5) in *.
  unfold py_min. destruct (Qlt_le_dec 1.0 ratio) as [Hbig|Hsmall].
  - split; [nra|]. intros _. lra.
  - split; [nra|]. intros Hyear.
    assert (Hone : 1 <= ratio).
    { unfold ratio. apply Qle_shift_div_l; [reflexivity|]. rewrite Qmult_1_l.
      rewrite <- Zle_Qle. exact Hyear. }
    assert (ratio == 1) by lra. nra.
Qed.

End ProcessorsMore.

(** ** Sums, and the clock *)

Section AveragesProofs.

Import Processors.

Lemma fold_Qplus_bounds {A} (f : A -> Q) (lo hi : Q) (l : list A) : forall acc,
  Forall (fun x => lo <= f x <= hi) l ->
  acc + inject_Z (len l) * lo <= fold_left Qplus (map f l) acc <= acc + inject_Z (len l) * hi.
Proof.
  induction l as [|x l IH]; intros acc Hl.
  - change (inject_Z (len (@nil A))) with 0. simpl. lra.
  - apply Forall_cons in Hl as [Hx Hl]. simpl fold_left. simpl map.
    specialize (IH (acc + f x) Hl).
    assert (E : inject_Z (len (x :: l)) == inject_Z (len l) + 1).
    { unfold len. simpl length. rewrite Nat2Z.inj_succ, <- Z.add_1_r, inject_Z_plus. reflexivity. }
    rewrite E. simpl in IH. split; nra.
Qed.

(** The clock after [extract_features]. *)
Lemma extract_team_features_reads (team : Team.t) (c : Clock) :
  exists f,
    extract_team_features team c
      = (Ok f, fun k => c ((if Spec.has_formed_date team then 1 else 0) + k)%nat) /\
    TrainingFeatures.team_id f = Team.id team /\ TrainingFeatures.target f = None.
Proof.
  unfold extract_team_features, calculate_roster_stability, Spec.has_formed_date.
  destruct (calculate_individual_performance_ok team) as (ip & Hip & _).
  destruct (calculate_team_performance_ok team) as (tp & Htp & _).
  destruct (calculate_tournament_performance_ok team) as (tr & Htr & _).
  destruct (Team.formed_date team) as [formed|].
  - unfold mbind, SR_bind, datetime_now, lift.
    rewrite py_div_ok by (apply inject_Z_nonzero; lia).
    rewrite py_div_ok by discriminate.
    rewrite Hip, Htp, Htr. eexists. split; [reflexivity|]. split; reflexivity.
  - unfold mbind, SR_bind, lift, mret, SR_ret. rewrite Hip, Htp, Htr.
    eexists. split; [reflexivity|]. split; reflexivity.
Qed.

(** X6.  [extract_features] never raises and returns one feature set
    per team, in the order of the teams and under their ids, without a
    target; it reads the clock once for every team with a formation date. *)
Theorem extract_features_ids_and_clock (teams : list Team.t) (c : Clock) :
  exists features c',
    extract_features teams c = (Ok features, c') /\
    map TrainingFeatures.team_id features = map Team.id teams /\
    Forall (fun f => TrainingFeatures.target f = None) features /\
    forall k, c' k = c (Spec.clock_reads teams + k)%nat.
Proof.
  revert c. induction teams as [|team rest IH]; intros c.
  - exists [], c. repeat split; constructor.
  - destruct (extract_team_features_reads team c) as (f & Hf & Hid & Htarget).
    destruct (IH (fun k => c ((if Spec.has_formed_date team then 1 else 0) + k)%nat))
      as (fs & c2 & Hfs & Hids & Htargets & Hclock).
    exists (f :: fs), c2. split; [| split; [| split]].
    + simpl. unfold mbind, SR_bind. rewrite Hf, Hfs. reflexivity.
    + simpl. by rewrite Hid, Hids.
    + by constructor.
    + intros k. rewrite Hclock. unfold Spec.clock_reads. simpl.
      destruct (Spec.has_formed_date team); simpl; f_equal; lia.
Qed.

End AveragesProofs.

(** ** Feature preparation and composites *)

Section EngineeringMore.

Import Engineering.

Context `{Lib}.

(** X7.  A call of [prepare_features] that fits (asked to, or on an
    engineer not fitted yet) returns the frame of the features and its
    standardization on its own statistics, and leaves the engineer fitted.
    A later call with [fit_scaler=False] standardizes with the statistics of
    the fitting call and leaves the engineer as it is. *)
Theorem prepare_features_reuses_statistics (self self1 : FeatureEngineer)
    (first second : list TrainingFeatures.t) (fit_scaler : bool) (df : DataFrame) (X : matrix) :
  fit_scaler || negb (is_fitted self) = true ->
  prepare_features first fit_scaler self = (Ok (df, X), self1) ->
  df = map feature_row first /\
  standardize (map row_values df) (map row_values df) = Ok X /\
  is_fitted self1 = true /\
  prepare_features second false self1 =
    (match standardize (map row_values df) (map row_values (map feature_row second)) with
     | Ok X' => Ok (map feature_row second, X')
     | Raise e => Raise e
     end, self1).
Proof.
  intros Hfit Hfirst.
  unfold prepare_features, mbind, SR_bind, gets, lift, modify in Hfirst.
  rewrite Hfit in Hfirst.
  set (values := map row_values (map feature_row first)) in *.
  destruct (standardize values values) as [X0|e] eqn:Hstd; [|discriminate].
  simpl in Hfirst. injection Hfirst as <- <- <-.
  split; [reflexivity|]. split; [exact Hstd|]. split; [reflexivity|].
  unfold prepare_features, mbind, SR_bind, gets, lift. simpl. fold values.
  destruct (standardize values (map row_values (map feature_row second))); reflexivity.
Qed.

(** X8.  [create_composite_features] keeps the columns it is given.  On
    rows with every primitive in [0, 1] the stability-performance, form
    consistency and tournament impact lie in [0, 1], and the individual
    skill, scaled by 1/200, is at most 0.005. *)
Theorem composites_in_unit_interval (df : DataFrame) :
  Forall Spec.primitives_in_unit_interval df ->
  map base (create_composite_features df) = df /\
  Forall (fun row =>
            Spec.unit_interval (stability_performance row) /\
            Spec.unit_interval (form_consistency row) /\
            0 <= individual_skill row <= 0.005 /\
            Spec.unit_interval (tournament_impact row))
    (create_composite_features df).
Proof.
  intros Hdf. unfold create_composite_features. split.
  - rewrite map_map. simpl. apply map_id.
  - apply Forall_map. eapply Forall_impl; [exact Hdf|]. clear. intros r Hr.
    unfold Spec.primitives_in_unit_interval, row_values, Spec.unit_interval in *.
    repeat (apply Forall_cons in Hr; destruct Hr as [? Hr]).
    destruct r as [rs rating acs kdr kast wr rf sos tr]; simpl in *.
    split; [nra|]. split; [nra|]. split; [|nra].
    set (blend := rating * 0.4 + acs * 0.2 + kdr * 0.2 + kast * 0.2).
    assert (0 <= blend <= 1) by (unfold blend; lra).
    split.
    + apply Qle_shift_div_l; lra.
    + apply Qle_shift_div_r; lra.
Qed.

(** X9.  The team strength index lies between 0 and 1 whenever the five
    rates of the row and its individual skill do; the player statistics
    themselves need not lie in [0, 1]. *)
Theorem team_strength_index_bounded_by_skill (r : Row) :
  Spec.rates_in_unit_interval r ->
  Spec.unit_interval (individual_skill (composite_row r)) ->
  0 <= team_strength_index (composite_row r) <= 1.
Proof.
  unfold Spec.rates_in_unit_interval, Spec.unit_interval.
  intros (Hrs & Hwr & Hrf & Hsos & Htr) Hskill.
  destruct r as [rs rating acs kdr kast wr rf sos tr]; simpl in *.
  assert (Hti : 0 <= tr * sos <= 1) by nra.
  set (ti := tr * sos) in *.
  set (skill := (rating * 0.4 + acs * 0.2 + kdr * 0.2 + kast * 0.2) / 200) in *.
  lra.
Qed.

End EngineeringMore.

(** ** Confidence and renumbering *)

Section PredictorMore.

Import Predictor.

Lemma calculate_confidence_range (prediction : Q) :
  0.3 <= _calculate_confidence prediction <= 0.9.
Proof.
  unfold _calculate_confidence, py_max, py_min.
  destruct (Qlt_le_dec _ 0.9); destruct (Qlt_le_dec 0.3 _); lra.
Qed.

(** X10.  The confidence of a prediction does not decrease with its
    distance from the middle placement 4.5. *)
Theorem confidence_grows_with_distance (p q : Q) :
  Qabs (p - 4.5) <= Qabs (q - 4.5) ->
  _calculate_confidence p <= _calculate_confidence q.
Proof.
  intros Hdist. unfold _calculate_confidence.
  assert (Hdiv : Qabs (p - 4.5) / 3.5 <= Qabs (q - 4.5) / 3.5).
  { apply Qmult_le_compat_r; [exact Hdist | discriminate]. }
  set (a := Qabs (p - 4.5) / 3.5) in *. set (b := Qabs (q - 4.5) / 3.5) in *.
  unfold py_max, py_min.
  destruct (Qlt_le_dec a 0.9); destruct (Qlt_le_dec b 0.9);
    repeat match goal with |- context [Qlt_le_dec ?x ?y] => destruct (Qlt_le_dec x y) end; lra.
Qed.

Lemma build_results_fields (teams : list Team.t) (features : list TrainingFeatures.t)
    (predictions : vector) : forall (i : nat) (initial : list PredictionResult),
  build_results i teams features predictions = Ok initial ->
  Forall Spec.confident initial /\ map team initial = map Team.name teams.
Proof.
  induction teams as [|t rest IH]; intros i initial Hbuild; simpl in Hbuild.
  - injection Hbuild as <-. split; constructor.
  - destruct (index predictions i) as [p|]; [|discriminate].
    destruct (index features i) as [f|]; [|discriminate]. simpl in Hbuild.
    destruct (build_results (S i) rest features predictions) as [rs|] eqn:Hrest; [|discriminate].
    injection Hbuild as <-. destruct (IH (S i) rs Hrest) as [Hconf Hteams].
    split.
    + constructor; [apply calculate_confidence_range | exact Hconf].
    + simpl. by rewrite Hteams.
Qed.

Lemma imap_set_placement (label : nat -> Z) (results : list PredictionResult) :
  Forall2 Spec.same_but_placement results
    (imap (fun i r => set_placement (label i) r) results).
Proof.
  revert label. induction results as [|r rest IH]; intros label; simpl; constructor.
  - by exists (label 0%nat).
  - apply (IH (fun i => label (S i))).
Qed.

Lemma relabel_fields (results : list PredictionResult) :
  Forall2 Spec.same_but_placement results (_adjust_placements results).
Proof.
  rewrite adjust_placements_relabel.
  apply (imap_set_placement (fun i => (Z.of_nat i + 1)%Z)).
Qed.

Lemma same_but_placement_fields (l l' : list PredictionResult) :
  Forall2 Spec.same_but_placement l l' ->
  map team l' = map team l /\ (Forall Spec.confident l -> Forall Spec.confident l').
Proof.
  induction 1 as [|r r' l l' [q ->] _ [IHt IHc]]; [split; auto|].
  split; [simpl; by rewrite IHt|].
  intros Hl. apply Forall_cons in Hl as [Hr Hl]. constructor; [exact Hr | auto].
Qed.

Context `{Lib}.

Lemma predict_placements_inv (self : PlacementPredictor) (teams : list Team.t) (c c' : Clock)
    (results : list PredictionResult) :
  predict_placements self teams c = (Ok results, c') ->
  exists features predictions initial,
    predicted_scores self teams c = (Ok (features, predictions), c') /\
    build_results 0 teams features predictions = Ok initial /\
    results = _adjust_placements (list_sort predicted_placement initial).
Proof.
  unfold predict_placements, mbind, SR_bind, lift. intros Hrun.
  destruct (predicted_scores self teams c) as [[[features predictions]|e] c1]; [|discriminate].
  destruct (build_results 0 teams features predictions) as [initial|e] eqn:Hbuild; [|discriminate].
  injection Hrun as <- <-. exists features, predictions, initial. auto.
Qed.

(** X11.  Every result of [predict_placements] has a confidence between 0.3
    and 0.9. *)
Theorem predict_placements_confidence (self : PlacementPredictor) (teams : list Team.t)
    (c c' : Clock) (results : list PredictionResult) :
  predict_placements self teams c = (Ok results, c') ->
  Forall Spec.confident results.
Proof.
  intros Hrun. destruct (predict_placements_inv _ _ _ _ _ Hrun)
    as (features & predictions & initial & _ & Hbuild & ->).
  destruct (build_results_fields _ _ _ _ _ Hbuild) as [Hconf _].
  apply (same_but_placement_fields _ _ (relabel_fields _)).
  eapply Permutation_Forall; [symmetry; apply list_sort_Permutation | exact Hconf].
Qed.

(** X12.  The results of [predict_placements] name exactly the teams of the
    batch, each as often as it occurs in it. *)
Theorem predict_placements_keeps_teams (self : PlacementPredictor) (teams : list Team.t)
    (c c' : Clock) (results : list PredictionResult) :
  predict_placements self teams c = (Ok results, c') ->
  Permutation (map team results) (map Team.name teams).
Proof.
  intros Hrun. destruct (predict_placements_inv _ _ _ _ _ Hrun)
    as (features & predictions & initial & _ & Hbuild & ->).
  destruct (build_results_fields _ _ _ _ _ Hbuild) as [_ Hteams].
  rewrite (proj1 (same_but_placement_fields _ _ (relabel_fields _))), <- Hteams.
  apply Permutation_map, list_sort_Permutation.
Qed.

End PredictorMore.

Section AdjustProofs.

Import Predictor.

(** X13.  [_adjust_placements] numbers the results by position.  The
    placements they arrive with, and so the loop that moves a taken
    placement up to the next free one, have no effect on what it leaves
    behind; everything but the placement is kept. *)
Theorem adjust_placements_ignores_placements (results results' : list PredictionResult) :
  Forall2 Spec.same_but_placement results results' ->
  _adjust_placements results' = _adjust_placements results /\
  map predicted_placement (_adjust_placements results) = Spec.one_to (length results) /\
  Forall2 Spec.same_but_placement results (_adjust_placements results).
Proof.
  intros Hsame. split; [| split].
  - rewrite !adjust_placements_relabel.
    eapply imap_Forall2; [exact Hsame|]. intros i x y [q ->]. reflexivity.
  - rewrite adjust_placements_relabel. apply (relabel_placements results 0).
  - apply relabel_fields.
Qed.

End AdjustProofs.

(** ** The heuristic *)

Section FallbackMore.

Import Predictor.

Lemma fold_Qmin_lower (l : list Q) : forall x,
  Forall (fun s => fold_left Qmin l x <= s) (x :: l) /\
  forall b, Forall (fun s => b <= s) (x :: l) -> b <= fold_left Qmin l x.
Proof.
  induction l as [|y l IH]; intros x; simpl.
  - split; [repeat constructor; lra|]. intros b Hb. by apply Forall_cons in Hb as [? _].
  - destruct (IH (Qmin x y)) as [Hall Hglb]. apply Forall_cons in Hall as [Hm Hall].
    pose proof (Q.le_min_l x y). pose proof (Q.le_min_r x y).
    split.
    + constructor; [lra|]. constructor; [lra | exact Hall].
    + intros b Hb. apply Forall_cons in Hb as [Hx Hb]. apply Forall_cons in Hb as [Hy Hb].
      apply Hglb. constructor; [by apply Q.min_glb | exact Hb].
Qed.

Lemma fold_Qmax_upper (l : list Q) : forall x,
  Forall (fun s => s <= fold_left Qmax l x) (x :: l).
Proof.
  induction l as [|y l IH]; intros x; simpl.
  - repeat constructor; lra.
  - specialize (IH (Qmax x y)). apply Forall_cons in IH as [Hm Hall].
    pose proof (Q.le_max_l x y). pose proof (Q.le_max_r x y).
    constructor; [lra|]. constructor; [lra | exact Hall].
Qed.

Lemma mapM_total {A B} (f : A -> Result B) (g : A -> B) (l : list A) :
  (forall x, f x = Ok (g x)) -> mapM f l = Ok (map g l).
Proof.
  intros Hf. induction l as [|x l IH]; simpl; [reflexivity|].
  rewrite Hf. run. rewrite IH. reflexivity.
Qed.

Lemma lookup_map {A B} (f : A -> B) (l : list A) (i : nat) :
  map f l !! i = f <$> l !! i.
Proof. exact (list_lookup_fmap f l i). Qed.

(** The least and the greatest of the scores. *)
Lemma np_min_max_bounds (scores : vector) :
  scores <> [] ->
  exists lo hi,
    np_min scores = Ok lo /\ np_max scores = Ok hi /\
    Forall (fun s => lo <= s <= hi) scores /\
    forall b, Forall (fun s => b <= s) scores -> b <= lo.
Proof.
  destruct scores as [|s rest]; [contradiction | intros _]. unfold np_min, np_max.
  destruct (fold_Qmin_lower rest s) as [Hlo Hglb]. pose proof (fold_Qmax_upper rest s) as Hhi.
  eexists _, _. split; [reflexivity|]. split; [reflexivity|]. split; [|exact Hglb].
  rewrite Forall_forall in Hlo, Hhi. apply Forall_forall. intros x Hx.
  split; [by apply Hlo | by apply Hhi].
Qed.

Section Rounded.

Variable fl : Q -> Q.

Hypothesis fl_rounding : Spec.float_rounding fl.

Lemma fl_monotone (x y : Q) : x <= y -> fl x <= fl y.
Proof. destruct fl_rounding as [Hmono _]. apply Hmono. Qed.

Lemma fl_proper (x y : Q) : x == y -> fl x == fl y.
Proof.
  intros Hxy. apply Qle_antisym; apply fl_monotone; rewrite Hxy; apply Qle_refl.
Qed.

Lemma fl_integer (k : Z) (x : Q) : (0 <= k <= 8)%Z -> x == inject_Z k -> fl x == inject_Z k.
Proof.
  intros Hk Hx. destruct fl_rounding as (_ & _ & Hexact & _).
  rewrite (fl_proper _ _ Hx). by apply Hexact.
Qed.

(** The divisor [max - min + 1e-8] as computed: positive, and at least the
    rounded numerator of every score. *)
Lemma fl_divisor (lo hi s : Q) :
  lo <= s <= hi ->
  0 <= fl (s - lo) <= fl (fl (hi - lo) + fl 1e-8) /\ 0 < fl (fl (hi - lo) + fl 1e-8).
Proof.
  intros Hs. destruct fl_rounding as (_ & Hidem & _ & Heps).
  assert (H0 : fl 0 == 0) by (apply (fl_integer 0); [lia | reflexivity]).
  assert (Ha : fl 0 <= fl (s - lo)) by (apply fl_monotone; lra).
  assert (Had : fl (s - lo) <= fl (hi - lo)) by (apply fl_monotone; lra).
  assert (Hd0 : fl (fl (hi - lo)) <= fl (fl (hi - lo) + fl 1e-8)) by (apply fl_monotone; lra).
  assert (Hde : fl (fl 1e-8) <= fl (fl (hi - lo) + fl 1e-8)) by (apply fl_monotone; lra).
  pose proof (Hidem (hi - lo)) as Hi1. pose proof (Hidem 1e-8) as Hi2.
  split; [split|]; lra.
Qed.

(** The placement the code computes from a rounded ratio. *)
Lemma fl_placement_range (n : Q) :
  0 <= n <= 1 -> 1 <= fl (1 + fl (fl (1 - fl n) * 7)) <= 8.
Proof.
  intros Hn.
  assert (H0 : fl 0 == 0) by (apply (fl_integer 0); [lia | reflexivity]).
  assert (H1 : fl 1 == 1) by (apply (fl_integer 1); [lia | reflexivity]).
  assert (H7 : fl 7 == 7) by (apply (fl_integer 7); [lia | reflexivity]).
  assert (H8 : fl 8 == 8) by (apply (fl_integer 8); [lia | reflexivity]).
  assert (Hn' : fl 0 <= fl n <= fl 1) by (split; apply fl_monotone; lra).
  assert (Hm : fl 0 <= fl (1 - fl n) <= fl 1) by (split; apply fl_monotone; lra).
  assert (Hq : fl 0 <= fl (fl (1 - fl n) * 7) <= fl 7) by (split; apply fl_monotone; lra).
  assert (Hp : fl 1 <= fl (1 + fl (fl (1 - fl n) * 7)) <= fl 8)
    by (split; apply fl_monotone; lra).
  lra.
Qed.

Lemma fl_placement_antitone (n n' : Q) :
  n <= n' -> fl (1 + fl (fl (1 - fl n') * 7)) <= fl (1 + fl (fl (1 - fl n) * 7)).
Proof.
  intros Hn. pose proof (fl_monotone _ _ Hn) as H1.
  assert (H2 : fl (1 - fl n') <= fl (1 - fl n)) by (apply fl_monotone; lra).
  assert (H3 : fl (fl (1 - fl n') * 7) <= fl (fl (1 - fl n) * 7)) by (apply fl_monotone; lra).
  apply fl_monotone. lra.
Qed.

Lemma fl_placement_least (n : Q) : n == 0 -> fl (1 + fl (fl (1 - fl n) * 7)) == 8.
Proof.
  intros Hn.
  assert (H0 : fl n == 0) by (apply (fl_integer 0); [lia | exact Hn]).
  assert (H1 : fl (1 - fl n) == 1) by (apply (fl_integer 1); [lia | rewrite H0; reflexivity]).
  assert (H7 : fl (fl (1 - fl n) * 7) == 7)
    by (apply (fl_integer 7); [lia | rewrite H1; reflexivity]).
  apply (fl_integer 8); [lia | rewrite H7; reflexivity].
Qed.

(** What the heuristic computes from non-empty scores. *)
Lemma fallback_prediction_rounded_value (scores : vector) :
  scores <> [] ->
  exists lo hi,
    Forall (fun s => lo <= s <= hi) scores /\
    (forall b, Forall (fun s => b <= s) scores -> b <= lo) /\
    0 < fl (fl (hi - lo) + fl 1e-8) /\
    _fallback_prediction_rounded fl scores =
      Ok (map (fun s => fl (1 + fl (fl (1 - fl (fl (s - lo) / fl (fl (hi - lo) + fl 1e-8))) * 7)))
            scores).
Proof.
  intros Hne. destruct (np_min_max_bounds scores Hne) as (lo & hi & Hlo & Hhi & Hrange & Hglb).
  exists lo, hi. split; [exact Hrange|]. split; [exact Hglb|].
  assert (Hpos : 0 < fl (fl (hi - lo) + fl 1e-8)).
  { destruct scores as [|s rest]; [contradiction|]. apply Forall_cons in Hrange as [Hs _].
    by destruct (fl_divisor lo hi s Hs). }
  split; [exact Hpos|].
  unfold _fallback_prediction_rounded. rewrite Hlo, Hhi. run.
  rewrite (mapM_total _ (fun s => fl (s - lo) / fl (fl (hi - lo) + fl 1e-8))).
  2: { intros x. apply np_true_divide_ok. lra. }
  run. by rewrite map_map.
Qed.

(** X14.  In floating point, for every rounding that is monotone, exact on
    the integers up to 8 and keeps [1e-8] positive, the heuristic turns
    non-empty scores of at most 1e300 in absolute value into one placement
    per score, between 1 and 8; a least score gets exactly 8, and a higher
    score never gets a larger placement.  The placement 1 is reached when
    the spread of the scores absorbs the [1e-8] of the divisor. *)
Theorem fallback_prediction_range (scores : vector) :
  scores <> [] -> Spec.moderate scores ->
  exists placements,
    _fallback_prediction_rounded fl scores = Ok placements /\
    length placements = length scores /\
    Forall (fun p => 1 <= p <= 8) placements /\
    (forall i s, scores !! i = Some s ->
       Forall (fun s' => s <= s') scores ->
       exists p, placements !! i = Some p /\ p == 8) /\
    (forall i j si sj, scores !! i = Some si -> scores !! j = Some sj ->
       si <= sj ->
       exists pi pj, placements !! i = Some pi /\ placements !! j = Some pj /\ pj <= pi).
Proof.
  intros Hne _.
  destruct (fallback_prediction_rounded_value scores Hne) as (lo & hi & Hrange & Hglb & Hpos & ->).
  set (d := fl (fl (hi - lo) + fl 1e-8)) in *.
  eexists. split; [reflexivity|]. split; [by rewrite length_map|].
  rewrite Forall_forall in Hrange. split; [| split].
  - apply Forall_map, Forall_forall. intros s Hs. apply fl_placement_range.
    destruct (fl_divisor lo hi s (Hrange s Hs)) as [[Ha Had] _]. fold d in Had. split.
    + apply Qle_shift_div_l; [exact Hpos | lra].
    + apply Qle_shift_div_r; [exact Hpos | lra].
  - intros i s Hi Hleast. eexists. split.
    + unfold vector in *. rewrite lookup_map, Hi. reflexivity.
    + apply fl_placement_least.
      assert (Hs : lo <= s <= hi) by (apply Hrange; eapply list_elem_of_lookup_2; eauto).
      pose proof (Hglb _ Hleast) as Hlo.
      assert (E : fl (s - lo) == 0).
      { apply (fl_integer 0); [lia|]. change (inject_Z 0) with 0. lra. }
      rewrite E. unfold Qdiv. apply Qmult_0_l.
  - intros i j si sj Hi Hj Hle. eexists _, _. unfold vector in *.
    rewrite !lookup_map, Hi, Hj. split; [reflexivity|]. split; [reflexivity|].
    apply fl_placement_antitone. unfold Qdiv. apply Qmult_le_compat_r.
    + apply fl_monotone. lra.
    + apply Qinv_le_0_compat. lra.
Qed.

End Rounded.

(** Without rounding the rounded heuristic is the heuristic. *)
Lemma fallback_prediction_rounded_exact (df : Engineering.DataFrame) :
  _fallback_prediction_rounded (fun x => x) (map fallback_score df) = _fallback_prediction df.
Proof. reflexivity. Qed.

Lemma exact_float_rounding : Spec.float_rounding (fun x => x).
Proof.
  split; [auto|]. split; [reflexivity|]. split; [reflexivity|]. reflexivity.
Defined.

End FallbackMore.

(** ** Exceptions of the estimator *)

Section PredictorErrors.

Import Predictor.

Context `{Lib}.



End PredictorErrors.

(** ** Insertion-ordered dicts; retraining, tuning, persistence *)

Section DictProofs.

Context {K V : Type} `{EqDecision K}.

Lemma dict_set_keys (k : K) (v : V) (d : list (K * V)) :
  k ∈ map fst d -> map fst (dict_set k v d) = map fst d.
Proof.
  induction d as [|[k' v'] d IH]; simpl; intros Hin.
  - by apply elem_of_nil in Hin.
  - destruct (decide (k = k')) as [->|Hne]; simpl; [reflexivity|].
    f_equal. apply IH. apply elem_of_cons in Hin as [?|?]; [contradiction | assumption].
Qed.

Lemma dict_set_Forall (P : K * V -> Prop) (k : K) (v : V) (d : list (K * V)) :
  Forall P d -> P (k, v) -> Forall P (dict_set k v d).
Proof.
  intros Hd Hkv. induction Hd as [|[k' v'] d Hx Hd IH]; simpl.
  - by constructor.
  - destruct (decide (k = k')); constructor; assumption.
Qed.

Lemma dict_get_set_eq (k : K) (v : V) (d : list (K * V)) :
  dict_get k (dict_set k v d) = Ok v.
Proof.
  induction d as [|[k' v'] d IH]; simpl.
  - by rewrite decide_True.
  - destruct (decide (k = k')) as [->|Hne]; simpl.
    + by rewrite decide_True.
    + by rewrite decide_False.
Qed.

Lemma dict_get_set_ne (k k' : K) (v : V) (d : list (K * V)) :
  k <> k' -> dict_get k' (dict_set k v d) = dict_get k' d.
Proof.
  intros Hne. induction d as [|[k0 v0] d IH]; simpl.
  - by rewrite decide_False by congruence.
  - destruct (decide (k = k0)) as [->|Hne0]; simpl.
    + by rewrite !decide_False by congruence.
    + destruct (decide (k' = k0)); [reflexivity | exact IH].
Qed.

End DictProofs.

Section TrainerMore.

Import Trainer.

Context `{Lib}.

Lemma train_loop_best (items : list (model_name * Estimator)) (X : matrix) (y : vector) :
  forall results self,
  best (train_loop items X y results self).2 = best self /\
  best_model_name (train_loop items X y results self).2 = best_model_name self.
Proof.
  induction items as [|[name model] rest IH]; intros results self; simpl; [by split|].
  unfold mbind, SR_bind, lift.
  destruct (cross_val_score _ X y _) as [scores|e]; [|by split].
  destruct (np_mean _) as [mean|e]; [|by split].
  destruct (fit _ X y) as [f|e]; [|by split].
  simpl. destruct (IH (dict_set name {| cv_mae_mean := - mean; cv_scores := scores;
                     model := {| family := family model; fitted := Some f |} |} results)
                     (set_model name {| family := family model; fitted := Some f |} self)) as [-> ->].
  by split.
Qed.

(** The loop leaves under a name the estimator that was there, or the
    estimator of the loop under that name, fitted on the data. *)
Lemma train_loop_models (items : list (model_name * Estimator)) (X : matrix) (y : vector)
    (name : model_name) :
  forall results self,
  dict_get name (models (train_loop items X y results self).2) = dict_get name (models self) \/
  exists old f,
    (name, old) ∈ items /\ fit (family old) X y = Ok f /\
    dict_get name (models (train_loop items X y results self).2)
      = Ok {| family := family old; fitted := Some f |}.
Proof.
  induction items as [|[key model] rest IH]; intros results self; simpl; [by left|].
  unfold mbind, SR_bind, lift.
  destruct (cross_val_score _ X y _) as [scores|e]; [|by left].
  destruct (np_mean _) as [mean|e]; [|by left].
  destruct (fit _ X y) as [f|e] eqn:Hfit; [|by left].
  simpl.
  destruct (IH (dict_set key {| cv_mae_mean := - mean; cv_scores := scores;
                     model := {| family := family model; fitted := Some f |} |} results)
               (set_model key {| family := family model; fitted := Some f |} self))
    as [Hsame | (old & g & Hin & Hg & Hget)].
  - rewrite Hsame. cbn [models set_model]. destruct (decide (key = name)) as [->|Hne].
    + right. exists model, f. split; [by left|]. split; [exact Hfit|]. apply dict_get_set_eq.
    + left. by apply dict_get_set_ne.
  - right. exists old, g. split; [by right|]. by split.
Qed.

(** X16.  A training that returns None leaves the trainer unable to
    predict, even if it was trained before: [is_trained] is false and
    [predict] raises NotFittedError.  The attribute [best_model] and the
    selected name still refer to what they did; as [best_model] is the
    candidate object itself, it reads as before or, when the failed training
    had fitted that candidate again, as the candidate fitted on the new
    data. *)
Theorem failed_training_disables_predict (X : matrix) (y : vector) (self self' : ModelTrainer) :
  train_models X y self = (Ok None, self') ->
  is_trained self' = false /\
  best self' = best self /\
  best_model_name self' = best_model_name self /\
  (forall X', predict self' X' = Raise NotFittedError) /\
  ((len X < 3)%Z -> models self' = models self) /\
  (best_model self' = best_model self \/
   exists name old f,
     best self = Some (candidate name) /\ (name, old) ∈ models self /\
     fit (family old) X y = Ok f /\
     best_model self' = Some {| family := family old; fitted := Some f |}).
Proof.
  unfold train_models. intros Hrun.
  assert (Hgoal : is_trained self' = false /\ best self' = best self /\
                  best_model_name self' = best_model_name self /\
                  ((len X < 3)%Z -> models self' = models self) /\
                  forall name,
                    dict_get name (models self') = dict_get name (models self) \/
                    exists old f,
                      (name, old) ∈ models self /\ fit (family old) X y = Ok f /\
                      dict_get name (models self') = Ok {| family := family old; fitted := Some f |}).
  { destruct (Z.ltb_spec (len X) 3) as [Hlt|Hge].
    - injection Hrun as <-. repeat split. intros name. by left.
    - unfold try_except_in, mbind at 1, SR_bind at 1, gets in Hrun.
      unfold mbind at 1, SR_bind at 1 in Hrun.
      pose proof (train_loop_best (models self) X y [] self) as [Hbest Hname].
      pose proof (fun name => train_loop_models (models self) X y name [] self) as Hmodels.
      destruct (train_loop (models self) X y [] self) as [[results|e] s];
        simpl in Hbest, Hname, Hmodels.
      + unfold mbind, SR_bind, lift, modify in Hrun.
        destruct (py_min_by _ results); simpl in Hrun; [discriminate|].
        injection Hrun as <-. repeat split; try assumption. lia.
      + simpl in Hrun. injection Hrun as <-. repeat split; try assumption. lia. }
  destruct Hgoal as (Htrained & Hbest & Hname & Hfew & Hmodels).
  split; [exact Htrained|]. split; [exact Hbest|]. split; [exact Hname|]. split.
  { intros X'. unfold predict. rewrite Htrained. by destruct (best_model self'). }
  split; [exact Hfew|].
  unfold best_model. rewrite Hbest.
  destruct (best self) as [[name|est]|]; [| by left | by left].
  unfold dict_lookup.
  destruct (Hmodels name) as [-> | (old & f & Hin & Hfit & ->)]; [by left|].
  right. exists name, old, f. by repeat split.
Qed.

(** X17.  After a training that succeeds, [predict] answers with the selected
    candidate as fitted on the training data, and the three estimators
    held in [models] are the fitted ones. *)
Theorem train_models_then_predict (X : matrix) (y : vector) (self : ModelTrainer) :
  Spec.three_candidates self -> Spec.candidates_succeed X y -> (3 <= len X)%Z ->
  exists results self' best f,
    train_models X y self = (Ok (Some results), self') /\
    best_model_name self' = Some best /\
    fit best X y = Ok f /\
    (forall X', predict self' X' = f X') /\
    forall name, exists g, fit name X y = Ok g /\
      dict_get name (models self') = Ok {| family := name; fitted := Some g |}.
Proof.
  intros [Hkeys Hfam] Hok Hrows. unfold train_models.
  destruct (Z.ltb_spec (len X) 3) as [|_]; [lia|].
  destruct (models self) as [|[n1 m1] [|[n2 m2] [|[n3 m3] [|]]]] eqn:Hmodels; try discriminate.
  injection Hkeys as -> -> ->.
  apply Forall_cons in Hfam as [Hfam1 Hfam]. apply Forall_cons in Hfam as [Hfam2 Hfam].
  apply Forall_cons in Hfam as [Hfam3 _]. simpl in Hfam1, Hfam2, Hfam3.
  destruct (Hok random_forest) as (s1 & f1 & Hcv1 & Hne1 & Hfit1).
  destruct (Hok gradient_boosting) as (s2 & f2 & Hcv2 & Hne2 & Hfit2).
  destruct (Hok ridge) as (s3 & f3 & Hcv3 & Hne3 & Hfit3).
  destruct (np_mean_ok s1 Hne1) as [mean1 Hmean1].
  destruct (np_mean_ok s2 Hne2) as [mean2 Hmean2].
  destruct (np_mean_ok s3 Hne3) as [mean3 Hmean3].
  unfold try_except_in, mbind at 1, SR_bind at 1, gets. rewrite Hmodels.
  unfold mbind at 1, SR_bind at 1.
  rewrite (train_loop_step _ _ _ _ _ _ _ s1 mean1 f1) by congruence.
  rewrite (train_loop_step _ _ _ _ _ _ _ s2 mean2 f2) by congruence.
  rewrite (train_loop_step _ _ _ _ _ _ _ s3 mean3 f3) by congruence.
  cbn [train_loop mret SR_ret dict_set].
  repeat (destruct (decide _) as [|_]; [discriminate|]).
  match goal with |- context [py_min_by ?key ?l] =>
    destruct (py_min_by_spec key l) as ([best entry] & earlier & later & Hmin & Hsplit & _ & _);
      [discriminate|]
  end.
  unfold mbind, SR_bind, lift, modify. rewrite Hmin. simpl.
  assert (Hin : In (best, entry) (earlier ++ (best, entry) :: later)).
  { apply in_or_app. right. by left. }
  rewrite <- Hsplit in Hin. clear Hsplit Hmin. cbn in Hin.
  assert (Hmodels' : forall name, exists g, fit name X y = Ok g /\
    dict_get name (dict_set ridge {| family := family m3; fitted := Some f3 |}
       (dict_set gradient_boosting {| family := family m2; fitted := Some f2 |}
          (dict_set random_forest {| family := family m1; fitted := Some f1 |} (models self)))) =
    Ok {| family := name; fitted := Some g |}).
  { intros name. rewrite Hmodels, Hfam1, Hfam2, Hfam3. destruct name; eexists; split; eauto. }
  destruct Hin as [Heq | [Heq | [Heq | []]]]; injection Heq as <- <-.
  - eexists _, _, random_forest, f1. split; [reflexivity|]. split; [reflexivity|].
    split; [congruence|]. split; [|exact Hmodels'].
    intros X'. unfold predict, best_model.
    cbn [Trainer.best models set_is_trained set_best set_model is_trained].
    rewrite Hmodels. reflexivity.
  - eexists _, _, gradient_boosting, f2. split; [reflexivity|]. split; [reflexivity|].
    split; [congruence|]. split; [|exact Hmodels'].
    intros X'. unfold predict, best_model.
    cbn [Trainer.best models set_is_trained set_best set_model is_trained].
    rewrite Hmodels. reflexivity.
  - eexists _, _, ridge, f3. split; [reflexivity|]. split; [reflexivity|].
    split; [congruence|]. split; [|exact Hmodels'].
    intros X'. unfold predict, best_model.
    cbn [Trainer.best models set_is_trained set_best set_model is_trained].
    rewrite Hmodels. reflexivity.
Qed.

Lemma train_loop_keeps_candidates (keys : list model_name) (X : matrix) (y : vector)
    (items : list (model_name * Estimator)) :
  forall results self,
  Forall (fun item => item.1 ∈ keys /\ family item.2 = item.1) items ->
  map fst (models self) = keys ->
  Forall (fun item => family item.2 = item.1) (models self) ->
  map fst (models (train_loop items X y results self).2) = keys /\
  Forall (fun item => family item.2 = item.1) (models (train_loop items X y results self).2).
Proof.
  induction items as [|[name model] rest IH]; intros results self Hitems Hkeys Hfam; simpl;
    [by split|].
  apply Forall_cons in Hitems as [[Hname Hmodel] Hrest]. simpl in Hname, Hmodel.
  unfold mbind, SR_bind, lift.
  destruct (cross_val_score _ X y _); [|by split].
  destruct (np_mean _); [|by split].
  destruct (fit _ X y); [|by split].
  simpl. apply IH; [exact Hrest | |]; simpl.
  - rewrite dict_set_keys; [exact Hkeys|]. by rewrite Hkeys.
  - apply dict_set_Forall; [exact Hfam | exact Hmodel].
Qed.

(** X18.  Whatever its outcome, [train_models] leaves the trainer with the same
    three candidates under the same names: fitting changes the estimators, not
    the keys of [models]. *)
Theorem train_models_keeps_candidates (X : matrix) (y : vector) (self : ModelTrainer) :
  Spec.three_candidates self -> Spec.three_candidates (train_models X y self).2.
Proof.
  intros [Hkeys Hfam]. unfold Spec.three_candidates.
  remember (train_models X y self).2 as final eqn:Hfinal. unfold train_models in Hfinal.
  destruct (len X <? 3)%Z; [subst final; by split|].
  unfold try_except_in, mbind, SR_bind, gets, lift, modify in Hfinal.
  destruct (train_loop_keeps_candidates [random_forest; gradient_boosting; ridge] X y
              (models self) [] self) as [Hkeys' Hfam']; [|exact Hkeys|exact Hfam|].
  { rewrite Forall_forall in Hfam. apply Forall_forall. intros item Hitem. split.
    - rewrite <- Hkeys. apply list_elem_of_fmap. by exists item.
    - by apply Hfam. }
  destruct (train_loop (models self) X y [] self) as [[results|e] s]; simpl in Hkeys', Hfam'.
  - destruct (py_min_by _ results); subst final; simpl; split; assumption.
  - subst final. simpl. split; assumption.
Qed.

End TrainerMore.

Section TuningProofs.

Import Trainer.

Context `{Search}.

(** X19.  [hyperparameter_tuning] never raises and changes nothing but
    [best_model]: the candidates, the selected name and [is_trained] stay.
    It changes nothing at all when the trainer is not trained, with fewer
    than five rows, or when no name is selected. *)
Theorem hyperparameter_tuning_safe (X : matrix) (y : vector) (self : ModelTrainer) :
  exists self',
    hyperparameter_tuning X y self = (Ok tt, self') /\
    models self' = models self /\
    best_model_name self' = best_model_name self /\
    is_trained self' = is_trained self /\
    (is_trained self = false \/ (len X < 5)%Z \/ best_model_name self = None -> self' = self).
Proof.
  unfold hyperparameter_tuning, mbind at 1, SR_bind at 1, gets.
  destruct (is_trained self) eqn:Htrained; simpl.
  2: { exists self. repeat split; auto. }
  destruct (Z.ltb_spec (len X) 5) as [Hlt|Hge].
  { exists self. repeat split; auto. }
  unfold mbind at 1, SR_bind at 1, try_except_in, mbind at 1, SR_bind at 1.
  unfold mbind at 1, SR_bind at 1, lift.
  destruct (named_model (best_model_name self) (models self)) as [estimator|e] eqn:Hnamed.
  - unfold mbind, SR_bind.
    destruct (grid_search estimator _ X y _) as [tuned|e]; simpl.
    + eexists. split; [reflexivity|]. repeat split; auto.
      intros [Hno | [Hno | Hno]]; [discriminate | lia |].
      rewrite Hno in Hnamed. discriminate.
    + exists self. repeat split; auto.
  - exists self. repeat split; auto.
Qed.

(** X20.  On a trained trainer with at least five rows, tuning searches the grid
    of the selected candidate with three folds, on the estimator held under
    its name.  When the search returns, [predict] answers with the estimator
    it found; when it raises, the trainer is left as it was. *)
Theorem hyperparameter_tuning_replaces (X : matrix) (y : vector) (self : ModelTrainer)
    (name : model_name) :
  Spec.three_candidates self ->
  is_trained self = true -> (5 <= len X)%Z -> best_model_name self = Some name ->
  exists estimator,
    dict_get name (models self) = Ok estimator /\ family estimator = name /\
    match grid_search estimator (param_grid_for (Some name)) X y 3 with
    | Ok tuned =>
        hyperparameter_tuning X y self = (Ok tt, set_best_model tuned self) /\
        forall X', predict (hyperparameter_tuning X y self).2 X' = estimator_predict tuned X'
    | Raise _ => hyperparameter_tuning X y self = (Ok tt, self)
    end.
Proof.
  intros [Hkeys Hfam] Htrained Hrows Hname.
  destruct (models self) as [|[n1 m1] [|[n2 m2] [|[n3 m3] [|]]]] eqn:Hmodels; try discriminate.
  injection Hkeys as -> -> ->.
  apply Forall_cons in Hfam as [Hfam1 Hfam]. apply Forall_cons in Hfam as [Hfam2 Hfam].
  apply Forall_cons in Hfam as [Hfam3 _]. simpl in Hfam1, Hfam2, Hfam3.
  assert (Hget : exists estimator, dict_get name (models self) = Ok estimator /\
                                   family estimator = name).
  { rewrite Hmodels. destruct name; eexists; split; eauto. }
  destruct Hget as (estimator & Hget & Hfamily). rewrite <- Hmodels.
  exists estimator. split; [exact Hget|]. split; [exact Hfamily|].
  assert (Hrun : hyperparameter_tuning X y self =
    match grid_search estimator (param_grid_for (Some name)) X y 3 with
    | Ok tuned => (Ok tt, set_best_model tuned self)
    | Raise _ => (Ok tt, self)
    end).
  { unfold hyperparameter_tuning, mbind at 1, SR_bind at 1, gets.
    rewrite Htrained. destruct (Z.ltb_spec (len X) 5) as [|_]; [lia|]. simpl.
    unfold mbind at 1, SR_bind at 1, try_except_in, mbind at 1, SR_bind at 1.
    unfold mbind at 1, SR_bind at 1, lift.
    rewrite Hname. simpl. rewrite Hget. unfold mbind, SR_bind.
    replace (Z.min 3 (len X)) with 3%Z by lia.
    by destruct (grid_search estimator _ X y 3). }
  rewrite Hrun. destruct (grid_search estimator _ X y 3) as [tuned|e]; [|reflexivity].
  split; [reflexivity|]. intros X'. unfold predict. simpl. by rewrite Htrained.
Qed.

End TuningProofs.

Section PersistenceProofs.

Import Trainer.

(** X21.  A trained model written by [save_model] and read back by [load_model],
    into any trainer, predicts as the trainer that wrote it did; the name
    and [is_trained] come back with it, the candidates of the reading trainer
    stay, and no other path is written. *)
Theorem save_load_round_trip (filepath : string) (self other : ModelTrainer) (fs : FileSystem)
    (best : Estimator) :
  is_trained self = true -> best_model self = Some best ->
  let loaded := load_model filepath (save_model filepath self fs) other in
  best_model loaded = Some best /\
  best_model_name loaded = best_model_name self /\
  is_trained loaded = true /\
  models loaded = models other /\
  (forall X, predict loaded X = predict self X) /\
  forall path, path <> filepath -> save_model filepath self fs !! path = fs !! path.
Proof.
  intros Htrained Hbest loaded. subst loaded. unfold load_model, save_model, FileSystem in *.
  rewrite Hbest, Htrained, lookup_insert_eq. simpl. repeat split.
  - intros X. unfold predict. simpl. by rewrite Hbest, Htrained.
  - intros path Hpath. by rewrite lookup_insert_ne.
Qed.

End PersistenceProofs.

(** ** Means, and the validation report *)

Section MeansProofs.

Import Validator.

Lemma fold_Qplus_mono {A B} (f g : A -> B -> Q) (a : list A) : forall (b : list B) (acc acc' : Q),
  (forall x y, f x y <= g x y) -> acc <= acc' ->
  fold_left Qplus (zip_with f a b) acc <= fold_left Qplus (zip_with g a b) acc'.
Proof.
  induction a as [|x a IH]; intros [|y b] acc acc' Hfg Hacc; simpl; try assumption.
  apply IH; [assumption|]. specialize (Hfg x y). lra.
Qed.

Lemma map_zip_with {A B C D} (h : C -> D) (f : A -> B -> C) (a : list A) : forall b : list B,
  map h (zip_with f a b) = zip_with (fun x y => h (f x y)) a b.
Proof.
  induction a as [|x a IH]; intros [|y b]; simpl; try reflexivity. by rewrite IH.
Qed.

Lemma np_mean_zip_with {A B} (f : A -> B -> Q) (a : list A) (b : list B) :
  length a = length b -> a <> [] ->
  np_mean (zip_with f a b) = Ok (py_sum (zip_with f a b) / inject_Z (len a)) /\ 0 < inject_Z (len a).
Proof.
  intros Hlen Hne.
  assert (Hpos : (0 < len a)%Z) by (destruct a; [contradiction | apply len_cons]).
  assert (E : len (zip_with f a b) = len a).
  { unfold len. rewrite length_zip_with. lia. }
  unfold np_mean. rewrite E. split; [|by apply inject_Z_pos].
  apply np_true_divide_ok, inject_Z_nonzero. lia.
Qed.

(** The means of two arrays computed elementwise from the same operands are
    ordered as the elements are. *)
Lemma mean_zip_mono {A B} (f g : A -> B -> Q) (a : list A) (b : list B) :
  length a = length b -> a <> [] -> (forall x y, f x y <= g x y) ->
  exists m n, np_mean (zip_with f a b) = Ok m /\ np_mean (zip_with g a b) = Ok n /\ m <= n.
Proof.
  intros Hlen Hne Hfg.
  destruct (np_mean_zip_with f a b Hlen Hne) as [Hf Hpos].
  destruct (np_mean_zip_with g a b Hlen Hne) as [Hg _].
  eexists _, _. split; [exact Hf|]. split; [exact Hg|].
  unfold Qdiv. apply Qmult_le_compat_r.
  - apply fold_Qplus_mono; [exact Hfg | lra].
  - apply Qinv_le_0_compat. lra.
Qed.

Lemma mean_zip_bounds {A B} (f : A -> B -> Q) (lo hi : Q) (a : list A) (b : list B) :
  length a = length b -> a <> [] -> (forall x y, lo <= f x y <= hi) ->
  exists m, np_mean (zip_with f a b) = Ok m /\ lo <= m <= hi.
Proof.
  intros Hlen Hne Hf.
  destruct (np_mean_zip_with f a b Hlen Hne) as [Hm Hpos].
  eexists. split; [exact Hm|].
  pose proof (fold_Qplus_mono (fun _ _ => lo) f a b 0 0) as Hlo.
  pose proof (fold_Qplus_mono f (fun _ _ => hi) a b 0 0) as Hhi.
  assert (Hconst : forall c : Q, fold_left Qplus (zip_with (fun (_ : A) (_ : B) => c) a b) 0
                                 == inject_Z (len a) * c).
  { intros c. pose proof (fold_Qplus_bounds (fun _ : A * B => c) c c (zip a b) 0) as Hc.
    rewrite zip_with_zip. unfold len in *. rewrite length_zip in Hc.
    replace (length a `min` length b)%nat with (length a) in Hc by lia.
    assert (Hmap : (uncurry (fun (_ : A) (_ : B) => c) <$> zip a b) = map (fun _ => c) (zip a b)).
    { apply map_ext. by intros []. }
    rewrite Hmap.
    assert (Hall : Forall (fun _ : A * B => c <= c <= c) (zip a b))
      by (apply Forall_forall; intros; lra).
    specialize (Hc Hall). lra. }
  rewrite Hconst in Hlo, Hhi. unfold py_sum. split.
  - apply Qle_shift_div_l; [exact Hpos|].
    specialize (Hlo (fun x y => proj1 (Hf x y)) (Qle_refl 0)). lra.
  - apply Qle_shift_div_r; [exact Hpos|].
    specialize (Hhi (fun x y => proj2 (Hf x y)) (Qle_refl 0)). lra.
Qed.

Lemma Z_abs_le_square (d : Z) : (Z.abs d <= d * d)%Z.
Proof.
  assert (Hcases : (d <= -1 \/ d = 0 \/ 1 <= d)%Z) by lia.
  destruct Hcases as [Hd | [-> | Hd]]; [| reflexivity |].
  - rewrite Z.abs_neq by lia. nia.
  - rewrite Z.abs_eq by lia. nia.
Qed.

Lemma as_float_mono (b c : bool) : (b = true -> c = true) -> as_float b <= as_float c.
Proof.
  destruct b, c; intros Himp; try (specialize (Himp eq_refl); discriminate); simpl; lra.
Qed.

Lemma as_float_bounds (b : bool) : 0 <= as_float b <= 1.
Proof. destruct b; simpl; lra. Qed.

End MeansProofs.

Section ValidatorMore.

Import Validator.

(** What the first loop of [validate_predictions] collects. *)
Lemma matching_matched (predictions : list Predictor.PredictionResult)
    (actual_placements : gmap string Z) :
  exists valid_actuals,
    matching predictions actual_placements =
      (map Predictor.predicted_placement (Spec.matched predictions actual_placements),
       valid_actuals,
       map Predictor.team (Spec.matched predictions actual_placements)) /\
    Forall2 (fun prediction placement =>
               actual_placements !! Predictor.team prediction = Some placement)
      (Spec.matched predictions actual_placements) valid_actuals.
Proof.
  unfold Spec.matched. induction predictions as [|p rest IH]; simpl.
  - exists []. split; [reflexivity | constructor].
  - destruct IH as (va & -> & Hva).
    destruct (actual_placements !! Predictor.team p) as [placement|] eqn:Hp.
    + rewrite filter_cons_True by (rewrite Hp; eauto).
      exists (placement :: va). split; [reflexivity|]. by constructor.
    + rewrite filter_cons_False by (rewrite Hp; apply is_Some_None).
      exists va. split; [reflexivity | exact Hva].
Qed.

(** Without wrap-around an [int64] operation is the operation on integers. *)
Lemma int64_small (z : Z) : (- 2 ^ 63 <= z < 2 ^ 63)%Z -> int64 z = z.
Proof. intros Hz. unfold int64. rewrite Z.mod_small; lia. Qed.

Lemma np_abs_subtract_small (a b : Z) :
  (Z.abs (a - b) < 2 ^ 63)%Z -> np_abs (np_subtract a b) = Z.abs (a - b).
Proof.
  intros Hsmall. unfold np_abs, np_subtract.
  rewrite (int64_small (a - b)) by lia. apply int64_small. lia.
Qed.

Lemma np_square_small (a b : Z) :
  (Z.abs (a - b) <= 2 ^ 31)%Z ->
  np_multiply (np_subtract a b) (np_subtract a b) = ((a - b) * (a - b))%Z.
Proof.
  intros Hsmall. unfold np_multiply, np_subtract.
  rewrite (int64_small (a - b)) by lia. apply int64_small. nia.
Qed.

Lemma np_abs_subtract_same (a : Z) : np_abs (np_subtract a a) = 0%Z.
Proof. unfold np_abs, np_subtract. rewrite Z.sub_diag. reflexivity. Qed.

Lemma zip_with_ext_on {A B C} (R : A -> B -> Prop) (f g : A -> B -> C) (a : list A) (b : list B) :
  Forall2 R a b -> (forall x y, R x y -> f x y = g x y) -> zip_with f a b = zip_with g a b.
Proof.
  intros Hab Hfg. induction Hab as [|x y a b Hxy Hab IH]; simpl; [reflexivity|].
  by rewrite (Hfg x y Hxy), IH.
Qed.

Lemma Forall2_both {A B} (P : A -> Prop) (Q : B -> Prop) (a : list A) : forall b : list B,
  length a = length b -> Forall P a -> Forall Q b -> Forall2 (fun x y => P x /\ Q y) a b.
Proof.
  induction a as [|x a IH]; intros [|y b] Hlen Ha Hb; try discriminate; constructor.
  - apply Forall_cons in Ha as [Hx _]. apply Forall_cons in Hb as [Hy _]. by split.
  - apply Forall_cons in Ha as [_ Ha]. apply Forall_cons in Hb as [_ Hb].
    apply IH; [simpl in Hlen; lia | exact Ha | exact Hb].
Qed.

(** The placements the validator compares are among those it is given. *)
Lemma matching_within (bound : Z) (predictions : list Predictor.PredictionResult)
    (actual_placements : gmap string Z) (y_pred y_true : list Z) (teams : list string) :
  Spec.placements_within bound predictions actual_placements ->
  matching predictions actual_placements = (y_pred, y_true, teams) ->
  Spec.within bound y_pred /\ Spec.within bound y_true.
Proof.
  intros [Hpred Hactual] Hmatching.
  destruct (matching_matched predictions actual_placements) as (va & Hm & Hva).
  rewrite Hmatching in Hm. injection Hm as -> -> ->. unfold Spec.within in *. split.
  - rewrite Forall_forall in Hpred. apply Forall_forall. intros p Hp.
    apply Hpred. apply list_elem_of_fmap in Hp as (r & -> & Hr).
    apply list_elem_of_fmap. exists r. split; [reflexivity|].
    unfold Spec.matched in Hr. by apply list_elem_of_filter in Hr as [_ Hr].
  - clear Hmatching. induction Hva as [|r a rs va Hra Hva IH]; constructor; [|exact IH].
    exact (Hactual _ _ Hra).
Qed.

(** The details the loop of [_detailed_analysis] builds, by position. *)
Lemma detail_loop_spec (y_true y_pred : list Z) (teams : list string) : forall (i : nat) details,
  detail_loop i y_true y_pred teams = Ok details ->
  length details = length teams /\
  forall k d, details !! k = Some d ->
    teams !! k = Some (team d) /\
    y_pred !! (i + k)%nat = Some (predicted d) /\
    y_true !! (i + k)%nat = Some (actual d) /\
    error d = np_abs (np_subtract (predicted d) (actual d)) /\
    within_1 d = (error d <=? 1)%Z /\ within_2 d = (error d <=? 2)%Z /\
    within_3 d = (error d <=? 3)%Z.
Proof.
  induction teams as [|t rest IH]; intros i details; simpl.
  - intros [= <-]. split; [reflexivity|]. intros k d Hk. by rewrite lookup_nil in Hk.
  - unfold index.
    destruct (y_pred !! i) as [p|] eqn:Hp; [|discriminate].
    destruct (y_true !! i) as [a|] eqn:Ha; [|discriminate]. run.
    destruct (detail_loop (S i) y_true y_pred rest) as [ds|e] eqn:Hds; [|discriminate].
    run. intros [= <-]. destruct (IH (S i) ds Hds) as [Hlen Hspec].
    split; [simpl; lia|]. intros [|k] d Hk.
    + injection Hk as <-. simpl. rewrite Nat.add_0_r. repeat split; first [assumption | reflexivity].
    + simpl in Hk. destruct (Hspec k d Hk) as (H1 & H2 & H3 & H4).
      replace (i + S k)%nat with (S i + k)%nat by lia. repeat split; tauto.
Qed.

(** With at least one matched prediction every metric is computed. *)
Lemma validate_predictions_metrics (predictions : list Predictor.PredictionResult)
    (actual_placements : gmap string Z) (y_pred y_true : list Z) (teams : list string) :
  matching predictions actual_placements = (y_pred, y_true, teams) -> y_pred <> [] ->
  exists mae mse w1 w2 w3 t3 t5 pf details,
    sk_mean_absolute_error y_true y_pred = Ok mae /\
    sk_mean_squared_error y_true y_pred = Ok mse /\
    _accuracy_within_range y_true y_pred 1 = Ok w1 /\
    _accuracy_within_range y_true y_pred 2 = Ok w2 /\
    _accuracy_within_range y_true y_pred 3 = Ok w3 /\
    _top_n_accuracy y_true y_pred 3 = Ok t3 /\
    _top_n_accuracy y_true y_pred 5 = Ok t5 /\
    _perfect_predictions y_true y_pred = Ok pf /\
    _detailed_analysis y_true y_pred teams = Ok details /\
    validate_predictions predictions actual_placements =
      Ok (Validated {| num_teams_validated := len y_pred;
                       mean_absolute_error := mae; mean_squared_error := mse;
                       accuracy_within_1 := w1; accuracy_within_2 := w2; accuracy_within_3 := w3;
                       top_3_accuracy := t3; top_5_accuracy := t5; perfect_predictions := pf;
                       analysis := details |}).
Proof.
  intros Hmatching Hne.
  pose proof (validate_predictions_never_raises predictions actual_placements) as [report Hrun].
  unfold validate_predictions in *. rewrite Hmatching in *.
  destruct y_pred as [|p y_pred]; [contradiction|].
  destruct (sk_mean_absolute_error y_true (p :: y_pred)) as [mae|]; [|discriminate].
  destruct (sk_mean_squared_error y_true (p :: y_pred)) as [mse|]; [|discriminate].
  destruct (_accuracy_within_range y_true (p :: y_pred) 1) as [w1|]; [|discriminate].
  destruct (_accuracy_within_range y_true (p :: y_pred) 2) as [w2|]; [|discriminate].
  destruct (_accuracy_within_range y_true (p :: y_pred) 3) as [w3|]; [|discriminate].
  destruct (_top_n_accuracy y_true (p :: y_pred) 3) as [t3|]; [|discriminate].
  destruct (_top_n_accuracy y_true (p :: y_pred) 5) as [t5|]; [|discriminate].
  destruct (_perfect_predictions y_true (p :: y_pred)) as [pf|]; [|discriminate].
  destruct (_detailed_analysis y_true (p :: y_pred) teams) as [details|]; [|discriminate].
  by eexists _, _, _, _, _, _, _, _, _.
Qed.

(** X22.  On placements that numpy holds as [int64],
    [validate_predictions] reports on the predictions whose team has an
    actual placement, and on nothing else: without such a prediction it
    returns the error dict; otherwise the metrics count these predictions
    and the details list them in order, each with its predicted placement
    and the actual placement of its team.  The error of a detail is the
    distance between the two as long as that distance is below 2^63; beyond
    it the [int64] difference wraps around. *)
Theorem validate_predictions_matched (predictions : list Predictor.PredictionResult)
    (actual_placements : gmap string Z) :
  Spec.placements_within (2 ^ 63 - 1) predictions actual_placements ->
  let valid := Spec.matched predictions actual_placements in
  (valid = [] ->
     validate_predictions predictions actual_placements =
       Ok (NoMatch "No matching teams found for validation")) /\
  (valid <> [] ->
     exists metrics,
       validate_predictions predictions actual_placements = Ok (Validated metrics) /\
       num_teams_validated metrics = len valid /\
       Forall2 (fun detail prediction =>
                  team detail = Predictor.team prediction /\
                  predicted detail = Predictor.predicted_placement prediction /\
                  actual_placements !! team detail = Some (actual detail) /\
                  ((Z.abs (predicted detail - actual detail) < 2 ^ 63)%Z ->
                   error detail = Z.abs (predicted detail - actual detail)))
         (prediction_details (analysis metrics)) valid).
Proof.
  intros _ valid. subst valid.
  destruct (matching_matched predictions actual_placements) as (y_true & Hmatching & Hactual).
  set (valid := Spec.matched predictions actual_placements) in *. split.
  - intros Hnone. unfold validate_predictions. rewrite Hmatching, Hnone. reflexivity.
  - intros Hsome.
    destruct (validate_predictions_metrics _ _ _ _ _ Hmatching)
      as (mae & mse & w1 & w2 & w3 & t3 & t5 & pf & details & _ & _ & _ & _ & _ & _ & _ & _ &
          Hdetails & Hrun).
    { destruct valid; [contradiction | discriminate]. }
    eexists. split; [exact Hrun|]. cbn [num_teams_validated analysis].
    split; [unfold len; by rewrite length_map|].
    unfold _detailed_analysis in Hdetails.
    destruct (detail_loop 0 y_true _ _) as [ds|] eqn:Hds; [|discriminate].
    run. injection Hdetails as <-. cbn [prediction_details].
    destruct (detail_loop_spec _ _ _ _ _ Hds) as [Hlen Hspec].
    rewrite length_map in Hlen.
    apply Forall2_same_length_lookup. split; [exact Hlen|].
    intros k d p Hd Hp. destruct (Hspec k d Hd) as (Hteam & Hpred & Htrue & Herr & _).
    simpl in Hpred, Htrue. rewrite !list_lookup_fmap, Hp in *. simpl in *.
    injection Hteam as Hteam. injection Hpred as Hpred.
    split; [by rewrite Hteam|]. split; [by rewrite Hpred|]. split.
    + destruct (Forall2_lookup_l _ _ _ _ _ Hactual Hp) as (a & Ha & Hplace).
      rewrite Ha in Htrue. injection Htrue as <-. by rewrite <- Hteam.
    + intros Hsmall. rewrite Herr. by apply np_abs_subtract_small.
Qed.

(** X23.  On placements that numpy holds as [int64], the accuracies that
    [validate_predictions] reports are nested: the share of perfect
    predictions is at most the share within one place, that at most the
    share within two, then three, all between 0 and 1; the top-3 and top-5
    accuracies are between 0 and 1.  For placements of at most 2^30 in
    absolute value, where no difference and no square wraps around, the
    mean absolute error is not negative and at most the mean squared
    error. *)
Theorem validate_predictions_metrics_ordered (predictions : list Predictor.PredictionResult)
    (actual_placements : gmap string Z) (metrics : Metrics) :
  Spec.placements_within (2 ^ 63 - 1) predictions actual_placements ->
  validate_predictions predictions actual_placements = Ok (Validated metrics) ->
  (0 <= perfect_predictions metrics /\
   perfect_predictions metrics <= accuracy_within_1 metrics /\
   accuracy_within_1 metrics <= accuracy_within_2 metrics /\
   accuracy_within_2 metrics <= accuracy_within_3 metrics /\
   accuracy_within_3 metrics <= 1 /\
   0 <= top_3_accuracy metrics <= 1 /\
   0 <= top_5_accuracy metrics <= 1) /\
  (Spec.placements_within (2 ^ 30) predictions actual_placements ->
   0 <= mean_absolute_error metrics <= mean_squared_error metrics).
Proof.
  intros _ Hrun.
  pose proof (matching_lengths predictions actual_placements) as Hlen.
  destruct (matching predictions actual_placements) as [[y_pred y_true] teams] eqn:Hmatching.
  destruct Hlen as [Hlen _].
  destruct y_pred as [|p y_pred].
  { unfold validate_predictions in Hrun. rewrite Hmatching in Hrun. discriminate. }
  assert (Hne : y_true <> []) by (destruct y_true; [discriminate | discriminate]).
  destruct (validate_predictions_metrics _ _ _ _ _ Hmatching)
    as (mae & mse & w1 & w2 & w3 & t3 & t5 & pf & details &
        Hmae & Hmse & Hw1 & Hw2 & Hw3 & Ht3 & Ht5 & Hpf & _ & Hrun'); [discriminate|].
  rewrite Hrun in Hrun'. injection Hrun' as ->.
  cbn [perfect_predictions accuracy_within_1 accuracy_within_2 accuracy_within_3
       top_3_accuracy top_5_accuracy mean_absolute_error mean_squared_error].
  set (yp := p :: y_pred) in *.
  unfold sk_mean_absolute_error, sk_mean_squared_error, _accuracy_within_range,
    _perfect_predictions in *.
  rewrite !np_zip_with_ok in * by exact Hlen. cbn [mbind Result_bind] in *.
  rewrite !map_zip_with in *. split.
  - destruct (mean_zip_bounds (fun t p0 => as_float (t =? p0)%Z) 0 1 y_true yp Hlen Hne)
      as (m0 & Hm0 & Hpf0 & _); [intros; apply as_float_bounds|].
    destruct (mean_zip_bounds (fun t p0 => as_float (np_abs (np_subtract t p0) <=? 3)%Z) 0 1
                y_true yp Hlen Hne)
      as (m3 & Hm3 & _ & Hw31); [intros; apply as_float_bounds|].
    destruct (mean_zip_mono (fun t p0 => as_float (t =? p0)%Z)
                (fun t p0 => as_float (np_abs (np_subtract t p0) <=? 1)%Z) y_true yp Hlen Hne)
      as (a & b & Ha & Hb & Hab).
    { intros t p0. apply as_float_mono. intros Heq. apply Z.eqb_eq in Heq. subst p0.
      by rewrite np_abs_subtract_same. }
    destruct (mean_zip_mono (fun t p0 => as_float (np_abs (np_subtract t p0) <=? 1)%Z)
                (fun t p0 => as_float (np_abs (np_subtract t p0) <=? 2)%Z) y_true yp Hlen Hne)
      as (b' & c & Hb' & Hc & Hbc).
    { intros t p0. apply as_float_mono. intros Hle. apply Z.leb_le in Hle. apply Z.leb_le. lia. }
    destruct (mean_zip_mono (fun t p0 => as_float (np_abs (np_subtract t p0) <=? 2)%Z)
                (fun t p0 => as_float (np_abs (np_subtract t p0) <=? 3)%Z) y_true yp Hlen Hne)
      as (c' & d & Hc' & Hd & Hcd).
    { intros t p0. apply as_float_mono. intros Hle. apply Z.leb_le in Hle. apply Z.leb_le. lia. }
    destruct (top_n_accuracy_ok y_true yp 3 Hlen) as (q3 & Hq3 & Hb3).
    destruct (top_n_accuracy_ok y_true yp 5 Hlen) as (q5 & Hq5 & Hb5).
    assert (pf = m0) by congruence. assert (pf = a) by congruence.
    assert (w1 = b) by congruence. assert (w1 = b') by congruence.
    assert (w2 = c) by congruence. assert (w2 = c') by congruence.
    assert (w3 = d) by congruence. assert (w3 = m3) by congruence.
    assert (t3 = q3) by congruence. assert (t5 = q5) by congruence.
    subst. repeat split; try assumption; lra.
  - intros Hsmall.
    destruct (matching_within _ _ _ _ _ _ Hsmall Hmatching) as [Hpred Htrue].
    fold yp in Hpred.
    pose proof (Forall2_both _ _ y_true yp Hlen Htrue Hpred) as Hboth.
    rewrite (zip_with_ext_on _ _ (fun t p0 => inject_Z (Z.abs (p0 - t))) _ _ Hboth) in Hmae.
    2: { intros t p0 [Ht Hp0]. simpl in Ht, Hp0. by rewrite np_abs_subtract_small by lia. }
    rewrite (zip_with_ext_on _ _ (fun t p0 => inject_Z ((t - p0) * (t - p0))) _ _ Hboth) in Hmse.
    2: { intros t p0 [Ht Hp0]. simpl in Ht, Hp0. by rewrite np_square_small by lia. }
    destruct (mean_zip_mono (fun t p0 => inject_Z (Z.abs (p0 - t)))
                (fun t p0 => inject_Z ((t - p0) * (t - p0))) y_true yp Hlen Hne)
      as (e & f & He & Hf & Hef).
    { intros t p0. rewrite <- Zle_Qle.
      replace ((t - p0) * (t - p0))%Z with ((p0 - t) * (p0 - t))%Z by ring.
      apply Z_abs_le_square. }
    destruct (mean_zip_mono (fun _ _ => 0) (fun t p0 => inject_Z (Z.abs (p0 - t))) y_true yp
                Hlen Hne)
      as (z & e' & Hz & He' & Hze).
    { intros t p0. change 0 with (inject_Z 0). rewrite <- Zle_Qle. lia. }
    destruct (mean_zip_bounds (fun (_ _ : Z) => 0) 0 0 y_true yp Hlen Hne)
      as (z' & Hz' & Hz0 & _); [intros; lra|].
    assert (mae = e) by congruence. assert (mae = e') by congruence.
    assert (mse = f) by congruence. assert (z = z') by congruence.
    subst. split; lra.
Qed.

End ValidatorMore.

(** ** The analysis, and the accuracy of the service *)

Lemma insert_by_sorted {A} (key : A -> Z) (x : A) (l : list A) :
  StronglySorted (fun a b => (key a <= key b)%Z) l ->
  StronglySorted (fun a b => (key a <= key b)%Z) (insert_by key x l).
Proof.
  induction 1 as [|y l Hl IH Hy]; simpl.
  - repeat constructor.
  - destruct (Z.leb_spec (key x) (key y)) as [Hle|Hgt].
    + constructor; [by constructor|]. constructor; [exact Hle|].
      eapply Forall_impl; [exact Hy|]. intros z Hz. simpl in Hz. lia.
    + constructor; [exact IH|].
      eapply Permutation_Forall; [symmetry; apply insert_by_Permutation|].
      constructor; [lia | exact Hy].
Qed.

Lemma list_sort_sorted {A} (key : A -> Z) (l : list A) :
  StronglySorted (fun a b => (key a <= key b)%Z) (list_sort key l).
Proof.
  induction l as [|x l IH]; simpl; [constructor|]. by apply insert_by_sorted.
Qed.

Lemma StronglySorted_app_inv {A} (R : A -> A -> Prop) (l1 l2 : list A) :
  StronglySorted R (l1 ++ l2) ->
  StronglySorted R l1 /\ forall x y, x ∈ l1 -> y ∈ l2 -> R x y.
Proof.
  induction l1 as [|z l1 IH]; simpl; intros Hs.
  - split; [constructor|]. intros x y Hx. by apply elem_of_nil in Hx.
  - apply StronglySorted_inv in Hs as [Hs Hz]. destruct (IH Hs) as [Hs1 Hcross].
    apply Forall_app in Hz as [Hz1 Hz2]. split; [by constructor|].
    intros x y Hx Hy. apply elem_of_cons in Hx as [->|Hx].
    + rewrite Forall_forall in Hz2. by apply Hz2.
    + by apply Hcross.
Qed.

Section AnalysisProofs.

Import Validator.

(** The first [n] of a list sorted by magnitude: the largest, in
    descending order. *)
Lemma take_sort_by_magnitude (n : nat) (l : list (string * Z)) :
  let top := take n (sort_by_magnitude l) in
  (length top <= n)%nat /\
  Spec.descending top /\
  (forall x, x ∈ top -> x ∈ l) /\
  (forall x, x ∈ l ->
     x ∈ top \/ (length top = n /\ Forall (fun s => (snd x <= snd s)%Z) top)).
Proof.
  intros top. subst top. unfold sort_by_magnitude.
  set (sorted := list_sort (fun x => (- snd x)%Z) l).
  assert (Hperm : Permutation sorted l) by apply list_sort_Permutation.
  pose proof (list_sort_sorted (fun x : string * Z => (- snd x)%Z) l) as Hsorted.
  fold sorted in Hsorted. rewrite <- (take_drop n sorted) in Hsorted.
  apply StronglySorted_app_inv in Hsorted as [Htop Hcross].
  split; [rewrite length_take; lia|]. split.
  { unfold Spec.descending. eapply StronglySorted_weaken; [|exact Htop].
    intros a b Hab. simpl in Hab. lia. }
  split.
  - intros x Hx. rewrite <- Hperm. rewrite <- (take_drop n sorted).
    apply elem_of_app. by left.
  - intros x Hx. rewrite <- Hperm, <- (take_drop n sorted) in Hx.
    apply elem_of_app in Hx as [Hx|Hx]; [by left | right]. split.
    + rewrite length_take. apply list_elem_of_lookup in Hx as [i Hi].
      apply lookup_lt_Some in Hi. rewrite length_drop in Hi. lia.
    + apply Forall_forall. intros s Hs. specialize (Hcross s x Hs Hx). simpl in Hcross. lia.
Qed.

(** X24.  [_detailed_analysis] lists as surprises the teams placed better than
    predicted and as disappointments those placed worse, each with the
    number of places between: at most three of each, the largest first, and
    a team that is left out is off by no more than the three listed. *)
Theorem detailed_analysis_top_three (y_true y_pred : list Z) (teams : list string) (a : Analysis) :
  _detailed_analysis y_true y_pred teams = Ok a ->
  let surprise d := (team d, (predicted d - actual d)%Z) in
  let disappointment d := (team d, (actual d - predicted d)%Z) in
  ((length (biggest_surprises a) <= 3)%nat /\ Spec.descending (biggest_surprises a) /\
   (forall s, s ∈ biggest_surprises a ->
      exists d, d ∈ prediction_details a /\ (actual d < predicted d)%Z /\ s = surprise d) /\
   (forall d, d ∈ prediction_details a -> (actual d < predicted d)%Z ->
      surprise d ∈ biggest_surprises a \/
      (length (biggest_surprises a) = 3%nat /\
       Forall (fun s => (predicted d - actual d <= snd s)%Z) (biggest_surprises a)))) /\
  ((length (biggest_disappointments a) <= 3)%nat /\ Spec.descending (biggest_disappointments a) /\
   (forall s, s ∈ biggest_disappointments a ->
      exists d, d ∈ prediction_details a /\ (predicted d < actual d)%Z /\ s = disappointment d) /\
   (forall d, d ∈ prediction_details a -> (predicted d < actual d)%Z ->
      disappointment d ∈ biggest_disappointments a \/
      (length (biggest_disappointments a) = 3%nat /\
       Forall (fun s => (actual d - predicted d <= snd s)%Z) (biggest_disappointments a)))).
Proof.
  intros Hrun surprise disappointment. unfold _detailed_analysis in Hrun.
  destruct (detail_loop 0 y_true y_pred teams) as [details|]; [|discriminate].
  cbn [mbind Result_bind mret Result_ret] in Hrun. injection Hrun as <-.
  cbn [biggest_surprises biggest_disappointments prediction_details].
  split.
  - match goal with |- context [take 3 (sort_by_magnitude ?l)] =>
      destruct (take_sort_by_magnitude 3 l) as (Hlen & Hdesc & Hsound & Hcomplete)
    end.
    split; [exact Hlen|]. split; [exact Hdesc|]. split.
    + intros s Hs. apply Hsound, list_elem_of_omap in Hs as (d & Hd & Hs).
      exists d. split; [exact Hd|].
      destruct (Z.ltb_spec (actual d) (predicted d)); [|discriminate].
      injection Hs as <-. by split.
    + intros d Hd Hlt. apply (Hcomplete (surprise d)).
      apply list_elem_of_omap. exists d. split; [exact Hd|].
      destruct (Z.ltb_spec (actual d) (predicted d)); [reflexivity | lia].
  - match goal with |- context [take 3 (sort_by_magnitude ?l)] =>
      destruct (take_sort_by_magnitude 3 l) as (Hlen & Hdesc & Hsound & Hcomplete)
    end.
    split; [exact Hlen|]. split; [exact Hdesc|]. split.
    + intros s Hs. apply Hsound, list_elem_of_omap in Hs as (d & Hd & Hs).
      exists d. split; [exact Hd|].
      destruct (Z.ltb_spec (predicted d) (actual d)); [|discriminate].
      injection Hs as <-. by split.
    + intros d Hd Hlt. apply (Hcomplete (disappointment d)).
      apply list_elem_of_omap. exists d. split; [exact Hd|].
      destruct (Z.ltb_spec (predicted d) (actual d)); [reflexivity | lia].
Qed.

End AnalysisProofs.

Section ServiceProofs.

Import Service.

Lemma count_within_one_bounds (actual : list Z) : forall predicted : list Z,
  (0 <= count_within_one actual predicted <= len actual)%Z.
Proof.
  induction actual as [|a actual IH]; intros [|p predicted]; simpl;
    try (unfold len; simpl; lia).
  specialize (IH predicted). unfold len in *. simpl length.
  destruct (Z.abs (a - p) <=? 1)%Z; lia.
Qed.

Lemma count_within_one_predicted (actual : list Z) : forall predicted : list Z,
  (count_within_one actual predicted <= len predicted)%Z.
Proof.
  induction actual as [|a actual IH]; intros [|p predicted]; simpl;
    try (unfold len; simpl; lia).
  specialize (IH predicted). unfold len in *. simpl length.
  destruct (Z.abs (a - p) <=? 1)%Z; lia.
Qed.

Lemma py_sum_within_one (actual : list Z) : forall (predicted : list Z) (acc : Q),
  fold_left Qplus
    (zip_with (fun t p => as_float (Z.abs (t - p) <=? 1)%Z) actual predicted) acc
  == acc + inject_Z (count_within_one actual predicted).
Proof.
  induction actual as [|a actual IH]; intros [|p predicted] acc; simpl;
    try (change (inject_Z 0) with 0; lra).
  rewrite IH, inject_Z_plus.
  destruct (Z.abs (a - p) <=? 1)%Z; simpl as_float.
  - change (inject_Z 1) with 1. lra.
  - change (inject_Z 0) with 0. lra.
Qed.

(** X25.  The accuracy the service reports never raises and lies between 0 and 1;
    it is 0.0 for no actual placements.  Pairs are taken as far as the
    shorter list goes while the total is the number of actual placements, so
    a placement without a prediction counts as a miss: the accuracy is at
    most the number of predictions over the number of actual placements. *)
Theorem placement_accuracy_bounded (actual predicted : list Z) :
  exists accuracy,
    _calculate_placement_accuracy actual predicted = Ok accuracy /\
    0 <= accuracy <= 1 /\
    (actual = [] -> accuracy = 0.0) /\
    accuracy * inject_Z (len actual) <= inject_Z (len predicted).
Proof.
  unfold _calculate_placement_accuracy.
  pose proof (count_within_one_bounds actual predicted) as Hcount.
  pose proof (count_within_one_predicted actual predicted) as Hpred.
  destruct (Z.ltb_spec 0 (len actual)) as [Hpos|Hzero].
  - rewrite py_div_ok by (apply inject_Z_nonzero; lia).
    eexists. split; [reflexivity|]. split; [by apply fraction_bounds|]. split.
    + intros ->. unfold len in Hpos. simpl in Hpos. lia.
    + unfold Qdiv. rewrite <- Qmult_assoc, (Qmult_comm (/ _)), Qmult_inv_r, Qmult_1_r
        by (apply inject_Z_nonzero; lia).
      rewrite <- Zle_Qle. lia.
  - exists 0.0. split; [reflexivity|]. split; [lra|]. split; [reflexivity|].
    unfold Qle, len. simpl. lia.
Qed.

(** X26.  On two lists of one size, of placements below 2^62 in absolute
    value, the accuracy of the service is the [accuracy_within_1] of the
    validator.  The service computes on Python ints and the validator on
    [int64] arrays: with larger placements a difference can wrap around in
    the validator and the two can differ. *)
Theorem placement_accuracy_is_within_one (actual predicted : list Z) :
  length actual = length predicted -> actual <> [] ->
  Spec.within (2 ^ 62 - 1) actual -> Spec.within (2 ^ 62 - 1) predicted ->
  exists accuracy within_1,
    _calculate_placement_accuracy actual predicted = Ok accuracy /\
    Validator._accuracy_within_range actual predicted 1 = Ok within_1 /\
    accuracy == within_1.
Proof.
  intros Hlen Hne Hactual Hpredicted.
  unfold _calculate_placement_accuracy, Validator._accuracy_within_range.
  assert (Hpos : (0 < len actual)%Z) by (destruct actual; [contradiction | apply len_cons]).
  destruct (Z.ltb_spec 0 (len actual)) as [_|]; [|lia].
  rewrite py_div_ok by (apply inject_Z_nonzero; lia).
  rewrite np_zip_with_ok by exact Hlen. cbn [mbind Result_bind]. rewrite map_zip_with.
  pose proof (Forall2_both _ _ actual predicted Hlen Hactual Hpredicted) as Hboth.
  rewrite (zip_with_ext_on _ _ (fun t p => as_float (Z.abs (t - p) <=? 1)%Z) _ _ Hboth).
  2: { intros t p [Ht Hp]. simpl in Ht, Hp. by rewrite np_abs_subtract_small by lia. }
  destruct (np_mean_zip_with (fun t p => as_float (Z.abs (t - p) <=? 1)%Z) actual predicted
              Hlen Hne) as [-> Hn].
  eexists _, _. split; [reflexivity|]. split; [reflexivity|].
  unfold py_sum. rewrite py_sum_within_one. rewrite Qplus_0_l. reflexivity.
Qed.

End ServiceProofs.

(** ** Tournaments *)

Section DictMore.

Context {K V : Type} `{EqDecision K}.

Lemma dict_set_keys_new (k : K) (v : V) (d : list (K * V)) :
  k ∉ map fst d -> dict_set k v d = d ++ [(k, v)].
Proof.
  induction d as [|[k' v'] d IH]; simpl; intros Hnotin; [reflexivity|].
  apply not_elem_of_cons in Hnotin as [Hne Hnotin].
  rewrite decide_False by exact Hne. f_equal. by apply IH.
Qed.

Lemma dict_get_not_in (k : K) (d : list (K * V)) :
  k ∉ map fst d -> dict_get k d = Raise KeyError.
Proof.
  induction d as [|[k' v'] d IH]; simpl; intros Hnotin; [reflexivity|].
  apply not_elem_of_cons in Hnotin as [Hne Hnotin].
  rewrite decide_False by exact Hne. by apply IH.
Qed.

End DictMore.

Section TournamentProofs.

Import Tournament.

Lemma get_actual_placements_fold (entries : list TeamEntry) : forall (acc : gmap string Z) (i : string),
  fold_left (fun placements team =>
               match actual_placement team with
               | Some placement => <[id team := placement]> placements
               | None => placements
               end) entries acc !! i =
  match List.find (fun team => String.eqb (id team) i && bool_decide (is_Some (actual_placement team)))
          (rev entries) with
  | Some team => actual_placement team
  | None => acc !! i
  end.
Proof.
  induction entries as [|team entries IH] using rev_ind; intros acc i; [reflexivity|].
  rewrite fold_left_app, rev_app_distr. simpl.
  destruct (String.eqb_spec (id team) i) as [->|Hne]; simpl.
  - destruct (actual_placement team) as [placement|] eqn:Hp; simpl.
    + by rewrite lookup_insert_eq.
    + apply IH.
  - destruct (actual_placement team) as [placement|] eqn:Hp; simpl.
    + rewrite lookup_insert_ne by exact Hne. apply IH.
    + apply IH.
Qed.

(** X27.  In a tournament whose team ids are distinct, looking a team up by its
    id finds that team, and [get_actual_placements] holds its actual
    placement exactly when it has one; an id of no team is found by
    neither. *)
Theorem team_lookup_by_id (self : TournamentConfig) :
  NoDup (get_team_ids self) ->
  (forall team, team ∈ teams self ->
     find_team_by_id self (id team) = Some team /\
     get_actual_placements self !! id team = actual_placement team) /\
  (forall team_id, team_id ∉ get_team_ids self ->
     find_team_by_id self team_id = None /\ get_actual_placements self !! team_id = None).
Proof.
  unfold get_team_ids, find_team_by_id, get_actual_placements. intros Hnd. split.
  - intros team Hteam. split.
    + induction (teams self) as [|t rest IH]; [by apply elem_of_nil in Hteam|].
      simpl in Hnd. apply NoDup_cons in Hnd as [Hnotin Hnd]. simpl.
      apply elem_of_cons in Hteam as [->|Hteam]; [by rewrite String.eqb_refl|].
      destruct (String.eqb_spec (id t) (id team)) as [Heq|_]; [|by apply IH].
      exfalso. apply Hnotin. rewrite Heq. apply list_elem_of_fmap. by exists team.
    + rewrite get_actual_placements_fold.
      destruct (List.find _ (rev (teams self))) as [t|] eqn:Hfind.
      * apply find_some in Hfind as [Hin Ht].
        apply andb_prop in Ht as [Hid _]. apply String.eqb_eq in Hid.
        apply in_rev, list_elem_of_In in Hin.
        assert (t = team); [|by subst].
        clear -Hnd Hin Hteam Hid. induction (teams self) as [|t0 rest IH];
          [by apply elem_of_nil in Hin|].
        simpl in Hnd. apply NoDup_cons in Hnd as [Hnotin Hnd].
        apply elem_of_cons in Hin as [->|Hin]; apply elem_of_cons in Hteam as [->|Hteam].
        -- reflexivity.
        -- exfalso. apply Hnotin. rewrite Hid. apply list_elem_of_fmap. by exists team.
        -- exfalso. apply Hnotin. rewrite <- Hid. apply list_elem_of_fmap. by exists t.
        -- by apply IH.
      * destruct (actual_placement team) as [placement|] eqn:Hp; [|by rewrite lookup_empty].
        exfalso. assert (Hin : In team (rev (teams self))).
        { apply in_rev. rewrite rev_involutive. by apply list_elem_of_In. }
        pose proof (find_none _ _ Hfind team Hin) as Hnone. simpl in Hnone.
        rewrite String.eqb_refl, Hp in Hnone. simpl in Hnone. discriminate.
  - intros team_id Hnotin. split.
    + destruct (List.find _ (teams self)) as [t|] eqn:Hfind; [|reflexivity].
      apply find_some in Hfind as [Hin Hid]. apply String.eqb_eq in Hid.
      exfalso. apply Hnotin. rewrite <- Hid. apply list_elem_of_fmap. exists t.
      split; [reflexivity | by apply list_elem_of_In].
    + rewrite get_actual_placements_fold.
      destruct (List.find _ (rev (teams self))) as [t|] eqn:Hfind; [|by rewrite lookup_empty].
      apply find_some in Hfind as [Hin Ht].
      apply andb_prop in Ht as [Hid _]. apply String.eqb_eq in Hid.
      exfalso. apply Hnotin. rewrite <- Hid. apply list_elem_of_fmap. exists t.
      split; [reflexivity|]. by apply list_elem_of_In, in_rev.
Qed.

Lemma load_items_spec (items : list (string * TournamentData)) : forall self : TournamentManager,
  NoDup (map fst items) ->
  (forall key, key ∈ map fst items -> key ∉ list_tournaments self) ->
  Forall (fun item => is_Some (data_name item.2) /\ is_Some (data_teams item.2)) items ->
  exists self',
    load_items items self = (Ok tt, self') /\
    list_tournaments self' = list_tournaments self ++ map fst items /\
    (forall key, key ∉ map fst items ->
       dict_get key (tournaments self') = dict_get key (tournaments self)) /\
    forall key data, (key, data) ∈ items ->
      exists config,
        dict_get key (tournaments self') = Ok config /\
        data_name data = Some (tournament_name config) /\
        data_teams data = Some (teams config) /\
        start_date config = None /\ end_date config = None /\
        (is_historical config = true <->
         exists first_team rest,
           teams config = first_team :: rest /\ is_Some (actual_placement first_team)).
Proof.
  unfold list_tournaments.
  induction items as [|[key data] rest IH]; intros self Hnd Hfresh Hcomplete.
  - exists self. split; [reflexivity|]. split; [by rewrite app_nil_r|]. split; [done|].
    intros key data Hin. by apply elem_of_nil in Hin.
  - simpl in Hnd. apply NoDup_cons in Hnd as [Hkey Hnd].
    apply Forall_cons in Hcomplete as [[[tname Hname] [tteams Hteams]] Hcomplete].
    simpl in Hname, Hteams.
    set (config := {| tournament_name := tname; teams := tteams; start_date := None;
                      end_date := None;
                      is_historical := match tteams with
                                       | first_team :: _ =>
                                           match actual_placement first_team with
                                           | Some _ => true
                                           | None => false
                                           end
                                       | [] => false
                                       end |}).
    assert (Hstep : load_tournament key data self = (Ok tt, add_tournament key config self)).
    { unfold load_tournament. rewrite Hname, Hteams. reflexivity. }
    assert (Hnew : key ∉ map fst (tournaments self)) by (apply Hfresh; simpl; by left).
    destruct (IH (add_tournament key config self) Hnd) as (self' & Hrun & Hkeys & Hother & Hitems).
    { intros k Hk. cbn [add_tournament tournaments].
      rewrite dict_set_keys_new, map_app by exact Hnew. simpl.
      intros Hin. apply elem_of_app in Hin as [Hin|Hin].
      - apply (Hfresh k); [simpl; by right | exact Hin].
      - apply list_elem_of_singleton in Hin. by subst. }
    { exact Hcomplete. }
    exists self'. split.
    { cbn [load_items]. unfold mbind, SR_bind. rewrite Hstep. exact Hrun. }
    cbn [add_tournament tournaments] in Hkeys, Hother. split.
    { rewrite Hkeys, dict_set_keys_new, map_app by exact Hnew. simpl.
      by rewrite <- app_assoc. }
    split.
    { intros k Hk. simpl in Hk. apply not_elem_of_cons in Hk as [Hne Hk].
      rewrite Hother by exact Hk. apply dict_get_set_ne. congruence. }
    intros k d Hin. apply elem_of_cons in Hin as [[= -> ->]|Hin]; [|by apply Hitems].
    exists config. rewrite Hother by exact Hkey. rewrite dict_get_set_eq.
    split; [reflexivity|]. split; [exact Hname|]. split; [exact Hteams|].
    split; [reflexivity|]. split; [reflexivity|]. simpl. split.
    + destruct tteams as [|first_team others]; [discriminate|].
      destruct (actual_placement first_team) eqn:Hp; [|discriminate].
      intros _. exists first_team, others. rewrite Hp. eauto.
    + intros (first_team & others & -> & [placement Hp]). by rewrite Hp.
Qed.

(** X28.  A configuration in which every tournament has a name and a team list
    loads into a manager that lists the tournaments in the order of the
    configuration and holds each under its key, with its name and teams and
    without dates.  A tournament is historical exactly when its first team
    has an actual placement: the other teams are not looked at. *)
Theorem load_tournaments_first_team (items : list (string * TournamentData)) :
  NoDup (map fst items) ->
  Forall (fun item => is_Some (data_name item.2) /\ is_Some (data_teams item.2)) items ->
  exists self,
    init (Some items) = Ok self /\
    list_tournaments self = map fst items /\
    forall key data, (key, data) ∈ items ->
      exists config,
        get_tournament self key = Some config /\
        data_name data = Some (tournament_name config) /\
        data_teams data = Some (teams config) /\
        start_date config = None /\ end_date config = None /\
        (is_historical config = true <->
         exists first_team rest,
           teams config = first_team :: rest /\ is_Some (actual_placement first_team)).
Proof.
  intros Hnd Hcomplete.
  destruct (load_items_spec items {| tournaments := [] |} Hnd) as (self & Hrun & Hkeys & _ & Hitems).
  { intros key _. apply not_elem_of_nil. }
  { exact Hcomplete. }
  exists self. unfold init, _load_tournaments. simpl. rewrite Hrun.
  split; [reflexivity|]. split; [exact Hkeys|].
  intros key data Hin. destruct (Hitems key data Hin) as (config & Hget & Hrest).
  exists config. unfold get_tournament, dict_lookup. rewrite Hget. by split.
Qed.

(** X29.  A tournament without a name or without a team list makes the
    construction of the manager raise KeyError; a configuration without a
    [tournaments] section gives a manager without tournaments. *)
Theorem load_tournaments_missing_key (items : list (string * TournamentData)) :
  (Exists (fun item => data_name item.2 = None \/ data_teams item.2 = None) items ->
   init (Some items) = Raise KeyError) /\
  init None = Ok {| tournaments := [] |}.
Proof.
  split; [|reflexivity]. unfold init, _load_tournaments. simpl.
  generalize ({| tournaments := [] |}).
  induction items as [|[key data] rest IH]; intros self Hmissing.
  - by apply Exists_nil in Hmissing.
  - cbn [load_items]. unfold mbind at 1, SR_bind at 1.
    unfold load_tournament, mbind, SR_bind, lift, modify.
    destruct (data_name data) as [tname|] eqn:Hname; simpl; [|reflexivity].
    destruct (data_teams data) as [tteams|] eqn:Hteams; simpl; [|reflexivity].
    apply IH. apply Exists_cons in Hmissing as [[Hm|Hm]|Hm]; simpl in *; try congruence.
Qed.

End TournamentProofs.

(** ** Dotted configuration keys *)

Section ConfigProofs.

Import Config.

Lemma str_split_piece (sep : Ascii.ascii) (piece : string) :
  ~ In sep (list_ascii_of_string piece) -> str_split sep piece = [piece].
Proof.
  induction piece as [|c piece IH]; simpl; intros Hsep; [reflexivity|].
  destruct (Ascii.eqb_spec c sep) as [->|_]; [exfalso; apply Hsep; by left|].
  rewrite IH by (intros Hin; apply Hsep; by right). reflexivity.
Qed.

Lemma str_split_append (sep : Ascii.ascii) (piece rest : string) :
  ~ In sep (list_ascii_of_string piece) ->
  str_split sep (String.append piece (String sep rest)) = piece :: str_split sep rest.
Proof.
  induction piece as [|c piece IH]; simpl; intros Hsep.
  - by rewrite Ascii.eqb_refl.
  - destruct (Ascii.eqb_spec c sep) as [->|_]; [exfalso; apply Hsep; by left|].
    rewrite IH by (intros Hin; apply Hsep; by right). reflexivity.
Qed.

(** Splitting at the separator undoes joining with it. *)
Lemma str_split_join (sep : Ascii.ascii) (pieces : list string) :
  pieces <> [] ->
  Forall (fun piece => ~ In sep (list_ascii_of_string piece)) pieces ->
  str_split sep (str_join sep pieces) = pieces.
Proof.
  induction pieces as [|piece rest IH]; [contradiction|]. intros _ Hpieces.
  apply Forall_cons in Hpieces as [Hpiece Hrest].
  destruct rest as [|next rest].
  - simpl. by apply str_split_piece.
  - change (str_join sep (piece :: next :: rest))
      with (String.append piece (String sep (str_join sep (next :: rest)))).
    rewrite str_split_append by exact Hpiece. f_equal. by apply IH.
Qed.

(** X30.  [get] with a dotted key walks the nested dicts along the parts of the
    key: it returns what lies at the end of the path, and the default as
    soon as a part is missing or the value reached is not a dict. *)
Theorem get_follows_path (_config : value) (path : list string) (default : option value) :
  path <> [] ->
  Forall (fun part => ~ In "."%char (list_ascii_of_string part)) path ->
  get _config (str_join "." path) default =
    match descend path _config with
    | Some found => Some found
    | None => default
    end /\
  (forall parts more d, path = parts ++ more -> more <> [] ->
     descend parts _config = Some (Scalar d) ->
     get _config (str_join "." path) default = default).
Proof.
  intros Hne Hparts. unfold get. rewrite str_split_join by assumption.
  split; [reflexivity|].
  - intros parts more d -> Hmore Hscalar.
    assert (Hnone : descend (parts ++ more) _config = None); [|by rewrite Hnone].
    clear -Hmore Hscalar. revert _config Hscalar.
    induction parts as [|part parts IH]; intros _config Hscalar; simpl in *.
    + injection Hscalar as ->. by destruct more.
    + destruct _config as [|m]; [discriminate|].
      destruct (dict_lookup part m) as [next|]; [by apply IH | discriminate].
Qed.

End ConfigProofs.

(** ** Further concrete inputs *)

Section MoreInstances.

Import Examples.

(** Nine and Ten won their six most recent matches. *)
Lemma recent_form_first_six_witness :
  take 6 (Team.recent_matches team_nine) = take 6 (Team.recent_matches team_ten) /\
  exists perf1 perf2,
    Processors.calculate_team_performance team_nine = Ok perf1 /\
    Processors.calculate_team_performance team_ten = Ok perf2 /\
    Processors.recent_form perf1 = Processors.recent_form perf2.
Proof.
  assert (Hsix : take 6 (Team.recent_matches team_nine) = take 6 (Team.recent_matches team_ten))
    by reflexivity.
  split; [exact Hsix|]. exact (recent_form_first_six team_nine team_ten Hsix).
Defined.

(** A full roster, four hundred days after its formation. *)
Lemma roster_stability_range_witness :
  Team.formed_date formed_team = Some (day 0) /\
  (365 <= timedelta_days (a_year_later 0%nat - day 0))%Z /\
  exists stability c',
    Processors.calculate_roster_stability formed_team a_year_later = (Ok stability, c') /\
    stability == 1.
Proof.
  assert (Hdays : (0 <= timedelta_days (a_year_later 0%nat - day 0))%Z)
    by (vm_compute; discriminate).
  assert (Hyear : (365 <= timedelta_days (a_year_later 0%nat - day 0))%Z)
    by (vm_compute; discriminate).
  split; [reflexivity|]. split; [exact Hyear|].
  destruct (roster_stability_range formed_team a_year_later (day 0) eq_refl Hdays)
    as (stability & c' & Hrun & _ & Hfull).
  exists stability, c'. split; [exact Hrun|]. rewrite (Hfull Hyear). reflexivity.
Defined.

(** Fitting on the three bare teams, then transforming them again. *)
Lemma prepare_features_reuses_statistics_witness :
  exists df X self1,
    three_prepared = (Ok (df, X), self1) /\
    Engineering.is_fitted self1 = true /\
    exists X', @Engineering.prepare_features toy_lib three_scores.1 false self1
               = (Ok (df, X'), self1).
Proof.
  destruct three_prepared as [[[df X]|e] self1] eqn:Hrun; [|vm_compute in Hrun; discriminate].
  exists df, X, self1. split; [reflexivity|].
  destruct (@prepare_features_reuses_statistics toy_lib Engineering.init self1 three_scores.1
              three_scores.1 true df X eq_refl Hrun) as (Hdf & HX & Hfitted & Hagain).
  split; [exact Hfitted|]. rewrite Hagain, Hdf.
  destruct three_scores.1 as [|f fs] eqn:Hfs; [vm_compute in Hfs; discriminate|].
  simpl. eexists. reflexivity.
Defined.

(** The composites of a row of halves. *)
Lemma composites_in_unit_interval_witness :
  Forall Spec.primitives_in_unit_interval [half_row] /\
  map Engineering.base (Engineering.create_composite_features [half_row]) = [half_row].
Proof.
  assert (Hrow : Forall Spec.primitives_in_unit_interval [half_row]).
  { repeat constructor; discriminate. }
  split; [exact Hrow|]. exact (proj1 (composites_in_unit_interval [half_row] Hrow)).
Defined.

(** The index of a row whose combat score is 210. *)
Lemma team_strength_index_bounded_by_skill_witness :
  Spec.rates_in_unit_interval formed_row /\
  Spec.unit_interval (Engineering.individual_skill (Engineering.composite_row formed_row)) /\
  ~ Spec.primitives_in_unit_interval formed_row /\
  0 <= Engineering.team_strength_index (Engineering.composite_row formed_row) <= 1.
Proof.
  assert (Hrates : Spec.rates_in_unit_interval formed_row).
  { repeat split; discriminate. }
  assert (Hskill : Spec.unit_interval
                     (Engineering.individual_skill (Engineering.composite_row formed_row))).
  { split; discriminate. }
  split; [exact Hrates|]. split; [exact Hskill|]. split.
  - intros Hall. apply Forall_cons in Hall as [_ Hall]. apply Forall_cons in Hall as [_ Hall].
    apply Forall_cons in Hall as [[_ Hacs] _]. vm_compute in Hacs. apply Hacs. reflexivity.
  - exact (team_strength_index_bounded_by_skill formed_row Hrates Hskill).
Defined.

(** A prediction of 2 is at least as far from the middle as one of 4. *)
Lemma confidence_grows_with_distance_witness :
  Qabs (4 - 4.5) <= Qabs (2 - 4.5) /\
  Predictor._calculate_confidence 4 <= Predictor._calculate_confidence 2.
Proof.
  assert (Hfar : Qabs (4 - 4.5) <= Qabs (2 - 4.5)) by discriminate.
  split; [exact Hfar|]. exact (confidence_grows_with_distance 4 2 Hfar).
Defined.

Lemma three_results_run :
  @Predictor.predict_placements toy_lib untrained three_teams (frozen 0%Z)
    = (Ok three_results, frozen 0%Z).
Proof. vm_compute. reflexivity. Defined.

(** The confidences of the three bare teams. *)
Lemma predict_placements_confidence_witness :
  @Predictor.predict_placements toy_lib untrained three_teams (frozen 0%Z)
    = (Ok three_results, frozen 0%Z) /\
  Forall Spec.confident three_results.
Proof.
  split; [exact three_results_run|].
  exact (@predict_placements_confidence toy_lib untrained three_teams (frozen 0%Z) (frozen 0%Z)
           three_results three_results_run).
Defined.

(** The results for the three bare teams name these teams. *)
Lemma predict_placements_keeps_teams_witness :
  @Predictor.predict_placements toy_lib untrained three_teams (frozen 0%Z)
    = (Ok three_results, frozen 0%Z) /\
  Permutation (map Predictor.team three_results) (map Team.name three_teams).
Proof.
  split; [exact three_results_run|].
  exact (@predict_placements_keeps_teams toy_lib untrained three_teams (frozen 0%Z) (frozen 0%Z)
           three_results three_results_run).
Defined.

(** The three results, each moved to the eighth place beforehand. *)
Lemma adjust_placements_ignores_placements_witness :
  Forall2 Spec.same_but_placement three_results (map (Predictor.set_placement 8) three_results) /\
  Predictor._adjust_placements (map (Predictor.set_placement 8) three_results)
    = Predictor._adjust_placements three_results.
Proof.
  assert (Hsame : Forall2 Spec.same_but_placement three_results
                    (map (Predictor.set_placement 8) three_results)).
  { repeat constructor; exists 8%Z; reflexivity. }
  split; [exact Hsame|].
  exact (proj1 (adjust_placements_ignores_placements _ _ Hsame)).
Defined.

(** The heuristic on two rows, without rounding. *)
Lemma fallback_prediction_range_witness :
  Spec.float_rounding (fun x => x) /\
  map Predictor.fallback_score [half_row; formed_row] <> [] /\
  Spec.moderate (map Predictor.fallback_score [half_row; formed_row]) /\
  exists placements,
    Predictor._fallback_prediction [half_row; formed_row] = Ok placements /\
    length placements = 2%nat /\
    Forall (fun p => 1 <= p <= 8) placements.
Proof.
  assert (Hne : map Predictor.fallback_score [half_row; formed_row] <> []) by discriminate.
  assert (Hmoderate : Spec.moderate (map Predictor.fallback_score [half_row; formed_row])).
  { repeat constructor; apply Qle_bool_iff; vm_compute; reflexivity. }
  split; [exact exact_float_rounding|]. split; [exact Hne|]. split; [exact Hmoderate|].
  destruct (fallback_prediction_range (fun x => x) exact_float_rounding
              (map Predictor.fallback_score [half_row; formed_row]) Hne Hmoderate)
    as (placements & Hrun & Hlen & Hrange & _).
  rewrite fallback_prediction_rounded_exact in Hrun.
  exists placements. repeat split; assumption.
Defined.


(** The trained trainer, which selected gradient boosting, trained again
    with a library that fits gradient boosting and then fails on the ridge
    regression: it predicted 4.5 before, refuses now, and the model it holds
    is the one fitted by the failed training. *)
Lemma failed_training_disables_predict_witness :
  exists self',
    @Trainer.train_models flaky_lib three_rows three_targets trained = (Ok None, self') /\
    Trainer.is_trained self' = false /\
    Trainer.best self' = Trainer.best trained /\
    (forall X', Trainer.predict self' X' = Raise NotFittedError) /\
    Trainer.predict trained three_rows = Ok [4.5; 4.5; 4.5] /\
    option_map (fun est => estimator_predict est three_rows) (Trainer.best_model self')
      = Some (Ok [2.0; 2.0; 2.0]).
Proof.
  exists (@Trainer.train_models flaky_lib three_rows three_targets trained).2.
  assert (Hrun : @Trainer.train_models flaky_lib three_rows three_targets trained
                 = (Ok None, (@Trainer.train_models flaky_lib three_rows three_targets trained).2))
    by (vm_compute; reflexivity).
  split; [exact Hrun|].
  destruct (@failed_training_disables_predict flaky_lib three_rows three_targets trained _ Hrun)
    as (Htrained & Hbest & _ & Hpredict & _).
  split; [exact Htrained|]. split; [exact Hbest|]. split; [exact Hpredict|].
  split; vm_compute; reflexivity.
Defined.

(** Training on three rows with three targets, then predicting. *)
Lemma train_models_then_predict_witness :
  Spec.three_candidates Trainer.init /\ @Spec.candidates_succeed toy_lib three_rows three_targets /\
  (3 <= len three_rows)%Z /\
  exists results self' best f,
    @Trainer.train_models toy_lib three_rows three_targets Trainer.init
      = (Ok (Some results), self') /\
    Trainer.best_model_name self' = Some best /\
    @fit toy_lib best three_rows three_targets = Ok f /\
    forall X', Trainer.predict self' X' = f X'.
Proof.
  assert (Hrows : (3 <= len three_rows)%Z) by (vm_compute; discriminate).
  split; [exact init_three_candidates|]. split; [exact toy_candidates_succeed|].
  split; [exact Hrows|].
  destruct (@train_models_then_predict toy_lib three_rows three_targets Trainer.init
              init_three_candidates toy_candidates_succeed Hrows)
    as (results & self' & best & f & Hrun & Hname & Hfit & Hpredict & _).
  exists results, self', best, f. repeat split; assumption.
Defined.

(** The candidates after training on three rows. *)
Lemma train_models_keeps_candidates_witness :
  Spec.three_candidates Trainer.init /\ Spec.three_candidates trained.
Proof.
  split; [exact init_three_candidates|].
  exact (@train_models_keeps_candidates toy_lib three_rows three_targets Trainer.init
           init_three_candidates).
Defined.

Lemma trained_three_candidates : Spec.three_candidates trained.
Proof. split; [reflexivity|]. vm_compute. repeat constructor. Defined.

(** Tuning the trained trainer on five rows. *)
Lemma hyperparameter_tuning_replaces_witness :
  Spec.three_candidates trained /\ Trainer.is_trained trained = true /\
  (5 <= len five_rows)%Z /\ Trainer.best_model_name trained = Some gradient_boosting /\
  forall X', Trainer.predict (@Trainer.hyperparameter_tuning toy_search five_rows five_targets trained).2 X'
             = Ok (map (fun _ => 4.0) X').
Proof.
  assert (Hrows : (5 <= len five_rows)%Z) by (vm_compute; discriminate).
  split; [exact trained_three_candidates|]. split; [reflexivity|]. split; [exact Hrows|].
  split; [reflexivity|].
  destruct (@hyperparameter_tuning_replaces toy_search five_rows five_targets trained
              gradient_boosting trained_three_candidates eq_refl Hrows eq_refl)
    as (estimator & Hget & Hfamily & Hsearch).
  vm_compute in Hget. injection Hget as <-.
  destruct Hsearch as [_ Hpredict]. exact Hpredict.
Defined.

(** The trained trainer saved, and loaded into a fresh one. *)
Lemma save_load_round_trip_witness :
  Trainer.is_trained trained = true /\
  exists best, Trainer.best_model trained = Some best /\
    forall X, Trainer.predict
                (Trainer.load_model "model.joblib"
                   (Trainer.save_model "model.joblib" trained ∅) Trainer.init) X
              = Trainer.predict trained X.
Proof.
  split; [reflexivity|].
  destruct (Trainer.best_model trained) as [best|] eqn:Hbest; [|vm_compute in Hbest; discriminate].
  exists best. split; [reflexivity|].
  destruct (save_load_round_trip "model.joblib" trained Trainer.init ∅ best eq_refl Hbest)
    as (_ & _ & _ & _ & Hpredict & _).
  exact Hpredict.
Defined.

(** The placements of the validation batch are at most four. *)
Lemma four_placements_within (bound : Z) :
  (4 <= bound)%Z -> Spec.placements_within bound four_predictions four_actuals.
Proof.
  intros Hbound. split.
  - repeat constructor; simpl; lia.
  - unfold four_actuals.
    repeat (apply map_Forall_insert_2; [simpl; lia|]).
    apply map_Forall_empty.
Defined.

(** The report on the validation batch with a fifth prediction, for a team
    without an actual placement. *)
Lemma validate_predictions_matched_witness :
  Spec.placements_within (2 ^ 63 - 1) (four_predictions ++ [prediction_for "E" 4])
    four_actuals /\
  Spec.matched (four_predictions ++ [prediction_for "E" 4]) four_actuals = four_predictions /\
  exists metrics,
    Validator.validate_predictions (four_predictions ++ [prediction_for "E" 4]) four_actuals
      = Ok (Validator.Validated metrics) /\
    Validator.num_teams_validated metrics = 4%Z.
Proof.
  assert (Hfit : Spec.placements_within (2 ^ 63 - 1) (four_predictions ++ [prediction_for "E" 4])
                   four_actuals).
  { destruct (four_placements_within (2 ^ 63 - 1)) as [Hpred Hactual]; [lia|].
    split; [|exact Hactual]. repeat constructor; simpl; lia. }
  assert (Hvalid : Spec.matched (four_predictions ++ [prediction_for "E" 4]) four_actuals
                   = four_predictions) by (vm_compute; reflexivity).
  split; [exact Hfit|]. split; [exact Hvalid|].
  destruct (validate_predictions_matched (four_predictions ++ [prediction_for "E" 4])
              four_actuals Hfit) as [_ Hsome].
  destruct Hsome as (metrics & Hrun & Hcount & _); [rewrite Hvalid; discriminate|].
  exists metrics. split; [exact Hrun|]. rewrite Hcount, Hvalid. reflexivity.
Defined.

(** The metrics of the validation batch. *)
Lemma validate_predictions_metrics_ordered_witness :
  Spec.placements_within (2 ^ 30) four_predictions four_actuals /\
  exists metrics,
    Validator.validate_predictions four_predictions four_actuals = Ok (Validator.Validated metrics) /\
    Validator.perfect_predictions metrics <= Validator.accuracy_within_1 metrics /\
    Validator.accuracy_within_3 metrics <= 1 /\
    0 <= Validator.mean_absolute_error metrics <= Validator.mean_squared_error metrics.
Proof.
  assert (Hfit : Spec.placements_within (2 ^ 63 - 1) four_predictions four_actuals)
    by (apply four_placements_within; lia).
  assert (Hsmall : Spec.placements_within (2 ^ 30) four_predictions four_actuals)
    by (apply four_placements_within; lia).
  split; [exact Hsmall|].
  destruct (Validator.validate_predictions four_predictions four_actuals)
    as [[err|metrics]|e] eqn:Hrun;
    [vm_compute in Hrun; discriminate | | vm_compute in Hrun; discriminate].
  exists metrics. split; [reflexivity|].
  destruct (validate_predictions_metrics_ordered four_predictions four_actuals metrics Hfit Hrun)
    as [(_ & Hperfect & _ & _ & Hthree & _) Herrors].
  split; [exact Hperfect|]. split; [exact Hthree|]. exact (Herrors Hsmall).
Defined.

(** The analysis of the validation batch. *)
Lemma detailed_analysis_top_three_witness :
  exists a,
    Validator._detailed_analysis [1; 2; 3; 4]%Z [1; 3; 2; 4]%Z ["A"; "B"; "C"; "D"]%string = Ok a /\
    (length (Validator.biggest_surprises a) <= 3)%nat /\
    Spec.descending (Validator.biggest_surprises a).
Proof.
  destruct (Validator._detailed_analysis [1; 2; 3; 4]%Z [1; 3; 2; 4]%Z ["A"; "B"; "C"; "D"]%string)
    as [a|e] eqn:Hrun; [|vm_compute in Hrun; discriminate].
  exists a. split; [reflexivity|].
  destruct (detailed_analysis_top_three _ _ _ a Hrun) as [(Hlen & Hdesc & _) _].
  split; assumption.
Defined.

(** The accuracy of the service on the validation batch. *)
Lemma placement_accuracy_is_within_one_witness :
  length [1; 2; 3; 4]%Z = length [1; 3; 2; 4]%Z /\ [1; 2; 3; 4]%Z <> [] /\
  Spec.within (2 ^ 62 - 1) [1; 2; 3; 4]%Z /\ Spec.within (2 ^ 62 - 1) [1; 3; 2; 4]%Z /\
  exists accuracy within_1,
    Service._calculate_placement_accuracy [1; 2; 3; 4]%Z [1; 3; 2; 4]%Z = Ok accuracy /\
    Validator._accuracy_within_range [1; 2; 3; 4]%Z [1; 3; 2; 4]%Z 1 = Ok within_1 /\
    accuracy == within_1.
Proof.
  assert (Hne : [1; 2; 3; 4]%Z <> []) by discriminate.
  assert (Hactual : Spec.within (2 ^ 62 - 1) [1; 2; 3; 4]%Z) by (repeat constructor; simpl; lia).
  assert (Hpredicted : Spec.within (2 ^ 62 - 1) [1; 3; 2; 4]%Z)
    by (repeat constructor; simpl; lia).
  split; [reflexivity|]. split; [exact Hne|]. split; [exact Hactual|]. split; [exact Hpredicted|].
  exact (placement_accuracy_is_within_one [1; 2; 3; 4]%Z [1; 3; 2; 4]%Z eq_refl Hne
           Hactual Hpredicted).
Defined.

(** The teams of the played tournament, by id. *)
Lemma team_lookup_by_id_witness :
  NoDup (Tournament.get_team_ids played_tournament) /\
  Tournament.find_team_by_id played_tournament "loud" = Some (entry "loud" None) /\
  Tournament.get_actual_placements played_tournament !! "loud"%string = None /\
  Tournament.get_actual_placements played_tournament !! "furia"%string = Some 3%Z.
Proof.
  assert (Hnd : NoDup (Tournament.get_team_ids played_tournament)).
  { apply (bool_decide_unpack _). vm_compute. exact I. }
  split; [exact Hnd|].
  destruct (team_lookup_by_id played_tournament Hnd) as [Hteams _].
  destruct (Hteams (entry "loud" None)) as [Hfind Hplace];
    [apply list_elem_of_In; simpl; auto|].
  destruct (Hteams (entry "furia" (Some 3%Z))) as [_ Hfuria];
    [apply list_elem_of_In; simpl; auto|].
  repeat split; assumption.
Defined.

(** The two tournaments of the configuration section. *)
Lemma load_tournaments_first_team_witness :
  NoDup (map fst tournaments_section) /\
  exists self,
    Tournament.init (Some tournaments_section) = Ok self /\
    Tournament.list_tournaments self = ["gc_2024"; "gc_2025"]%string /\
    exists config,
      Tournament.get_tournament self "gc_2025" = Some config /\
      Tournament.is_historical config = false /\
      Tournament.get_actual_placements config !! "loud"%string = Some 2%Z.
Proof.
  assert (Hnd : NoDup (map fst tournaments_section)).
  { apply (bool_decide_unpack _). vm_compute. exact I. }
  assert (Hcomplete : Forall (fun item => is_Some (Tournament.data_name item.2) /\
                                          is_Some (Tournament.data_teams item.2))
                        tournaments_section).
  { repeat constructor; simpl; eauto. }
  split; [exact Hnd|].
  destruct (load_tournaments_first_team tournaments_section Hnd Hcomplete)
    as (self & Hrun & Hkeys & Hitems).
  exists self. split; [exact Hrun|]. split; [exact Hkeys|].
  vm_compute in Hrun. injection Hrun as <-. eexists. split; [reflexivity|]. split; reflexivity.
Defined.

(** The key [models.ridge.alpha] of the settings. *)
Lemma get_follows_path_witness :
  ["models"; "ridge"; "alpha"]%string <> [] /\
  Config.get settings "models.ridge.alpha" None = Some (Config.Scalar "1.0") /\
  Config.get settings "name.first" None = None.
Proof.
  assert (Hne : ["models"; "ridge"; "alpha"]%string <> []) by discriminate.
  assert (Hparts : Forall (fun part => ~ In "."%char (list_ascii_of_string part))
                     ["models"; "ridge"; "alpha"]%string).
  { repeat constructor; simpl; intuition discriminate. }
  split; [exact Hne|].
  destruct (get_follows_path settings ["models"; "ridge"; "alpha"]%string None Hne Hparts)
    as [Hget _].
  split; [exact Hget|]. reflexivity.
Defined.

End MoreInstances.
